(** * footron-build-manager: the incremental deployment handler

    A shallow embedding of [footron_build_manager/data.py],
    [footron_build_manager/config.py] and of the webhook handler
    [handle_workflow_run_completed] of [footron_build_manager/server.py],
    together with the properties of the deployment pipeline that the
    specification states about them.

    Python dictionaries with string keys are finite maps ([gmap string _]),
    Python sets are finite sets ([gset string]); the handler is written in a
    state-and-exception monad over the in-memory build data, the persisted
    data file and the log of the calls made to the outside world. *)

From Stdlib Require Import ZArith Ascii String.
From stdpp Require Import base option list gmap sets strings pretty fin_maps.

Open Scope string_scope.
Open Scope list_scope.

#[local] Set Warnings "-register-all,-clear-no-such-hyp".

(** ** JSON documents

    The part of JSON that [json.dump] produces for a [BuildData] and that
    [BuildData.parse_obj] accepts: objects and strings. *)

Inductive json : Type :=
| JString (s : string)
| JObject (members : list (string * json)).

(** [json.load] builds a dict out of an object: of two members with the
    same name the later one wins. [list_to_map] keeps the earlier one, hence
    the [reverse]. *)
Definition dict_of_members {A} (ms : list (string * A)) : gmap string A :=
  list_to_map (reverse ms).

(** ** [data.py] *)

Module Data.

(** [class Target(BaseModel): hashes: Dict[str, str] = {}] *)
Record Target : Type := mkTarget { hashes : gmap string string }.

(** [class BuildData(BaseModel): targets: Dict[str, Target] = {}] *)
Record BuildData : Type := mkBuildData { targets : gmap string Target }.

(** [DataTarget()]: the default value of the field. *)
Definition default_target : Target := mkTarget ∅.

(** [build_data.dict()] followed by [json.dump]: the document written. *)
Definition hashes_to_json (h : gmap string string) : json :=
  JObject ((λ kv : string * string, (kv.1, JString kv.2)) <$> map_to_list h).

Definition target_to_json (t : Target) : json :=
  JObject [("hashes", hashes_to_json (hashes t))].

Definition to_json (d : BuildData) : json :=
  JObject [("targets",
            JObject ((λ bt : string * Target, (bt.1, target_to_json bt.2))
                       <$> map_to_list (targets d)))].

(** [BuildData.parse_obj]: pydantic validation of the loaded document. A
    missing field takes its default, a value of the wrong shape is a
    validation error ([None]). *)
Definition parse_str (j : json) : option string :=
  match j with JString s => Some s | JObject _ => None end.

Definition parse_dict {A} (parse : json → option A) (j : json)
  : option (gmap string A) :=
  match j with
  | JString _ => None
  | JObject ms =>
      dict_of_members <$>
        mapM (λ kv : string * json, v ← parse kv.2; Some (kv.1, v)) ms
  end.

Definition parse_field {A} (name : string) (parse : json → option A)
    (default : A) (j : json) : option A :=
  match j with
  | JString _ => None
  | JObject ms =>
      match dict_of_members ms !! name with
      | None => Some default
      | Some v => parse v
      end
  end.

Definition parse_target (j : json) : option Target :=
  mkTarget <$> parse_field "hashes" (parse_dict parse_str) ∅ j.

Definition parse_obj (j : json) : option BuildData :=
  mkBuildData <$> parse_field "targets" (parse_dict parse_target) ∅ j.

(** The data file: [None] while [DATA_PATH] does not exist, otherwise the
    document it holds. *)
Definition file : Type := option json.

(** [load_build_data]; [None] is pydantic's validation error. *)
Definition load_build_data (f : file) : option BuildData :=
  match f with
  | None => Some (mkBuildData ∅)
  | Some j => parse_obj j
  end.

(** [save_build_data]: the file is created when missing and its content
    replaced by the dump of [build_data]. *)
Definition save_build_data (build_data : BuildData) (f : file) : file :=
  Some (to_json build_data).

End Data.

(** ** [config.py] *)

Module Config.

(** [":" in s] *)
Fixpoint has_colon (s : string) : bool :=
  match s with
  | EmptyString => false
  | String c r => if decide (c = ":"%char) then true else has_colon r
  end.

(** [s.split(":")] *)
Fixpoint split_colon (s : string) : list string :=
  match s with
  | EmptyString => [EmptyString]
  | String c r =>
      if decide (c = ":"%char) then EmptyString :: split_colon r
      else match split_colon r with
           | [] => [String c EmptyString]
           | w :: ws => String c w :: ws
           end
  end.

(** [class Target(BaseModel)] of the configuration. *)
Record Target : Type := mkTarget {
  controller_path : string;
  web_path : string;
  colors_path : string;
  controller_api_url : string
}.

(** The property [controller_host]. *)
Definition controller_host (t : Target) : option string :=
  if negb (has_colon (controller_path t)) then None
  else split_colon (controller_path t) !! 0%nat.

(** The property [controller_fs_path]. When the path holds a colon the split
    has a second element, so that the index [1] is in range. *)
Definition controller_fs_path (t : Target) : string :=
  if negb (has_colon (controller_path t)) then controller_path t
  else default EmptyString (split_colon (controller_path t) !! 1%nat).

End Config.

(** ** [server.py] *)

Module Server.

(** The fields of a [workflow_run] webhook payload that the handler reads. *)
Record Event : Type := mkEvent {
  status : string;
  event : string;
  head_branch : string;
  head_sha : string;
  name : string;
  artifacts_url : string;
  repository_full_name : string
}.

(** An entry of the artifacts listing: [name] and [archive_download_url]. *)
Record Artifact : Type := mkArtifact {
  artifact_name : string;
  archive_download_url : string
}.

(** Calls that leave the process, in the order they are made. *)
Inductive op : Type :=
| OGet (url : string)
    (* [requests.get] of [github_get_request] *)
| OStatus (repository_name sha state context : string)
          (description : option string)
    (* [create_status] of [set_commit_status] *)
| ORun (argv : list string)
    (* [subprocess.run] *)
| OReload (url : string)
    (* [requests.get] of [reload_controller] *)
| OSave (doc : json).
    (* [json.dump] of [save_build_data] *)

#[global] Instance json_eq_dec : EqDecision json.
Proof.
  refine (fix go (x y : json) {struct x} : Decision (x = y) :=
    match x, y with
    | JString a, JString b => cast_if (decide (a = b))
    | JObject l1, JObject l2 =>
        cast_if ((fix gol (l1 l2 : list (string * json)) {struct l1}
                   : Decision (l1 = l2) :=
                   match l1, l2 with
                   | [], [] => left eq_refl
                   | (k1, v1) :: r1, (k2, v2) :: r2 =>
                       cast_if_and3 (decide (k1 = k2)) (go v1 v2) (gol r1 r2)
                   | _, _ => right _
                   end) l1 l2)
    | _, _ => right _
    end); abstract congruence.
Defined.

#[global] Instance op_eq_dec : EqDecision op.
Proof. solve_decision. Defined.

(** Exceptions that leave the handler. *)
Inductive exn : Type :=
| HTTPException (status_code : Z) (detail : string)
| RuntimeError (msg : string)
| GithubException   (* [create_status] failed *)
| HTTPError         (* [raise_for_status] *)
| OSError           (* [subprocess.run] could not start the command *)
| JSONError         (* [hashes.json] missing or not a flat string map *)
| KeyError (key : string).

Inductive Result (A : Type) : Type :=
| Ok (a : A)
| Raise (e : exn).
Arguments Ok {A} a.
Arguments Raise {A} e.

(** The outside world. Every answer may depend on the calls made so far.

    - [http_get]: the artifacts listing, [None] when [raise_for_status]
      raises;
    - [create_status_ok]: whether the status sink accepts the report;
    - [run]: the return code of the command, [None] when it cannot be
      started; [subprocess.run] is called without [check], so that a
      non-zero return code raises nothing;
    - [reload_ok]: whether the reload endpoint answers without HTTP error;
    - [read_hashes]: the content of the manifest at a path;
    - [temp_dir]: the name of the scratch directory;
    - [strftime_dH]: [datetime.now().strftime("%d%H")];
    - [elapsed_seconds]: [int(round(time.time() - start_time))];
    - [urljoin]: [urllib.parse.urljoin];
    - [GITHUB_ACCESS_TOKEN]: the constant of [constants.py], as an f-string
      renders it. *)
Record Env : Type := mkEnv {
  http_get : list op → string → option (list Artifact);
  create_status_ok : list op → op → bool;
  run : list op → list string → option Z;
  reload_ok : list op → string → bool;
  read_hashes : string → option (gmap string string);
  temp_dir : string;
  strftime_dH : list op → string;
  elapsed_seconds : list op → Z;
  urljoin : string → string → string;
  GITHUB_ACCESS_TOKEN : string
}.

(** The state a run works on: the global [data], the data file and the log
    of the calls made. *)
Record State : Type := mkState {
  data : Data.BuildData;
  disk : Data.file;
  trace : list op
}.

Definition M (A : Type) : Type := State → Result A * State.

#[global] Instance M_ret : MRet M := λ A a s, (Ok a, s).

#[global] Instance M_bind : MBind M := λ A B f m s,
  match m s with
  | (Ok a, s') => f a s'
  | (Raise e, s') => (Raise e, s')
  end.

Definition raise {A} (e : exn) : M A := λ s, (Raise e, s).

Definition log (o : op) (s : State) : State :=
  mkState (data s) (disk s) (trace s ++ [o]).

Definition set_data (d : Data.BuildData) (s : State) : State :=
  mkState d (disk s) (trace s).

(** [for x in xs: body(x)] *)
Fixpoint for_ {A} (xs : list A) (body : A → M unit) : M unit :=
  match xs with
  | [] => mret tt
  | x :: xs' => body x ;; for_ xs' body
  end.

(** A [for] loop that updates a local variable. *)
Fixpoint for_acc {A B} (xs : list A) (acc : B) (body : B → A → M B) : M B :=
  match xs with
  | [] => mret acc
  | x :: xs' => acc' ← body acc x; for_acc xs' acc' body
  end.

(** [d[k]] on a dict. *)
Definition dict_get {A} (d : gmap string A) (k : string) : M A :=
  match d !! k with
  | Some v => mret v
  | None => raise (KeyError k)
  end.

(** [Path / name] and [str] of the result. *)
Definition path_join (dir name : string) : string := dir +:+ "/" +:+ name.

Definition dquote : string := String "034"%char EmptyString.

(** [shlex.split] on words separated by blanks, a word or a part of it
    possibly between double quotes; this covers what
    [ssh_production_option] returns. *)
Fixpoint shlex_split_go (s : string) (quoted : bool) (word : option string)
  : list string :=
  match s with
  | EmptyString => option_list word
  | String c r =>
      if decide (c = "034"%char) then
        shlex_split_go r (negb quoted) (Some (default EmptyString word))
      else if bool_decide (c = " "%char) && negb quoted then
        option_list word ++ shlex_split_go r false None
      else
        shlex_split_go r quoted
          (Some (default EmptyString word +:+ String c EmptyString))
  end.

Definition shlex_split (s : string) : list string :=
  shlex_split_go s false None.

(** The artifact search: [for artifact in artifacts: if artifact["name"] ==
    wanted: url = artifact["archive_download_url"]; break]; [None] stands
    for the [else] of the loop. *)
Fixpoint find_artifact (wanted : string) (artifacts : list Artifact)
  : option string :=
  match artifacts with
  | [] => None
  | artifact :: rest =>
      if decide (artifact_name artifact = wanted)
      then Some (archive_download_url artifact)
      else find_artifact wanted rest
  end.

(** *** The diff of the manifest against the stored fingerprints *)

Definition new_hashes (hashes existing_hashes : gmap string string)
  : gset string := dom hashes ∖ dom existing_hashes.

Definition deleted_hashes (hashes existing_hashes : gmap string string)
  : gset string := dom existing_hashes ∖ dom hashes.

Definition overlapping_hashes (hashes existing_hashes : gmap string string)
  : gset string := dom hashes ∩ dom existing_hashes.

(** The loop over [overlapping_hashes] that fills [changed_hashes], on the
    two dicts. In the handler [existing_hashes] is the stored dict itself,
    which the insertions of the new keys have already changed when the loop
    runs; [wp_changed_loop] below shows that the loop of the handler returns
    this set. *)
Definition changed_hashes (hashes existing_hashes : gmap string string)
  : gset string :=
  foldl (λ (changed : gset string) hash_key,
           if decide (hashes !! hash_key ≠ existing_hashes !! hash_key)
           then changed ∪ {[hash_key]} else changed)
        ∅ (elements (overlapping_hashes hashes existing_hashes)).

(** The handler has no variable for the keys it leaves alone: they are the
    overlapping keys that the loop does not put into [changed_hashes]. *)
Definition unchanged_hashes (hashes existing_hashes : gmap string string)
  : gset string :=
  overlapping_hashes hashes existing_hashes
    ∖ changed_hashes hashes existing_hashes.

Section Handler.

Context (env : Env) (config : gmap string Config.Target).

Definition github_get_request (url : string) : M (list Artifact) := λ s,
  (match http_get env (trace s) url with
   | Some response => Ok response
   | None => Raise HTTPError
   end,
   log (OGet url) s).

Definition reload_controller (target : Config.Target) : M unit := λ s,
  let url := urljoin env (Config.controller_api_url target) "reload" in
  (if reload_ok env (trace s) url then Ok tt else Raise HTTPError,
   log (OReload url) s).

Definition set_commit_status (repository_name sha state context : string)
    (description : option string) : M unit := λ s,
  let o := OStatus repository_name sha state ("footron-ci/" +:+ context)
             description in
  (if create_status_ok env (trace s) o then Ok tt else Raise GithubException,
   log o s).

Definition ssh_production_option : M string := λ s,
  (Ok ("-o " +:+ dquote +:+ "SetEnv=FT_PRODUCTION="
         +:+ strftime_dH env (trace s) +:+ dquote), s).

Definition rsync_ssh_production_command : M string :=
  option ← ssh_production_option; mret ("ssh " +:+ option).

Definition subprocess_run (argv : list string) : M Z := λ s,
  (match run env (trace s) argv with
   | Some returncode => Ok returncode
   | None => Raise OSError
   end,
   log (ORun argv) s).

(** [with open(path) as f: json.load(f)] for the manifest. *)
Definition json_load (path : string) : M (gmap string string) :=
  match read_hashes env path with
  | Some hashes => mret hashes
  | None => raise JSONError
  end.

(** [branch in data.targets] *)
Definition targets_contains (branch : string) : M bool := λ s,
  (Ok (bool_decide (is_Some (Data.targets (data s) !! branch))), s).

(** [data.targets[branch] = target] *)
Definition targets_setitem (branch : string) (target : Data.Target)
  : M unit := λ s,
  (Ok tt,
   set_data (Data.mkBuildData (<[branch:=target]> (Data.targets (data s)))) s).

(** [data.targets[branch]] *)
Definition targets_getitem (branch : string) : M Data.Target := λ s,
  match Data.targets (data s) !! branch with
  | Some target => (Ok target, s)
  | None => (Raise (KeyError branch), s)
  end.

(** [data.targets[branch].hashes[hash_key]]; the handler's
    [existing_hashes] is this very dict, not a copy of it. *)
Definition hashes_getitem (branch hash_key : string) : M string :=
  target ← targets_getitem branch;
  dict_get (Data.hashes target) hash_key.

(** [data.targets[branch].hashes[hash_key] = value] *)
Definition hashes_setitem (branch hash_key value : string) : M unit :=
  target ← targets_getitem branch;
  targets_setitem branch
    (Data.mkTarget (<[hash_key:=value]> (Data.hashes target))).

(** [del data.targets[branch].hashes[hash_key]] *)
Definition hashes_delitem (branch hash_key : string) : M unit :=
  target ← targets_getitem branch;
  dict_get (Data.hashes target) hash_key;;
  targets_setitem branch
    (Data.mkTarget (delete hash_key (Data.hashes target))).

(** [data.targets[branch].hashes = hashes] *)
Definition hashes_assign (branch : string) (hashes : gmap string string)
  : M unit :=
  targets_getitem branch;;
  targets_setitem branch (Data.mkTarget hashes).

(** [save_build_data(data)] *)
Definition save_build_data : M unit := λ s,
  (Ok tt,
   log (OSave (Data.to_json (data s)))
     (mkState (data s) (Data.save_build_data (data s) (disk s)) (trace s))).

(** The descriptions of the progress reports. *)
Definition pending (ev : Event) (description : string) : M unit :=
  set_commit_status (repository_full_name ev) (head_sha ev) "pending"
    (name ev) (Some description).

(** [curl -H "Authorization: token ..." -L url -o path] *)
Definition curl_argv (url path : string) : list string :=
  ["curl"; "-H"; "Authorization: token " +:+ GITHUB_ACCESS_TOKEN env;
   "-L"; url; "-o"; path].

(** The [build-controls] branch of the handler. *)
Definition deploy_controls (ev : Event) (target : Config.Target) : M unit :=
  artifacts ← github_get_request (artifacts_url ev);
  experiences_build_url ←
    match find_artifact "web-build" artifacts with
    | Some url => mret url
    | None => raise (RuntimeError "Missing web build")
    end;
  let temp_path := temp_dir env in
  let web_build_zip_path := path_join temp_path "web-build.zip" in
  pending ev "Downloading artifacts";;
  subprocess_run (curl_argv experiences_build_url web_build_zip_path);;
  pending ev "Extracting artifacts";;
  subprocess_run
    ["unzip"; web_build_zip_path; "-d"; path_join temp_path "build"];;
  pending ev "Copying web build";;
  rsh ← rsync_ssh_production_command;
  subprocess_run
    ["rsync"; "-e"; rsh; "-a"; "--delete";
     path_join temp_path "build" +:+ "/"; Config.web_path target];;
  pending ev "Reloading controller";;
  reload_controller target.

(** The removal of one experience: over [ssh] when the target names a
    host, on the local file system otherwise. *)
Definition remove_experience (target : Config.Target) (hash_key : string)
  : M Z :=
  let controller_host := Config.controller_host target in
  let controller_fs_path := Config.controller_fs_path target in
  match controller_host with
  | Some host =>
      if decide (host = EmptyString) then
        subprocess_run
          ["rm"; "-rf"; controller_fs_path +:+ "/experiences/" +:+ hash_key]
      else
        option ← ssh_production_option;
        subprocess_run
          (["ssh"] ++ shlex_split option ++
           [host;
            "rm -rf " +:+ controller_fs_path +:+ "/experiences/"
              +:+ hash_key])
  | None =>
      subprocess_run
        ["rm"; "-rf"; controller_fs_path +:+ "/experiences/" +:+ hash_key]
  end.

(** The transfer of one experience. *)
Definition sync_experience (target : Config.Target) (temp_path : string)
    (hash_key : string) : M Z :=
  rsh ← rsync_ssh_production_command;
  subprocess_run
    ["rsync"; "-avP"; "--delete"; "-e"; rsh;
     "--exclude=*.mp4"; "--exclude=*.webm";
     path_join (path_join temp_path "experiences") hash_key +:+ "/";
     Config.controller_path target +:+ "/experiences/" +:+ hash_key].

(** The transfer of the editorial configuration files. *)
Definition sync_editorial_configs (target : Config.Target)
    (temp_path : string) : M Z :=
  rsh ← rsync_ssh_production_command;
  subprocess_run
    (["rsync"; "-avP"; "--delete"; "-e"; rsh] ++
     ((λ file, temp_path +:+ "/" +:+ file +:+ ".toml")
        <$> ["folders"; "tags"; "collections"]) ++
     [Config.controller_path target]).

(** The [build-experiences] branch of the handler. *)
Definition deploy_experiences (ev : Event) (target : Config.Target)
  : M unit :=
  let branch := head_branch ev in
  artifacts ← github_get_request (artifacts_url ev);
  experiences_build_url ←
    match find_artifact "experiences" artifacts with
    | Some url => mret url
    | None => raise (RuntimeError "Missing experiences build")
    end;
  let temp_path := temp_dir env in
  let web_build_zip_path := path_join temp_path "experiences.zip" in
  pending ev "Downloading artifacts";;
  subprocess_run (curl_argv experiences_build_url web_build_zip_path);;
  pending ev "Extracting artifacts";;
  subprocess_run ["unzip"; web_build_zip_path; "-d"; temp_path];;
  pending ev "Comparing hashes";;
  hashes ← json_load (path_join temp_path "hashes.json");
  known ← targets_contains branch;
  (if known : bool then mret tt
   else targets_setitem branch Data.default_target);;
  existing ← targets_getitem branch;
  let existing_hashes := Data.hashes existing in
  let new_hashes := new_hashes hashes existing_hashes in
  let deleted_hashes := deleted_hashes hashes existing_hashes in
  let overlapping_hashes := overlapping_hashes hashes existing_hashes in
  for_ (elements new_hashes) (λ hash_key,
    value ← dict_get hashes hash_key;
    hashes_setitem branch hash_key value);;
  changed_hashes ←
    for_acc (elements overlapping_hashes) (∅ : gset string)
      (λ changed_hashes hash_key,
         new_value ← dict_get hashes hash_key;
         old_value ← hashes_getitem branch hash_key;
         mret (if decide (new_value ≠ old_value)
               then changed_hashes ∪ {[hash_key]}
               else changed_hashes));
  pending ev "Deleting deleted experiences";;
  for_ (elements deleted_hashes) (λ hash_key,
    hashes_delitem branch hash_key;;
    remove_experience target hash_key;;
    mret tt);;
  pending ev "Syncing experiences";;
  for_ (elements (changed_hashes ∪ new_hashes)) (λ hash_key,
    sync_experience target temp_path hash_key;;
    mret tt);;
  hashes_assign branch hashes;;
  save_build_data;;
  pending ev "Syncing editorial configs";;
  sync_editorial_configs target temp_path;;
  pending ev "Reloading controller";;
  reload_controller target.

(** The last statement of the handler: the report of success. *)
Definition report_success (ev : Event) : M unit := λ s,
  set_commit_status (repository_full_name ev) (head_sha ev) "success"
    (name ev)
    (Some ("Successful in " +:+ pretty (elapsed_seconds env (trace s))
             +:+ "s")) s.

Definition handle_workflow_run_completed (ev : Event) : M unit :=
  if decide (status ev ≠ "completed" ∨ event ev ≠ "push") then mret tt
  else
    let branch := head_branch ev in
    match config !! branch with
    | None => mret tt
    | Some target =>
        let event_name := name ev in
        if decide (event_name ∉ ["build-controls"; "build-experiences"])
        then raise (HTTPException 400 "Unknown event name")
        else
          (if decide (event_name = "build-controls")
           then deploy_controls ev target
           else if decide (event_name = "build-experiences")
           then deploy_experiences ev target
           else mret tt);;
          report_success ev
    end.

(** A webhook delivery: the handler run on the global [data] and the data
    file, with an empty log. *)
Definition deliver (ev : Event) (d : Data.BuildData) (f : Data.file)
  : Result unit * State :=
  handle_workflow_run_completed ev (mkState d f []).

End Handler.

End Server.

(** ** [server.py]: the queued jobs and the webhook endpoint *)

Module Webhook.

Import Server.

(** The fields of a [workflow_job] webhook payload that the handler reads,
    with [repository.full_name]. *)
Record JobEvent : Type := mkJobEvent {
  job_name : string;
  run_url : string;
  job_head_sha : string;
  job_repository_full_name : string
}.

(** The parsed body of a delivery. A key that the body lacks is [None]:
    reading it raises [KeyError]. *)
Record Payload : Type := mkPayload {
  action : option string;
  workflow_run : option Event;
  workflow_job : option JobEvent
}.

(** A request to [/build/webhook]: the headers [X-Hub-Signature-256] and
    [X-GitHub-Event], the raw body, and the body parsed by [request.json()],
    [None] when it is not JSON. *)
Record Request : Type := mkRequest {
  signature_256 : option string;
  github_event : option string;
  body : string;
  payload : option Payload
}.

Section Endpoint.

(** [secret] is [GITHUB_WEBHOOK_SECRET], [None] when the variable is not
    set; [hmac_sha256 key body] is [hmac.new(key, body, sha256).hexdigest()];
    [run_get] is the answer of the API to the request of a run, [None] when
    [raise_for_status] raises. *)
Context (env : Env) (config : gmap string Config.Target).
Context (secret : option string) (hmac_sha256 : string → string → string).
Context (run_get : list op → string → option (gmap string string)).

(** [verify_github_webhook] *)
Definition verify_github_webhook (request : Request) : M unit :=
  match secret with
  | None => raise (HTTPException 500 "GITHUB_WEBHOOK_TOKEN not set")
  | Some key =>
      if decide (key = EmptyString)
      then raise (HTTPException 500 "GITHUB_WEBHOOK_TOKEN not set")
      else if decide (signature_256 request
                      = Some ("sha256=" +:+ hmac_sha256 key (body request)))
      then mret tt
      else raise (HTTPException 401 "Unauthorized")
  end.

(** [github_get_request] on the URL of a run: the response is the run, a
    dict. *)
Definition github_get_run_request (url : string)
  : M (gmap string string) := λ s,
  (match run_get (trace s) url with
   | Some response => Ok response
   | None => Raise HTTPError
   end,
   log (OGet url) s).

(** [handle_workflow_job_queued]. The condition of the second [if] is an
    [or]: the key [branch] of the response is read only when the two tests
    before it are false. The report is the [create_status] of lines 337 to
    341, which is what [set_commit_status] does. *)
Definition handle_workflow_job_queued (workflow_job : JobEvent) : M unit :=
  if decide (job_name workflow_job ≠ "build") then mret tt
  else
    run_response ← github_get_run_request (run_url workflow_job);
    event_name ← dict_get run_response "name";
    run_event ← dict_get run_response "event";
    skip ←
      (if decide (run_event ≠ "push") then mret true
       else if decide (event_name ∉ ["build-experiences"; "build-controls"])
       then mret true
       else
         branch ← dict_get run_response "branch";
         mret (bool_decide (config !! branch = None)));
    if skip : bool then mret tt
    else
      set_commit_status env (job_repository_full_name workflow_job)
        (job_head_sha workflow_job) "pending" event_name
        (Some "Waiting for build to finish").

(** [payload[key]] *)
Definition payload_get {A} (key : string) (field : option A) : M A :=
  match field with
  | Some v => mret v
  | None => raise (KeyError key)
  end.

(** [handle_webhook]; the value returned is [{"status": "ok"}]. *)
Definition handle_webhook (request : Request) : M json :=
  verify_github_webhook request;;
  payload ←
    match payload request with
    | Some payload => mret payload
    | None => raise JSONError
    end;
  let event_type := github_event request in
  (if decide (event_type = Some "workflow_run") then
     action ← payload_get "action" (action payload);
     if decide (action = "completed") then
       event ← payload_get "workflow_run" (workflow_run payload);
       handle_workflow_run_completed env config event
     else mret tt
   else if decide (event_type = Some "workflow_job") then
     action ← payload_get "action" (action payload);
     if decide (action = "queued") then
       event ← payload_get "workflow_job" (workflow_job payload);
       handle_workflow_job_queued event
     else mret tt
   else mret tt);;
  mret (JObject [("status", JString "ok")]).

End Endpoint.

End Webhook.


(** ** Vocabulary for the properties of runs *)

Import Server.

(** [wp m s Q]: the run of [m] from [s] ends in a result and a state that
    satisfy [Q]. *)
Definition wp {A} (m : M A) (s : State) (Q : Result A → State → Prop)
  : Prop :=
  Q (m s).1 (m s).2.

(** Whether the outside world answers a call with an exception. *)
Definition refused (env : Env) (history : list op) (o : op) : bool :=
  match o with
  | OGet url => bool_decide (http_get env history url = None)
  | OStatus _ _ _ _ _ => negb (create_status_ok env history o)
  | ORun argv => bool_decide (run env history argv = None)
  | OReload url => negb (reload_ok env history url)
  | OSave _ => false
  end.

Definition exn_of (o : op) : exn :=
  match o with
  | OGet _ | OReload _ => HTTPError
  | OStatus _ _ _ _ _ => GithubException
  | ORun _ | OSave _ => OSError
  end.

(** The fingerprints stored for a branch, none when the branch is new. *)
Definition stored_hashes (d : Data.BuildData) (branch : string)
  : gmap string string :=
  match Data.targets d !! branch with
  | Some target => Data.hashes target
  | None => ∅
  end.

(** The value of [ssh_production_option()] at a given day and hour. *)
Definition production_option (dH : string) : string :=
  "-o " +:+ dquote +:+ "SetEnv=FT_PRODUCTION=" +:+ dH +:+ dquote.

Definition remove_argv (target : Config.Target) (dH hash_key : string)
  : list string :=
  let path := Config.controller_fs_path target +:+ "/experiences/"
                +:+ hash_key in
  match Config.controller_host target with
  | Some host =>
      if decide (host = EmptyString) then ["rm"; "-rf"; path]
      else ["ssh"] ++ shlex_split (production_option dH)
             ++ [host; "rm -rf " +:+ path]
  | None => ["rm"; "-rf"; path]
  end.

Definition sync_argv (target : Config.Target) (temp_path dH hash_key : string)
  : list string :=
  ["rsync"; "-avP"; "--delete"; "-e"; "ssh " +:+ production_option dH;
   "--exclude=*.mp4"; "--exclude=*.webm";
   path_join (path_join temp_path "experiences") hash_key +:+ "/";
   Config.controller_path target +:+ "/experiences/" +:+ hash_key].

Definition editorial_argv (target : Config.Target) (temp_path dH : string)
  : list string :=
  ["rsync"; "-avP"; "--delete"; "-e"; "ssh " +:+ production_option dH;
   temp_path +:+ "/folders.toml"; temp_path +:+ "/tags.toml";
   temp_path +:+ "/collections.toml"; Config.controller_path target].

Definition mirror_web_argv (target : Config.Target) (temp_path dH : string)
  : list string :=
  ["rsync"; "-e"; "ssh " +:+ production_option dH; "-a"; "--delete";
   path_join temp_path "build" +:+ "/"; Config.web_path target].

(** [o] removes the remote directory of [hash_key]. *)
Definition remove_call (target : Config.Target) (hash_key : string) (o : op)
  : Prop := ∃ dH, o = ORun (remove_argv target dH hash_key).

(** [o] mirrors the scratch directory of [hash_key] to the target. *)
Definition sync_call (target : Config.Target) (temp_path hash_key : string)
    (o : op) : Prop :=
  ∃ dH, o = ORun (sync_argv target temp_path dH hash_key).

(** Every call of [ops], made in this order after [history], was answered
    without an exception. *)
Fixpoint accepted (env : Env) (history ops : list op) : Prop :=
  match ops with
  | [] => True
  | o :: ops' =>
      refused env history o = false ∧ accepted env (history ++ [o]) ops'
  end.

(** A progress report of the run of [ev]. *)
Definition progress (ev : Event) (description : string) : op :=
  OStatus (repository_full_name ev) (head_sha ev) "pending"
    ("footron-ci/" +:+ name ev) (Some description).

(** The report of success after [secs] seconds. *)
Definition success_report (ev : Event) (secs : Z) : op :=
  OStatus (repository_full_name ev) (head_sha ev) "success"
    ("footron-ci/" +:+ name ev)
    (Some ("Successful in " +:+ pretty secs +:+ "s")).

(** The run ends at the first call that the outside world refuses: either
    every call of the log was accepted, or all but the last were and the
    exception of the last one is the result. *)
Definition stops_at_refusal (env : Env) (r : Result unit) (t : list op)
  : Prop :=
  accepted env [] t
  ∨ ∃ (t' : list op) (o : op), t = t' ++ [o] ∧ accepted env [] t'
            ∧ refused env t' o = true ∧ r = Raise (exn_of o).

(** The calls of the experiences pipeline up to the delete stage. *)
Definition experiences_fetch (env : Env) (ev : Event) (url : string)
  : list op :=
  [OGet (artifacts_url ev);
   progress ev "Downloading artifacts";
   ORun (curl_argv env url (path_join (temp_dir env) "experiences.zip"));
   progress ev "Extracting artifacts";
   ORun ["unzip"; path_join (temp_dir env) "experiences.zip"; "-d";
         temp_dir env];
   progress ev "Comparing hashes"].

(** A call made before the commit: a download, a progress report or a
    command. *)
Definition before_commit (ev : Event) (o : op) : Prop :=
  (∃ url, o = OGet url) ∨ (∃ description, o = progress ev description)
  ∨ (∃ argv, o = ORun argv).

(** The calls of the delete stage and of the sync stage. *)
Definition delete_stage_call (ev : Event) (target : Config.Target) (o : op)
  : Prop :=
  o = progress ev "Deleting deleted experiences"
  ∨ ∃ hash_key, remove_call target hash_key o.

Definition sync_stage_call (ev : Event) (target : Config.Target)
    (temp_path : string) (o : op) : Prop :=
  o = progress ev "Syncing experiences"
  ∨ ∃ hash_key, sync_call target temp_path hash_key o.

(** A call that does not belong to the sync stage. *)
Definition before_sync (ev : Event) (target : Config.Target)
    (temp_path : string) (o : op) : Prop :=
  o ≠ progress ev "Syncing experiences"
  ∧ ∀ hash_key, ¬ sync_call target temp_path hash_key o.

(** The run of the experiences pipeline raised before its commit: the data
    file is as it was, and the run stopped either before the sync stage or
    at a call of the sync stage. *)
Definition experiences_aborted (ev : Event) (target : Config.Target)
    (temp_path : string) (f : Data.file) (r : Result unit) (s' : State)
  : Prop :=
  (∃ e, r = Raise e)
  ∧ disk s' = f
  ∧ Forall (before_commit ev) (trace s')
  ∧ (Forall (before_sync ev target temp_path) (trace s')
     ∨ ∃ (pre : list op) (o : op),
         trace s' = pre ++ [o] ∧ sync_stage_call ev target temp_path o).

(** The calls that follow the commit. *)
Definition experiences_tail (env : Env) (ev : Event) (target : Config.Target)
    (dH : string) (secs : Z) : list op :=
  [progress ev "Syncing editorial configs";
   ORun (editorial_argv target (temp_dir env) dH);
   progress ev "Reloading controller";
   OReload (urljoin env (Config.controller_api_url target) "reload");
   success_report ev secs].

(** The run of the experiences pipeline reached its commit. *)
Definition experiences_committed (env : Env) (ev : Event)
    (target : Config.Target) (d : Data.BuildData)
    (r : Result unit) (s' : State) : Prop :=
  ∃ artifacts url hashes (dels syncs post : list op) dH secs,
    http_get env [] (artifacts_url ev) = Some artifacts
    ∧ find_artifact "experiences" artifacts = Some url
    ∧ read_hashes env (path_join (temp_dir env) "hashes.json") = Some hashes
    ∧ let old := stored_hashes d (head_branch ev) in
      let d' := Data.mkBuildData
                  (<[head_branch ev:=Data.mkTarget hashes]> (Data.targets d)) in
      Forall2 (remove_call target) (elements (deleted_hashes hashes old)) dels
      ∧ Forall2 (sync_call target (temp_dir env))
          (elements (changed_hashes hashes old ∪ new_hashes hashes old)) syncs
      ∧ data s' = d'
      ∧ disk s' = Some (Data.to_json d')
      ∧ trace s' =
          experiences_fetch env ev url
          ++ progress ev "Deleting deleted experiences" :: dels
          ++ progress ev "Syncing experiences" :: syncs
          ++ OSave (Data.to_json d') :: post
      ∧ post `prefix_of` experiences_tail env ev target dH secs
      ∧ (r = Ok tt → post = experiences_tail env ev target dH secs).

(** The calls of a complete run of the experiences pipeline: the fetch,
    the delete stage, the sync stage, the commit, and the tail. *)
Definition experiences_completed (env : Env) (ev : Event)
    (target : Config.Target) (d : Data.BuildData) (t : list op) : Prop :=
  ∃ artifacts url hashes (dels syncs : list op) dH secs,
    http_get env [] (artifacts_url ev) = Some artifacts
    ∧ find_artifact "experiences" artifacts = Some url
    ∧ read_hashes env (path_join (temp_dir env) "hashes.json") = Some hashes
    ∧ let old := stored_hashes d (head_branch ev) in
      Forall2 (remove_call target) (elements (deleted_hashes hashes old)) dels
      ∧ Forall2 (sync_call target (temp_dir env))
          (elements (changed_hashes hashes old ∪ new_hashes hashes old)) syncs
      ∧ t = experiences_fetch env ev url
            ++ progress ev "Deleting deleted experiences" :: dels
            ++ progress ev "Syncing experiences" :: syncs
            ++ OSave (Data.to_json
                        (Data.mkBuildData
                           (<[head_branch ev:=Data.mkTarget hashes]>
                              (Data.targets d))))
               :: experiences_tail env ev target dH secs.

(** The calls of a complete run of the controls pipeline. *)
Definition controls_plan (env : Env) (ev : Event) (target : Config.Target)
    (url dH : string) (secs : Z) : list op :=
  [OGet (artifacts_url ev);
   progress ev "Downloading artifacts";
   ORun (curl_argv env url (path_join (temp_dir env) "web-build.zip"));
   progress ev "Extracting artifacts";
   ORun ["unzip"; path_join (temp_dir env) "web-build.zip"; "-d";
         path_join (temp_dir env) "build"];
   progress ev "Copying web build";
   ORun (mirror_web_argv target (temp_dir env) dH);
   progress ev "Reloading controller";
   OReload (urljoin env (Config.controller_api_url target) "reload");
   success_report ev secs].

(** A run of the controls pipeline. *)
Definition controls_run (env : Env) (ev : Event) (target : Config.Target)
    (d : Data.BuildData) (f : Data.file) (r : Result unit) (s' : State)
  : Prop :=
  data s' = d ∧ disk s' = f
  ∧ ∃ url dH secs,
      trace s' `prefix_of` controls_plan env ev target url dH secs
      ∧ (r = Ok tt → trace s' = controls_plan env ev target url dH secs).

(** The state of a report, when the call is one. *)
Definition status_state (o : op) : option string :=
  match o with
  | OStatus _ _ state _ _ => Some state
  | _ => None
  end.

(** A call that is no report, or a progress report. *)
Definition quiet_or_progress (ev : Event) (o : op) : Prop :=
  status_state o = None ∨ ∃ description, o = progress ev description.

(** A call that is no report, a progress report or a report of success. *)
Definition never_failure (ev : Event) (o : op) : Prop :=
  quiet_or_progress ev o ∨ ∃ secs, o = success_report ev secs.

(** The last call of a run that returns is the report of success, with the
    seconds elapsed when it is made; no other report of an outcome comes
    before it. *)
Definition ends_with_success (env : Env) (ev : Event) (r : Result unit)
    (t : list op) : Prop :=
  r = Ok tt →
  ∃ pre : list op,
    t = pre ++ [success_report ev (elapsed_seconds env pre)]
    ∧ Forall (quiet_or_progress ev) pre.

(** [m] neither reads nor writes the build data and the data file. *)
Definition ignores_store {A} (m : M A) : Prop :=
  ∀ d f d' f' t,
    (m (mkState d f t)).1 = (m (mkState d' f' t)).1
    ∧ trace (m (mkState d f t)).2 = trace (m (mkState d' f' t)).2
    ∧ data (m (mkState d f t)).2 = d
    ∧ disk (m (mkState d f t)).2 = f.

(** A refused call ends the run: no call follows it and its exception is
    the result of the run. *)
Definition raise_ends_run (env : Env) (r : Result unit) (t : list op)
  : Prop :=
  ∀ (pre : list op) (o : op) (post : list op),
    t = pre ++ o :: post → refused env pre o = true →
    post = [] ∧ r = Raise (exn_of o).

(** The run left no trace of the stages that follow the delete stage: no
    experience was pushed, nothing was committed, no reload was requested,
    and the data file is as it was. *)
Definition nothing_pushed (target : Config.Target) (temp_path : string)
    (f : Data.file) (s' : State) : Prop :=
  (∀ o k, o ∈ trace s' → ¬ sync_call target temp_path k o)
  ∧ (∀ url, OReload url ∉ trace s')
  ∧ (∀ doc, OSave doc ∉ trace s')
  ∧ disk s' = f.

(** After the commit of a run on [ev] that started from the build data [d]:
    the branch holds the manifest, the other branches what they held, and
    the data file the dump of the build data. *)
Definition manifest_committed (env : Env) (ev : Event) (d : Data.BuildData)
    (s' : State) : Prop :=
  ∃ hashes,
    read_hashes env (path_join (temp_dir env) "hashes.json") = Some hashes
    ∧ Data.targets (data s') !! head_branch ev = Some (Data.mkTarget hashes)
    ∧ (∀ branch, branch ≠ head_branch ev →
         Data.targets (data s') !! branch = Data.targets d !! branch)
    ∧ disk s' = Some (Data.to_json (data s'))
    ∧ Data.load_build_data (disk s') = Some (data s').

(** The world of [env] in which every command that runs exits with 0. *)
Definition forget_return_codes (env : Env) : Env :=
  mkEnv (http_get env) (create_status_ok env)
        (λ history argv, (λ _, 0%Z) <$> run env history argv)
        (reload_ok env) (read_hashes env) (temp_dir env) (strftime_dH env)
        (elapsed_seconds env) (urljoin env) (GITHUB_ACCESS_TOKEN env).

(** [m] and [m'] end in the same state with the same result. *)
Definition same_run {A} (m m' : M A) : Prop := ∀ s, m s = m' s.

(** [m] and [m'] end in the same state, and both return or both raise the
    same exception; the values returned may differ. *)
Definition same_effect {A} (m m' : M A) : Prop :=
  ∀ s, (m s).2 = (m' s).2
       ∧ match (m s).1, (m' s).1 with
         | Ok _, Ok _ => True
         | Raise e, Raise e' => e = e'
         | _, _ => False
         end.

(** The exceptions that a delivery can end with. *)
Definition expected_exception (e : exn) : Prop :=
  e = HTTPException 400 "Unknown event name"
  ∨ e = HTTPError
  ∨ e = RuntimeError "Missing web build"
  ∨ e = RuntimeError "Missing experiences build"
  ∨ e = GithubException
  ∨ e = OSError
  ∨ e = JSONError.

(** The outside world refuses no call, and the listing of the run holds
    the artifact [wanted]. *)
Definition obliging (env : Env) (ev : Event) (wanted : string) : Prop :=
  (∀ history o, refused env history o = false)
  ∧ (∀ artifacts,
       http_get env [] (artifacts_url ev) = Some artifacts →
       is_Some (find_artifact wanted artifacts)).

(** What a delivery of [ev] that started from the build data [d] ends with:
    a normal return or one of the expected exceptions; a normal return
    when the world is obliging and [ready] holds; the fingerprints of the
    other branches as they were; a log that starts with the request of the
    artifacts listing. *)
Definition delivery_outcome (env : Env) (ev : Event) (wanted : string)
    (ready : Prop) (d : Data.BuildData) (r : Result unit) (s' : State)
  : Prop :=
  (r = Ok tt ∨ ∃ e, r = Raise e ∧ expected_exception e)
  ∧ (obliging env ev wanted → ready → r = Ok tt)
  ∧ (∀ branch, branch ≠ head_branch ev →
       Data.targets (data s') !! branch = Data.targets d !! branch)
  ∧ ∃ t, trace s' = OGet (artifacts_url ev) :: t.

(** [ev] is an event that the server watches: a completed run of a push
    on a registered branch. *)
Definition watched (config : gmap string Config.Target) (ev : Event)
  : Prop :=
  status ev = "completed" ∧ event ev = "push"
  ∧ is_Some (config !! head_branch ev).

(** [ev] is an event that the server deploys: a watched event of one of
    the two workflows. *)
Definition to_deploy (config : gmap string Config.Target) (ev : Event)
  : Prop :=
  watched config ev ∧ name ev ∈ ["build-controls"; "build-experiences"].



(** *** The endpoint and the queued jobs *)

(** The request carries the signature of its body under the secret. *)
Definition authentic (secret : option string)
    (hmac_sha256 : string → string → string) (request : Webhook.Request)
  : Prop :=
  ∃ key, secret = Some key ∧ key ≠ EmptyString
         ∧ Webhook.signature_256 request
           = Some ("sha256=" +:+ hmac_sha256 key (Webhook.body request)).

(** The body of the response of the endpoint. *)
Definition ok_response : json := JObject [("status", JString "ok")].

(** What the endpoint answers once the handler of a delivery is done. *)
Definition respond {A} (r : Result A) : Result json :=
  match r with
  | Ok _ => Ok ok_response
  | Raise e => Raise e
  end.

(** The report on a queued job of the workflow [workflow]. *)
Definition waiting_report (job : Webhook.JobEvent) (workflow : string) : op :=
  OStatus (Webhook.job_repository_full_name job) (Webhook.job_head_sha job)
    "pending" ("footron-ci/" +:+ workflow)
    (Some "Waiting for build to finish").

(** The run that a queued job belongs to is one that the server deploys:
    a push of a recognised workflow on a registered branch. *)
Definition deployable (config : gmap string Config.Target)
    (response : gmap string string) (workflow : string) : Prop :=
  response !! "name" = Some workflow
  ∧ workflow ∈ ["build-experiences"; "build-controls"]
  ∧ response !! "event" = Some "push"
  ∧ ∃ branch, response !! "branch" = Some branch
              ∧ is_Some (config !! branch).

(** ** A deployment used in the examples

    One target, [main], reached over [ssh]; the store holds the
    fingerprints of the experiences [a] and [b], the manifest of the new
    build those of [b] and [c]. *)

Module Scenario.

Definition target : Config.Target :=
  Config.mkTarget "kiosk:/opt/footron" "/srv/footron/web"
    "/srv/footron/colors" "http://kiosk:8000/".

Definition registry : gmap string Config.Target := {["main" := target]}.

Definition push (workflow branch : string) : Event :=
  mkEvent "completed" "push" branch "4f2a9c1" workflow
    "https://api.github.com/repos/BYU-PCCL/footron/actions/runs/7/artifacts"
    "BYU-PCCL/footron".

Definition listing : list Artifact :=
  [mkArtifact "web-build" "https://api.github.com/artifacts/1/zip";
   mkArtifact "experiences" "https://api.github.com/artifacts/2/zip"].

Definition old : gmap string string := {["a" := "1"; "b" := "2"]}.

Definition manifest : gmap string string := {["b" := "2"; "c" := "3"]}.

Definition store : Data.BuildData :=
  Data.mkBuildData {["main" := Data.mkTarget old]}.

(** A world with a fixed listing and manifest; [sink] and [reload] tell
    whether the status sink and the reload endpoint answer, [commands] how
    a command ends. *)
Definition world (artifacts : list Artifact) (sink : bool)
    (commands : list string → option Z) (reload : bool) : Env :=
  mkEnv (λ _ _, Some artifacts) (λ _ _, sink) (λ _, commands) (λ _ _, reload)
        (λ _, Some manifest) "/tmp/tmpk3v" (λ _, "0312") (λ _, 42%Z)
        (λ base path, base +:+ path) "ghp_token".

(** Every command runs and exits with 0. *)
Definition commands_succeed (argv : list string) : option Z := Some 0%Z.

(** [ssh] runs but exits with 255, as it does when the host is down. *)
Definition ssh_exits_255 (argv : list string) : option Z :=
  match argv with
  | "ssh" :: _ => Some 255%Z
  | _ => Some 0%Z
  end.

(** [ssh] is not installed: [subprocess.run] raises. *)
Definition ssh_missing (argv : list string) : option Z :=
  match argv with
  | "ssh" :: _ => None
  | _ => Some 0%Z
  end.

(** The world in which every call succeeds. *)
Definition calm : Env := world listing true commands_succeed true.

(** The reload endpoint answers with an HTTP error. *)
Definition reload_down : Env := world listing true commands_succeed false.

(** The host of the target is down: [ssh] exits with 255. *)
Definition host_down : Env := world listing true ssh_exits_255 true.

(** [ssh] cannot be started. *)
Definition no_ssh : Env := world listing true ssh_missing true.

(** The status sink refuses every report. *)
Definition sink_down : Env := world listing false commands_succeed true.

(** The run has produced no artifact. *)
Definition no_artifact : Env := world [] true commands_succeed true.

Definition experiences_push : Event := push "build-experiences" "main".

Definition controls_push : Event := push "build-controls" "main".

(** The command that removes the experience [a] from the target. *)
Definition remove_a : list string :=
  ["ssh"; "-o"; "SetEnv=FT_PRODUCTION=0312"; "kiosk";
   "rm -rf /opt/footron/experiences/a"].

(** The build data in memory after a run that raised in the delete stage. *)
Definition half_updated : Data.BuildData :=
  Data.mkBuildData {["main" := Data.mkTarget {["b" := "2"; "c" := "3"]}]}.

End Scenario.

(** Requests to the endpoint, for the examples. *)
Module Hook.

Definition secret : option string := Some "s3cret".

(** A stand-in for the digest: the properties below hold for every
    function. *)
Definition digest (key body : string) : string := key +:+ "/" +:+ body.

Definition signed (event_type : string) (payload : Webhook.Payload)
  : Webhook.Request :=
  Webhook.mkRequest (Some "sha256=s3cret/body") (Some event_type) "body"
    (Some payload).

Definition unsigned (event_type : string) (payload : Webhook.Payload)
  : Webhook.Request :=
  Webhook.mkRequest None (Some event_type) "body" (Some payload).

Definition completed_run : Webhook.Payload :=
  Webhook.mkPayload (Some "completed") (Some Scenario.experiences_push) None.

Definition job : Webhook.JobEvent :=
  Webhook.mkJobEvent "build"
    "https://api.github.com/repos/BYU-PCCL/footron/actions/runs/7"
    "4f2a9c1" "BYU-PCCL/footron".

Definition queued_job : Webhook.Payload :=
  Webhook.mkPayload (Some "queued") None (Some job).

Definition ping : Webhook.Payload := Webhook.mkPayload None None None.

(** A run as the API describes it, its branch under [head_branch]. *)
Definition run_response : gmap string string :=
  {["name" := "build-experiences"; "event" := "push";
    "head_branch" := "main"]}.

Definition api (history : list op) (url : string)
  : option (gmap string string) := Some run_response.

Definition start : State := mkState Scenario.store None [].

End Hook.

(** ** Round trip of the data file *)

Section RoundTrip.

Lemma dict_of_members_map_to_list {A} (m : gmap string A) :
  dict_of_members (map_to_list m) = m.
Proof.
  unfold dict_of_members.
  rewrite <- (list_to_map_to_list m) at 2.
  apply list_to_map_proper.
  - rewrite fmap_reverse, reverse_Permutation.
    apply NoDup_fst_map_to_list.
  - apply reverse_Permutation.
Qed.

Lemma mapM_fmap_Some {A B C} (f : A → B) (g : B → option C) (h : A → C)
    (l : list A) :
  (∀ x, g (f x) = Some (h x)) → mapM g (f <$> l) = Some (h <$> l).
Proof.
  intros Hgf. induction l as [|x l IH]; [done|].
  cbn. rewrite Hgf. cbn. rewrite IH. done.
Qed.

Lemma parse_dict_to_json {A} (enc : A → json) (parse : json → option A)
    (m : gmap string A) :
  (∀ x, parse (enc x) = Some x) →
  Data.parse_dict parse
    (JObject ((λ kv : string * A, (kv.1, enc kv.2)) <$> map_to_list m))
  = Some m.
Proof.
  intros Hrt. unfold Data.parse_dict.
  rewrite (mapM_fmap_Some _ _ id).
  - cbn. rewrite list_fmap_id, dict_of_members_map_to_list. done.
  - intros [k v]. cbn. rewrite Hrt. done.
Qed.

Lemma parse_field_single {A} (name : string) (parse : json → option A)
    (default : A) (v : json) :
  Data.parse_field name parse default (JObject [(name, v)]) = parse v.
Proof.
  unfold Data.parse_field, dict_of_members.
  change (reverse [(name, v)]) with [(name, v)].
  change (list_to_map [(name, v)]) with (<[name:=v]> (∅ : gmap string json)).
  rewrite lookup_insert_eq. done.
Qed.

Lemma parse_target_to_json (t : Data.Target) :
  Data.parse_target (Data.target_to_json t) = Some t.
Proof.
  destruct t as [h]. unfold Data.parse_target, Data.target_to_json.
  rewrite parse_field_single. unfold Data.hashes_to_json.
  rewrite (parse_dict_to_json JString Data.parse_str); done.
Qed.

Lemma parse_obj_to_json (d : Data.BuildData) :
  Data.parse_obj (Data.to_json d) = Some d.
Proof.
  destruct d as [ts]. unfold Data.parse_obj, Data.to_json.
  rewrite parse_field_single.
  rewrite (parse_dict_to_json Data.target_to_json Data.parse_target).
  - done.
  - apply parse_target_to_json.
Qed.

End RoundTrip.

(** C9. Committing a build-data mapping to the store and loading the store
    again returns that mapping, whatever the file held before; loading
    while no data file exists returns the empty store. *)
Theorem C9_load_after_save_roundtrip :
  (∀ (m : Data.BuildData) (f : Data.file),
     Data.load_build_data (Data.save_build_data m f) = Some m)
  ∧ Data.load_build_data None = Some (Data.mkBuildData ∅).
Proof.
  split; [|reflexivity].
  intros m f. cbn. apply parse_obj_to_json.
Qed.

(** ** The diff *)

Section Diff.

Context (hashes existing_hashes : gmap string string).

Lemma elem_of_changed_fold (ks : list string) (acc : gset string) k :
  k ∈ foldl (λ (changed : gset string) hash_key,
               if decide (hashes !! hash_key ≠ existing_hashes !! hash_key)
               then changed ∪ {[hash_key]} else changed) acc ks
  ↔ k ∈ acc ∨ (k ∈ ks ∧ hashes !! k ≠ existing_hashes !! k).
Proof.
  revert acc. induction ks as [|x ks IH]; intros acc; cbn.
  - rewrite elem_of_nil. tauto.
  - rewrite IH. destruct (decide (hashes !! x ≠ existing_hashes !! x)).
    + rewrite elem_of_union, elem_of_singleton, elem_of_cons.
      split; [intros [[?| ->]|[? ?]]|intros [?|[[->|?] ?]]]; tauto.
    + rewrite elem_of_cons.
      split; [intros [?|[? ?]]|intros [?|[[->|?] ?]]]; tauto.
Qed.

Lemma elem_of_changed_hashes k :
  k ∈ Server.changed_hashes hashes existing_hashes
  ↔ k ∈ dom hashes ∧ k ∈ dom existing_hashes
    ∧ hashes !! k ≠ existing_hashes !! k.
Proof.
  unfold Server.changed_hashes. rewrite elem_of_changed_fold.
  rewrite elem_of_elements. unfold Server.overlapping_hashes.
  rewrite elem_of_intersection. set_solver.
Qed.

Lemma elem_of_unchanged_hashes k :
  k ∈ Server.unchanged_hashes hashes existing_hashes
  ↔ k ∈ dom hashes ∧ k ∈ dom existing_hashes
    ∧ hashes !! k = existing_hashes !! k.
Proof.
  unfold Server.unchanged_hashes.
  rewrite elem_of_difference, elem_of_changed_hashes.
  unfold Server.overlapping_hashes. rewrite elem_of_intersection.
  destruct (decide (hashes !! k = existing_hashes !! k)); tauto.
Qed.

End Diff.

(** C3. For the stored map [old] and the manifest [new], the diff of the
    handler yields added = keys(new) - keys(old), deleted = keys(old) -
    keys(new), changed = the keys of both whose fingerprints differ,
    unchanged = the keys of both whose fingerprints are equal; the four sets
    are pairwise disjoint and their union is keys(old) ∪ keys(new). *)
Theorem C3_diff_partitions_keys (old new : gmap string string) :
  let added := Server.new_hashes new old in
  let deleted := Server.deleted_hashes new old in
  let changed := Server.changed_hashes new old in
  let unchanged := Server.unchanged_hashes new old in
  added = dom new ∖ dom old
  ∧ deleted = dom old ∖ dom new
  ∧ (∀ k, k ∈ changed ↔
          ∃ v w, old !! k = Some v ∧ new !! k = Some w ∧ v ≠ w)
  ∧ (∀ k, k ∈ unchanged ↔ ∃ v, old !! k = Some v ∧ new !! k = Some v)
  ∧ (added ## deleted ∧ added ## changed ∧ added ## unchanged
     ∧ deleted ## changed ∧ deleted ## unchanged ∧ changed ## unchanged)
  ∧ added ∪ deleted ∪ changed ∪ unchanged = dom old ∪ dom new.
Proof.
  intros added deleted changed unchanged.
  assert (Hc : ∀ k, k ∈ changed ↔
            k ∈ dom new ∧ k ∈ dom old ∧ new !! k ≠ old !! k)
    by apply elem_of_changed_hashes.
  assert (Hu : ∀ k, k ∈ unchanged ↔
            k ∈ dom new ∧ k ∈ dom old ∧ new !! k = old !! k)
    by apply elem_of_unchanged_hashes.
  assert (Ha : ∀ k, k ∈ added ↔ k ∈ dom new ∧ k ∉ dom old)
    by (intros k; unfold added, Server.new_hashes;
        apply elem_of_difference).
  assert (Hd : ∀ k, k ∈ deleted ↔ k ∈ dom old ∧ k ∉ dom new)
    by (intros k; unfold deleted, Server.deleted_hashes;
        apply elem_of_difference).
  split; [done|]. split; [done|].
  split; [|split].
  - intros k. rewrite Hc, !elem_of_dom. split.
    + intros ([w Hw] & [v Hv] & Hne). exists v, w. split_and!; [done..|].
      intros ->. congruence.
    + intros (v & w & Hv & Hw & Hne). split_and!; [by eexists..|].
      congruence.
  - intros k. rewrite Hu, !elem_of_dom. split.
    + intros ([w Hw] & [v Hv] & Heq). exists v. split; congruence.
    + intros (v & Hv & Hw). split_and!; [by eexists..|]. congruence.
  - split.
    + split_and!; intros k; rewrite ?Ha, ?Hd, ?Hc, ?Hu; tauto.
    + apply set_eq. intros k.
      rewrite !elem_of_union, Ha, Hd, Hc, Hu.
      destruct (decide (k ∈ dom new)), (decide (k ∈ dom old)),
        (decide (new !! k = old !! k)); tauto.
Qed.

(** The concrete cases of the specification. *)
Example diff_of_scenario :
  Server.new_hashes Scenario.manifest Scenario.old = {["c"]}
  ∧ Server.deleted_hashes Scenario.manifest Scenario.old = {["a"]}
  ∧ Server.changed_hashes Scenario.manifest Scenario.old = ∅
  ∧ Server.unchanged_hashes Scenario.manifest Scenario.old = {["b"]}.
Proof. split_and!; apply (bool_decide_unpack _); vm_compute; exact I. Qed.

Example diff_against_itself :
  Server.new_hashes Scenario.old Scenario.old = ∅
  ∧ Server.deleted_hashes Scenario.old Scenario.old = ∅
  ∧ Server.changed_hashes Scenario.old Scenario.old = ∅
  ∧ Server.unchanged_hashes Scenario.old Scenario.old = dom Scenario.old.
Proof. split_and!; apply (bool_decide_unpack _); vm_compute; exact I. Qed.

Example diff_of_empty_manifest :
  Server.new_hashes ∅ Scenario.old = ∅
  ∧ Server.deleted_hashes ∅ Scenario.old = dom Scenario.old.
Proof. split_and!; apply (bool_decide_unpack _); vm_compute; exact I. Qed.

(** ** Rules for the calls of the handler *)

Section WpRules.

Context (env : Env).

Lemma wp_bind {A B} (m : M A) (f : A → M B) s Q :
  wp m s (λ r s', match r with
                  | Ok a => wp (f a) s' Q
                  | Raise e => Q (Raise e) s'
                  end) →
  wp (m ≫= f) s Q.
Proof.
  unfold wp, mbind, M_bind. destruct (m s) as [[a|e] s']; cbn; auto.
Qed.

Lemma wp_ret {A} (a : A) s Q : Q (Ok a) s → wp (mret a) s Q.
Proof. done. Qed.

Lemma wp_raise {A} e s (Q : Result A → State → Prop) :
  Q (Raise e) s → wp (raise e) s Q.
Proof. done. Qed.

Lemma wp_github_get_request url s Q :
  (∀ artifacts, http_get env (trace s) url = Some artifacts →
     refused env (trace s) (OGet url) = false →
     Q (Ok artifacts) (log (OGet url) s)) →
  (refused env (trace s) (OGet url) = true →
     Q (Raise HTTPError) (log (OGet url) s)) →
  wp (github_get_request env url) s Q.
Proof.
  unfold wp, github_get_request, refused. intros Hok Herr.
  destruct (http_get env (trace s) url) as [a|] eqn:E; cbn.
  - apply Hok; [done|]. by apply bool_decide_eq_false.
  - apply Herr. by apply bool_decide_eq_true.
Qed.

Lemma wp_set_commit_status repo sha st ctx d s Q :
  (refused env (trace s) (OStatus repo sha st ("footron-ci/" +:+ ctx) d)
     = false →
   Q (Ok tt) (log (OStatus repo sha st ("footron-ci/" +:+ ctx) d) s)) →
  (refused env (trace s) (OStatus repo sha st ("footron-ci/" +:+ ctx) d)
     = true →
   Q (Raise GithubException)
     (log (OStatus repo sha st ("footron-ci/" +:+ ctx) d) s)) →
  wp (set_commit_status env repo sha st ctx d) s Q.
Proof.
  unfold wp, set_commit_status, refused. intros Hok Herr. cbn.
  destruct (create_status_ok env (trace s) _) eqn:E; cbn; auto.
Qed.

Lemma wp_subprocess_run argv s Q :
  (∀ rc, refused env (trace s) (ORun argv) = false →
     Q (Ok rc) (log (ORun argv) s)) →
  (refused env (trace s) (ORun argv) = true →
     Q (Raise OSError) (log (ORun argv) s)) →
  wp (subprocess_run env argv) s Q.
Proof.
  unfold wp, subprocess_run, refused. intros Hok Herr.
  destruct (run env (trace s) argv) as [rc|] eqn:E; cbn.
  - apply Hok. by apply bool_decide_eq_false.
  - apply Herr. by apply bool_decide_eq_true.
Qed.

Lemma wp_reload_controller target s Q :
  (refused env (trace s)
     (OReload (urljoin env (Config.controller_api_url target) "reload"))
     = false →
   Q (Ok tt)
     (log (OReload (urljoin env (Config.controller_api_url target)
                      "reload")) s)) →
  (refused env (trace s)
     (OReload (urljoin env (Config.controller_api_url target) "reload"))
     = true →
   Q (Raise HTTPError)
     (log (OReload (urljoin env (Config.controller_api_url target)
                      "reload")) s)) →
  wp (reload_controller env target) s Q.
Proof.
  unfold wp, reload_controller, refused. intros Hok Herr. cbn.
  destruct (reload_ok env (trace s) _) eqn:E; cbn; auto.
Qed.

End WpRules.

Section DataRules.

Context (env : Env).

Lemma accepted_app history ops1 ops2 :
  accepted env history (ops1 ++ ops2)
  ↔ accepted env history ops1 ∧ accepted env (history ++ ops1) ops2.
Proof.
  revert history. induction ops1 as [|o ops1 IH]; intros history; cbn.
  - rewrite app_nil_r. tauto.
  - rewrite IH, <- app_assoc. cbn. tauto.
Qed.

Lemma wp_ssh_production_option s Q :
  Q (Ok (production_option (strftime_dH env (trace s)))) s →
  wp (ssh_production_option env) s Q.
Proof. done. Qed.

Lemma wp_rsync_ssh_production_command s Q :
  Q (Ok ("ssh " +:+ production_option (strftime_dH env (trace s)))) s →
  wp (rsync_ssh_production_command env) s Q.
Proof. done. Qed.

Lemma wp_json_load path s Q :
  (∀ hashes, read_hashes env path = Some hashes → Q (Ok hashes) s) →
  (read_hashes env path = None → Q (Raise JSONError) s) →
  wp (json_load env path) s Q.
Proof.
  unfold wp, json_load. intros Hok Herr.
  destruct (read_hashes env path); cbn; auto.
Qed.

Lemma wp_remove_experience target hash_key s Q :
  (∀ o rc, remove_call target hash_key o →
     refused env (trace s) o = false → Q (Ok rc) (log o s)) →
  (∀ o, remove_call target hash_key o →
     refused env (trace s) o = true → Q (Raise OSError) (log o s)) →
  wp (remove_experience env target hash_key) s Q.
Proof.
  intros Hok Herr. unfold remove_experience.
  assert (Hrm : remove_call target hash_key
            (ORun (remove_argv target (strftime_dH env (trace s)) hash_key)))
    by (by eexists).
  revert Hrm. unfold remove_argv.
  destruct (Config.controller_host target) as [host|];
    [destruct (decide (host = EmptyString))|]; intros Hrm.
  - apply wp_subprocess_run; eauto.
  - apply wp_bind, wp_ssh_production_option, wp_subprocess_run; eauto.
  - apply wp_subprocess_run; eauto.
Qed.

Lemma wp_sync_experience target temp_path hash_key s Q :
  (∀ o rc, sync_call target temp_path hash_key o →
     refused env (trace s) o = false → Q (Ok rc) (log o s)) →
  (∀ o, sync_call target temp_path hash_key o →
     refused env (trace s) o = true → Q (Raise OSError) (log o s)) →
  wp (sync_experience env target temp_path hash_key) s Q.
Proof.
  intros Hok Herr. unfold sync_experience.
  apply wp_bind, wp_rsync_ssh_production_command, wp_subprocess_run.
  - intros rc. apply Hok. by eexists.
  - apply Herr. by eexists.
Qed.

Lemma wp_sync_editorial_configs target temp_path s Q :
  (∀ rc, refused env (trace s)
       (ORun (editorial_argv target temp_path (strftime_dH env (trace s))))
       = false →
     Q (Ok rc)
       (log (ORun (editorial_argv target temp_path
                     (strftime_dH env (trace s)))) s)) →
  (refused env (trace s)
       (ORun (editorial_argv target temp_path (strftime_dH env (trace s))))
       = true →
     Q (Raise OSError)
       (log (ORun (editorial_argv target temp_path
                     (strftime_dH env (trace s)))) s)) →
  wp (sync_editorial_configs env target temp_path) s Q.
Proof.
  intros Hok Herr. unfold sync_editorial_configs.
  apply wp_bind, wp_rsync_ssh_production_command, wp_subprocess_run; done.
Qed.

End DataRules.

Section LoopRules.

Context (env : Env).

Implicit Types (h old hashes : gmap string string).
Implicit Types (T : gmap string Data.Target).

#[local] Abbreviation at_branch T branch h f t :=
  (mkState (Data.mkBuildData (<[branch:=Data.mkTarget h]> T)) f t).

Lemma wp_targets_getitem T branch h f t Q :
  Q (Ok (Data.mkTarget h)) (at_branch T branch h f t) →
  wp (targets_getitem branch) (at_branch T branch h f t) Q.
Proof.
  unfold wp, targets_getitem. cbn.
  rewrite lookup_insert_eq. done.
Qed.

Lemma wp_targets_setitem T branch h h' f t Q :
  Q (Ok tt) (at_branch T branch h' f t) →
  wp (targets_setitem branch (Data.mkTarget h')) (at_branch T branch h f t) Q.
Proof.
  unfold wp, targets_setitem, set_data. cbn.
  rewrite insert_insert_eq. done.
Qed.

Lemma wp_dict_get {A} (d : gmap string A) k v s Q :
  d !! k = Some v → Q (Ok v) s → wp (dict_get d k) s Q.
Proof. unfold wp, dict_get. intros ->. done. Qed.

(** [if branch not in data.targets: data.targets[branch] = DataTarget()]
    and the read of [data.targets[branch]] that follows. *)
Lemma wp_ensure_target {B} branch (k : Data.Target → M B) d f t Q :
  (let old := stored_hashes d branch in
   wp (k (Data.mkTarget old)) (at_branch (Data.targets d) branch old f t) Q) →
  wp (known ← targets_contains branch;
      (if known : bool then mret tt
       else targets_setitem branch Data.default_target);;
      existing ← targets_getitem branch;
      k existing) (mkState d f t) Q.
Proof.
  unfold wp, stored_hashes, targets_contains, targets_setitem,
    targets_getitem, mbind, M_bind, mret, M_ret, set_data. cbn.
  destruct d as [T]. cbn.
  destruct (T !! branch) as [[h]|] eqn:E; cbn.
  - rewrite E. cbn. rewrite insert_id by done. done.
  - rewrite lookup_insert_eq. done.
Qed.

(** The loop that inserts the new keys. *)
Lemma wp_insert_loop branch hashes ks T h f t Q :
  (∀ k, k ∈ ks → is_Some (hashes !! k)) →
  (∀ h', (∀ k, k ∉ ks → h' !! k = h !! k) →
         Q (Ok tt) (at_branch T branch h' f t)) →
  wp (for_ ks (λ hash_key,
        value ← dict_get hashes hash_key;
        hashes_setitem branch hash_key value))
     (at_branch T branch h f t) Q.
Proof.
  revert h. induction ks as [|k ks IH]; intros h Hin HQ; cbn [for_].
  - apply wp_ret, HQ. done.
  - destruct (Hin k) as [v Hv]; [left|].
    apply wp_bind, wp_bind, (wp_dict_get _ _ v); [done|].
    unfold hashes_setitem.
    apply wp_bind, wp_targets_getitem, wp_targets_setitem.
    apply IH.
    + intros k' Hk'. apply Hin. by right.
    + intros h' Hh'. apply HQ. intros k' Hk'.
      rewrite Hh' by (intros ?; apply Hk'; by right).
      apply lookup_insert_ne. intros ->. apply Hk'. left.
Qed.

(** The loop that collects the changed keys: it reads the stored dict as
    it is after the insertions. *)
Lemma wp_changed_loop branch hashes old ks acc T h f t Q :
  (∀ k, k ∈ ks → is_Some (hashes !! k) ∧ is_Some (h !! k)
                 ∧ h !! k = old !! k) →
  Q (Ok (foldl (λ (changed : gset string) hash_key,
                  if decide (hashes !! hash_key ≠ old !! hash_key)
                  then changed ∪ {[hash_key]} else changed) acc ks))
    (at_branch T branch h f t) →
  wp (for_acc ks acc (λ changed_hashes hash_key,
        new_value ← dict_get hashes hash_key;
        old_value ← hashes_getitem branch hash_key;
        mret (if decide (new_value ≠ old_value)
              then changed_hashes ∪ {[hash_key]}
              else changed_hashes)))
     (at_branch T branch h f t) Q.
Proof.
  revert acc. induction ks as [|k ks IH]; intros acc Hin HQ; cbn [for_acc].
  - apply wp_ret, HQ.
  - destruct (Hin k) as ([v Hv] & [w Hw] & Heq); [left|].
    apply wp_bind, wp_bind, (wp_dict_get _ _ v); [done|].
    unfold hashes_getitem.
    apply wp_bind, wp_bind, wp_targets_getitem, (wp_dict_get _ _ w);
      [done|].
    apply wp_ret, IH.
    + intros k' Hk'. apply Hin. by right.
    + cbn [foldl] in HQ. rewrite <- Heq, Hv, Hw in HQ. revert HQ.
      destruct (decide (v ≠ w)), (decide (Some v ≠ Some w));
        first [done | exfalso; match goal with
                               | H : ¬ _ |- _ => apply H; congruence
                               end].
Qed.

(** The loop of the delete stage. *)
Lemma wp_delete_loop target branch ks T h f t Q :
  NoDup ks →
  (∀ k, k ∈ ks → is_Some (h !! k)) →
  (∀ h' ops, Forall2 (remove_call target) ks ops →
     accepted env t ops →
     Q (Ok tt) (at_branch T branch h' f (t ++ ops))) →
  (∀ h' ops o, Forall (λ o, ∃ k, remove_call target k o) (ops ++ [o]) →
     accepted env t ops → refused env (t ++ ops) o = true →
     Q (Raise OSError) (at_branch T branch h' f ((t ++ ops) ++ [o]))) →
  wp (for_ ks (λ hash_key,
        hashes_delitem branch hash_key;;
        remove_experience env target hash_key;;
        mret tt))
     (at_branch T branch h f t) Q.
Proof.
  revert h t. induction ks as [|k ks IH]; intros h t Hnd Hin Hok Herr;
    cbn [for_].
  - apply wp_ret. specialize (Hok h []). rewrite app_nil_r in Hok.
    apply Hok; [constructor|done].
  - destruct (Hin k) as [v Hv]; [left|].
    apply NoDup_cons in Hnd as [Hk Hnd].
    apply wp_bind, wp_bind. unfold hashes_delitem.
    apply wp_bind, wp_targets_getitem, wp_bind, (wp_dict_get _ _ v);
      [done|].
    apply wp_targets_setitem, wp_bind, wp_remove_experience.
    + intros o rc Hrm Hacc. apply wp_ret. unfold log. cbn.
      apply IH; [done|..].
      * intros k' Hk'. rewrite lookup_delete_ne by (intros ->; done).
        apply Hin. by right.
      * intros h' ops HF Ha. rewrite <- app_assoc. apply Hok.
        -- by constructor.
        -- cbn. done.
      * intros h' ops o' HF Ha Hr. rewrite <- (app_assoc t [o] ops).
        apply Herr.
        -- cbn. constructor; [by eexists|done].
        -- cbn. done.
        -- by rewrite <- app_assoc in Hr.
    + intros o Hrm Href. unfold log. cbn.
      specialize (Herr (delete k h) [] o). rewrite app_nil_r in Herr.
      apply Herr; [|done|done].
      constructor; [by eexists|constructor].
Qed.

(** The loop of the sync stage. *)
Lemma wp_sync_loop target temp_path ks (s : State) Q :
  (∀ ops, Forall2 (sync_call target temp_path) ks ops →
     accepted env (trace s) ops →
     Q (Ok tt) (mkState (data s) (disk s) (trace s ++ ops))) →
  (∀ ops o, Forall (λ o, ∃ k, sync_call target temp_path k o) (ops ++ [o]) →
     accepted env (trace s) ops → refused env (trace s ++ ops) o = true →
     Q (Raise OSError)
       (mkState (data s) (disk s) ((trace s ++ ops) ++ [o]))) →
  wp (for_ ks (λ hash_key,
        sync_experience env target temp_path hash_key;;
        mret tt)) s Q.
Proof.
  revert s. induction ks as [|k ks IH]; intros s Hok Herr; cbn [for_].
  - apply wp_ret. specialize (Hok []). rewrite app_nil_r in Hok.
    destruct s. apply Hok; [constructor|done].
  - apply wp_bind, wp_bind, wp_sync_experience.
    + intros o rc Hrm Hacc. apply wp_ret. apply IH.
      * intros ops HF Ha. cbn. rewrite <- app_assoc. apply Hok.
        -- by constructor.
        -- cbn. done.
      * intros ops o' HF Ha Hr. cbn. rewrite <- (app_assoc (trace s) [o] ops).
        apply Herr.
        -- cbn. constructor; [by eexists|done].
        -- cbn. done.
        -- cbn in Hr. by rewrite <- app_assoc in Hr.
    + intros o Hrm Href.
      specialize (Herr [] o). rewrite app_nil_r in Herr.
      apply Herr; [|done|done].
      constructor; [by eexists|constructor].
Qed.

Lemma wp_hashes_assign branch hashes T h f t Q :
  Q (Ok tt) (at_branch T branch hashes f t) →
  wp (hashes_assign branch hashes) (at_branch T branch h f t) Q.
Proof.
  intros HQ. unfold hashes_assign.
  by apply wp_bind, wp_targets_getitem, wp_targets_setitem.
Qed.

Lemma wp_save_build_data s Q :
  Q (Ok tt)
    (mkState (data s) (Some (Data.to_json (data s)))
       (trace s ++ [OSave (Data.to_json (data s))])) →
  wp save_build_data s Q.
Proof. done. Qed.

End LoopRules.

(** ** The runs of the two pipelines *)

Section Runs.

Context (env : Env) (config : gmap string Config.Target).

Lemma wp_report_success ev s Q :
  (refused env (trace s) (success_report ev (elapsed_seconds env (trace s)))
     = false →
   Q (Ok tt) (log (success_report ev (elapsed_seconds env (trace s))) s)) →
  (refused env (trace s) (success_report ev (elapsed_seconds env (trace s)))
     = true →
   Q (Raise GithubException)
     (log (success_report ev (elapsed_seconds env (trace s))) s)) →
  wp (report_success env ev) s Q.
Proof. apply wp_set_commit_status. Qed.

Lemma wp_pending ev description s Q :
  (refused env (trace s) (progress ev description) = false →
   Q (Ok tt) (log (progress ev description) s)) →
  (refused env (trace s) (progress ev description) = true →
   Q (Raise GithubException) (log (progress ev description) s)) →
  wp (pending env ev description) s Q.
Proof. apply wp_set_commit_status. Qed.

Lemma wp_find_artifact wanted artifacts msg s
    (Q : Result string → State → Prop) :
  (∀ url, find_artifact wanted artifacts = Some url → Q (Ok url) s) →
  (find_artifact wanted artifacts = None → Q (Raise (RuntimeError msg)) s) →
  wp (match find_artifact wanted artifacts with
      | Some url => mret url
      | None => raise (RuntimeError msg)
      end) s Q.
Proof.
  intros Hok Herr.
  destruct (find_artifact wanted artifacts);
    [apply wp_ret|apply wp_raise]; auto.
Qed.

Lemma elem_of_new_hashes (hashes old : gmap string string) k :
  k ∈ new_hashes hashes old ↔ k ∈ dom hashes ∧ k ∉ dom old.
Proof. unfold new_hashes, deleted_hashes. apply elem_of_difference. Qed.

Lemma elem_of_deleted_hashes (hashes old : gmap string string) k :
  k ∈ deleted_hashes hashes old ↔ k ∈ dom old ∧ k ∉ dom hashes.
Proof. unfold new_hashes, deleted_hashes. apply elem_of_difference. Qed.

Lemma elem_of_overlapping_hashes (hashes old : gmap string string) k :
  k ∈ overlapping_hashes hashes old ↔ k ∈ dom hashes ∧ k ∈ dom old.
Proof. unfold overlapping_hashes. apply elem_of_intersection. Qed.

Ltac wp_step :=
  lazymatch goal with
  | |- wp (targets_contains _ ≫= _) _ _ => apply wp_ensure_target; cbv zeta
  | |- wp (_ ≫= _) _ _ => apply wp_bind
  | |- wp (mret _) _ _ => apply wp_ret
  | |- wp (raise _) _ _ => apply wp_raise
  | |- wp (github_get_request _ _) _ _ =>
      apply wp_github_get_request; [intros ? ? ?|intros ?]
  | |- wp (match find_artifact _ _ with _ => _ end) _ _ =>
      apply wp_find_artifact; [intros ? ?|intros ?]
  | |- wp (pending _ _ _) _ _ => apply wp_pending; intros ?
  | |- wp (subprocess_run _ _) _ _ =>
      apply wp_subprocess_run; [intros ? ?|intros ?]
  | |- wp (json_load _ _) _ _ => apply wp_json_load; [intros ? ?|intros ?]
  | |- wp (rsync_ssh_production_command _) _ _ =>
      apply wp_rsync_ssh_production_command
  | |- wp (sync_editorial_configs _ _ _) _ _ =>
      apply wp_sync_editorial_configs; [intros ? ?|intros ?]
  | |- wp (reload_controller _ _) _ _ =>
      apply wp_reload_controller; intros ?
  | |- wp (report_success _ _) _ _ => apply wp_report_success; intros ?
  | |- wp (hashes_assign _ _) _ _ => apply wp_hashes_assign
  | |- wp save_build_data _ _ => apply wp_save_build_data
  end;
  unfold log in *; cbn [trace data disk app Data.hashes] in *.

Lemma Forall2_Forall_right {A B} (R : A → B → Prop) (P : B → Prop) xs ys :
  (∀ x y, R x y → P y) → Forall2 R xs ys → Forall P ys.
Proof. intros HRP. induction 1; constructor; eauto. Qed.

Lemma remove_call_before_commit ev target k o :
  remove_call target k o → before_commit ev o.
Proof. intros [dH ->]. right; right. by eexists. Qed.

Lemma sync_call_before_commit ev target temp_path k o :
  sync_call target temp_path k o → before_commit ev o.
Proof. intros [dH ->]. right; right. by eexists. Qed.

Lemma remove_call_not_sync target temp_path k k' o :
  remove_call target k o → ¬ sync_call target temp_path k' o.
Proof.
  intros [dH ->] [dH' Heq]. revert Heq. unfold remove_argv, sync_argv.
  destruct (Config.controller_host target) as [host|];
    [destruct (decide (host = EmptyString))|]; cbn [app]; discriminate.
Qed.

Ltac solve_accepted :=
  repeat (cbn [accepted app];
          first [ exact I | assumption | reflexivity | split
                | rewrite accepted_app ]).

Ltac solve_elem :=
  repeat first [ apply list_elem_of_here
               | apply list_elem_of_further
               | apply elem_of_app; right ].

Ltac solve_before_commit :=
  repeat first
    [ apply Forall_nil_2
    | apply Forall_cons_2;
        [unfold before_commit, progress; eauto 6|]
    | apply Forall_app_2
    | eapply Forall2_Forall_right; [|eassumption];
        first [ apply remove_call_before_commit
              | apply sync_call_before_commit ]
    | eapply Forall_impl; [eassumption|];
        intros ? [? ?];
        first [ eapply remove_call_before_commit; eassumption
              | eapply sync_call_before_commit; eassumption ] ].

Lemma remove_call_before_sync ev target temp_path k o :
  remove_call target k o → before_sync ev target temp_path o.
Proof.
  intros Hrm. split.
  - destruct Hrm as [dH ->]. discriminate.
  - intros k'. by apply (remove_call_not_sync target temp_path k k').
Qed.

Ltac solve_before_sync :=
  repeat first
    [ apply Forall_nil_2
    | apply Forall_cons_2;
        [first [ split;
                 [ discriminate
                 | intros ? [? ?]; unfold progress, curl_argv, sync_argv in *;
                   discriminate ]
               | eapply remove_call_before_sync; eassumption ]|]
    | apply Forall_app_2
    | eapply Forall2_Forall_right; [|eassumption];
        intros ? ?; apply remove_call_before_sync
    | eapply Forall_impl; [eassumption|];
        intros ? [? ?]; eapply remove_call_before_sync; eassumption ].

Lemma call_is_run {A} (R : A → op → Prop) o :
  (∀ k o, R k o → ∃ argv, o = ORun argv) →
  Forall (λ o, ∃ k, R k o) [o] → ∃ argv, o = ORun argv.
Proof. intros HR [[k Hk] _]%Forall_cons. eauto. Qed.

Lemma remove_call_is_run target k o :
  remove_call target k o → ∃ argv, o = ORun argv.
Proof. intros [dH ->]. eauto. Qed.

Lemma sync_call_is_run target temp_path k o :
  sync_call target temp_path k o → ∃ argv, o = ORun argv.
Proof. intros [dH ->]. eauto. Qed.

Ltac stops_here :=
  lazymatch goal with
  | Href : refused _ ?t ?o = true |- stops_at_refusal _ _ _ =>
      right; exists t, o; split_and!;
      [reflexivity | solve_accepted | exact Href | reflexivity]
  | |- stops_at_refusal _ _ _ => left; solve_accepted
  end.

Lemma remove_call_quiet ev target k o :
  remove_call target k o → quiet_or_progress ev o.
Proof. intros [dH ->]. by left. Qed.

Lemma sync_call_quiet ev target temp_path k o :
  sync_call target temp_path k o → quiet_or_progress ev o.
Proof. intros [dH ->]. by left. Qed.

Ltac solve_quiet :=
  repeat first
    [ apply Forall_nil_2
    | apply Forall_cons_2;
        [first [ left; reflexivity | right; eexists; reflexivity ]|]
    | apply Forall_app_2
    | eapply Forall2_Forall_right; [|eassumption];
        first [ apply remove_call_quiet | apply sync_call_quiet ] ].

Ltac solve_ends_with_success :=
  lazymatch goal with
  | Hacc : refused _ ?t (success_report _ _) = false
    |- ends_with_success _ _ (Ok _) _ =>
      intros _; exists t; split; [reflexivity|solve_quiet]
  | |- _ => intros ?; discriminate
  end.

Ltac finish_abort :=
  split_and!;
  [ stops_here
  | solve_ends_with_success
  | left; split_and!;
    [ by eexists
    | reflexivity
    | cbn [trace]; solve_before_commit
    | cbn [trace]; first
        [ solve [left; solve_before_sync]
        | solve [right;
                 lazymatch goal with
                 | Href : refused _ ?t ?o = true |- _ =>
                     exists t, o; split;
                     [ reflexivity
                     | first [ left; reflexivity
                             | right; eexists; eassumption ] ]
                 end] ] ] ].

Ltac finish_commit :=
  split_and!;
  [ stops_here
  | solve_ends_with_success
  | right; unfold experiences_committed;
    eexists _, _, _, _, _, _, _, _; cbv zeta; split_and!;
    [ eassumption | eassumption | eassumption | eassumption | eassumption
    | reflexivity
    | reflexivity
    | cbn [trace]; unfold experiences_fetch;
      rewrite <- ?app_assoc; cbn [app]; reflexivity
    | unfold experiences_tail; eexists; cbn [app]; reflexivity
    | first [ discriminate | intros _; reflexivity ] ] ].

Lemma deliver_experiences ev d f target :
  status ev = "completed" → event ev = "push" →
  config !! head_branch ev = Some target →
  name ev = "build-experiences" →
  wp (handle_workflow_run_completed env config ev) (mkState d f [])
    (λ r s',
       stops_at_refusal env r (trace s')
       ∧ ends_with_success env ev r (trace s')
       ∧ (experiences_aborted ev target (temp_dir env) f r s'
          ∨ experiences_committed env ev target d r s')).
Proof.
  intros Hst Hev Hcfg Hname. unfold handle_workflow_run_completed.
  rewrite decide_False by (rewrite Hst, Hev; intros [?|?]; done).
  rewrite Hcfg. cbv zeta.
  rewrite decide_False
    by (rewrite Hname; intros Hn; apply Hn; right; left).
  rewrite (decide_False (P := name ev = "build-controls"))
    by (rewrite Hname; done).
  rewrite decide_True by done.
  unfold deploy_experiences. cbv zeta.
  repeat wp_step.
  all: try (finish_abort; fail).
  apply wp_insert_loop.
  { intros k Hk. apply elem_of_elements, elem_of_new_hashes in Hk as [Hk _].
    by apply elem_of_dom. }
  intros h1 Hh1. repeat wp_step.
  apply (wp_changed_loop _ _ (stored_hashes d (head_branch ev))).
  { intros k Hk.
    apply elem_of_elements, elem_of_overlapping_hashes in Hk as [Hk1 Hk2].
    rewrite Hh1.
    - split_and!; [by apply elem_of_dom..|done].
    - rewrite elem_of_elements, elem_of_new_hashes. tauto. }
  fold (changed_hashes hashes (stored_hashes d (head_branch ev))).
  repeat wp_step.
  all: try (finish_abort; fail).
  apply wp_delete_loop.
  { apply NoDup_elements. }
  { intros k Hk.
    apply elem_of_elements, elem_of_deleted_hashes in Hk as [Hk Hk'].
    rewrite Hh1.
    - by apply elem_of_dom.
    - rewrite elem_of_elements, elem_of_new_hashes. tauto. }
  2: { intros h2 dels o Hdels Hacc Href. cbn [app] in *.
       apply Forall_app in Hdels as [Hdels Ho].
       destruct (call_is_run _ _ (remove_call_is_run target) Ho)
         as [argv ->].
       apply Forall_singleton in Ho as [k Ho].
       finish_abort. }
  intros h2 dels Hdels Hacc_dels.
  repeat wp_step.
  all: try (finish_abort; fail).
  apply wp_sync_loop; cbn [trace data disk].
  2: { intros syncs o Hsyncs Hacc Href. cbn [app] in *.
       apply Forall_app in Hsyncs as [Hsyncs Ho].
       destruct (call_is_run _ _ (sync_call_is_run target (temp_dir env)) Ho)
         as [argv ->].
       apply Forall_singleton in Ho as [k Ho].
       finish_abort. }
  intros syncs Hsyncs Hacc_syncs.
  repeat wp_step.
  all: finish_commit.
  Unshelve. all: first [exact EmptyString | exact 0%Z].
Qed.

Ltac finish_controls :=
  split_and!;
  [ stops_here
  | solve_ends_with_success
  | split_and!;
    [ reflexivity | reflexivity
    | eexists _, _, _; split;
      [ unfold controls_plan; eexists; cbn [trace app]; reflexivity
      | first [ discriminate | intros _; reflexivity ] ] ] ].

Lemma deliver_controls ev d f target :
  status ev = "completed" → event ev = "push" →
  config !! head_branch ev = Some target →
  name ev = "build-controls" →
  wp (handle_workflow_run_completed env config ev) (mkState d f [])
    (λ r s',
       stops_at_refusal env r (trace s')
       ∧ ends_with_success env ev r (trace s')
       ∧ controls_run env ev target d f r s').
Proof.
  intros Hst Hev Hcfg Hname. unfold handle_workflow_run_completed.
  rewrite decide_False by (rewrite Hst, Hev; intros [?|?]; done).
  rewrite Hcfg. cbv zeta.
  rewrite decide_False by (rewrite Hname; intros Hn; apply Hn; left).
  rewrite decide_True by done.
  unfold deploy_controls. cbv zeta.
  repeat wp_step.
  all: finish_controls.
  Unshelve. all: first [exact EmptyString | exact 0%Z].
Qed.

(** *** Computations that leave the store alone *)

Lemma ignores_store_bind {A B} (m : M A) (k : A → M B) :
  ignores_store m → (∀ a, ignores_store (k a)) → ignores_store (m ≫= k).
Proof.
  intros Hm Hk d f d' f' t. unfold mbind, M_bind.
  destruct (Hm d f d' f' t) as (Hr & Ht & Hd & Hf).
  destruct (Hm d' f' d f t) as (_ & _ & Hd' & Hf').
  destruct (m (mkState d f t)) as [r [d1 f1 t1]],
    (m (mkState d' f' t)) as [r' [d1' f1' t1']].
  cbn in *. subst. destruct r' as [a|e]; [apply Hk|done].
Qed.

Lemma ignores_store_ret {A} (a : A) : ignores_store (mret a : M A).
Proof. done. Qed.

Lemma ignores_store_raise {A} e : ignores_store (raise e : M A).
Proof. done. Qed.

Lemma ignores_store_github_get_request url :
  ignores_store (github_get_request env url).
Proof. done. Qed.

Lemma ignores_store_set_commit_status repo sha st ctx description :
  ignores_store (set_commit_status env repo sha st ctx description).
Proof. done. Qed.

Lemma ignores_store_subprocess_run argv :
  ignores_store (subprocess_run env argv).
Proof. done. Qed.

Lemma ignores_store_ssh_production_option :
  ignores_store (ssh_production_option env).
Proof. done. Qed.

Lemma ignores_store_reload_controller target :
  ignores_store (reload_controller env target).
Proof. done. Qed.

Lemma ignores_store_report_success ev :
  ignores_store (report_success env ev).
Proof. done. Qed.

Lemma ignores_store_deploy_controls ev target :
  ignores_store (deploy_controls env ev target).
Proof.
  unfold deploy_controls, pending, rsync_ssh_production_command.
  repeat first
    [ apply ignores_store_bind; [|intros ?]
    | apply ignores_store_github_get_request
    | apply ignores_store_set_commit_status
    | apply ignores_store_subprocess_run
    | apply ignores_store_ssh_production_option
    | apply ignores_store_reload_controller
    | apply ignores_store_ret
    | apply ignores_store_raise
    | match goal with
      | |- ignores_store (match ?x with _ => _ end) => destruct x
      end ].
Qed.

(** *** The outcome of a delivery *)

Ltac solve_expected :=
  first
    [ left; reflexivity
    | right; eexists; split;
      [ reflexivity
      | unfold expected_exception;
        solve [repeat first [reflexivity | left; reflexivity | right]] ] ].

Ltac solve_obliged :=
  intros [Hnever Hlisted] Hready;
  first
    [ reflexivity
    | exfalso;
      lazymatch goal with
      | Href : refused _ _ _ = true |- _ =>
          rewrite Hnever in Href; discriminate Href
      | Hget : http_get _ _ _ = Some ?a, Hnone : find_artifact _ ?a = None
        |- _ =>
          destruct (Hlisted a Hget) as [? ?]; congruence
      | Hnone : read_hashes _ _ = None |- _ =>
          destruct Hready as [? ?]; congruence
      end ].

Ltac solve_other_branches :=
  intros ? ?; cbn [data Data.targets];
  first [ reflexivity | by rewrite lookup_insert_ne ].

Ltac solve_first_call :=
  eexists; unfold log; cbn [trace app]; reflexivity.

Ltac finish_outcome :=
  split_and!;
  [solve_expected | solve_obliged | solve_other_branches | solve_first_call].

Lemma deliver_experiences_outcome ev d f target :
  status ev = "completed" → event ev = "push" →
  config !! head_branch ev = Some target →
  name ev = "build-experiences" →
  wp (handle_workflow_run_completed env config ev) (mkState d f [])
    (delivery_outcome env ev "experiences"
       (is_Some (read_hashes env (path_join (temp_dir env) "hashes.json")))
       d).
Proof.
  intros Hst Hev Hcfg Hname. unfold handle_workflow_run_completed.
  rewrite decide_False by (rewrite Hst, Hev; intros [?|?]; done).
  rewrite Hcfg. cbv zeta.
  rewrite decide_False
    by (rewrite Hname; intros Hn; apply Hn; right; left).
  rewrite (decide_False (P := name ev = "build-controls"))
    by (rewrite Hname; done).
  rewrite decide_True by done.
  unfold deploy_experiences. cbv zeta.
  repeat wp_step.
  all: try (finish_outcome; fail).
  apply wp_insert_loop.
  { intros k Hk. apply elem_of_elements, elem_of_new_hashes in Hk as [Hk _].
    by apply elem_of_dom. }
  intros h1 Hh1. repeat wp_step.
  apply (wp_changed_loop _ _ (stored_hashes d (head_branch ev))).
  { intros k Hk.
    apply elem_of_elements, elem_of_overlapping_hashes in Hk as [Hk1 Hk2].
    rewrite Hh1.
    - split_and!; [by apply elem_of_dom..|done].
    - rewrite elem_of_elements, elem_of_new_hashes. tauto. }
  repeat wp_step.
  all: try (finish_outcome; fail).
  apply wp_delete_loop.
  { apply NoDup_elements. }
  { intros k Hk.
    apply elem_of_elements, elem_of_deleted_hashes in Hk as [Hk Hk'].
    rewrite Hh1.
    - by apply elem_of_dom.
    - rewrite elem_of_elements, elem_of_new_hashes. tauto. }
  2: { intros h2 dels o _ _ Href. finish_outcome. }
  intros h2 dels _ _.
  repeat wp_step.
  all: try (finish_outcome; fail).
  apply wp_sync_loop; cbn [trace data disk].
  2: { intros syncs o _ _ Href. finish_outcome. }
  intros syncs _ _.
  repeat wp_step.
  all: finish_outcome.
Qed.

Lemma deliver_controls_outcome ev d f target :
  status ev = "completed" → event ev = "push" →
  config !! head_branch ev = Some target →
  name ev = "build-controls" →
  wp (handle_workflow_run_completed env config ev) (mkState d f [])
    (delivery_outcome env ev "web-build" True d).
Proof.
  intros Hst Hev Hcfg Hname. unfold handle_workflow_run_completed.
  rewrite decide_False by (rewrite Hst, Hev; intros [?|?]; done).
  rewrite Hcfg. cbv zeta.
  rewrite decide_False by (rewrite Hname; intros Hn; apply Hn; left).
  rewrite decide_True by done.
  unfold deploy_controls. cbv zeta.
  repeat wp_step.
  all: finish_outcome.
Qed.

End Runs.

(** ** The return codes of the commands

    [subprocess.run] is called without [check] and its result is dropped:
    the return code of a command has no influence on the run. *)

Section ReturnCodes.

Context (env : Env).

Lemma same_run_bind {A B} (m m' : M A) (k k' : A → M B) :
  same_run m m' → (∀ a, same_run (k a) (k' a)) →
  same_run (m ≫= k) (m' ≫= k').
Proof.
  intros Hm Hk s. unfold mbind, M_bind. rewrite Hm.
  destruct (m' s) as [[a|e] s1]; [apply Hk|done].
Qed.

Lemma same_run_bind_ignore {A B} (m m' : M A) (k k' : M B) :
  same_effect m m' → same_run k k' →
  same_run (m ≫= λ _, k) (m' ≫= λ _, k').
Proof.
  intros Hm Hk s. unfold mbind, M_bind. destruct (Hm s) as [Hs Hr].
  destruct (m s) as [[a|e] s1], (m' s) as [[a'|e'] s1']; cbn in *;
    subst; first [apply Hk | done].
Qed.

Lemma same_effect_bind {A B} (m m' : M A) (k k' : A → M B) :
  same_run m m' → (∀ a, same_effect (k a) (k' a)) →
  same_effect (m ≫= k) (m' ≫= k').
Proof.
  intros Hm Hk s. unfold mbind, M_bind. rewrite Hm.
  destruct (m' s) as [[a|e] s1]; [apply Hk|done].
Qed.

Lemma same_run_refl {A} (m : M A) : same_run m m.
Proof. done. Qed.

Lemma same_effect_subprocess_run argv :
  same_effect (subprocess_run (forget_return_codes env) argv)
    (subprocess_run env argv).
Proof.
  intros s. unfold subprocess_run. cbn.
  destruct (run env (trace s) argv); done.
Qed.

Lemma same_run_for {A} (xs : list A) (body body' : A → M unit) :
  (∀ x, same_run (body x) (body' x)) →
  same_run (for_ xs body) (for_ xs body').
Proof.
  intros Hbody. induction xs as [|x xs IH]; [done|].
  cbn [for_]. apply same_run_bind; [apply Hbody|]. intros _. apply IH.
Qed.

Lemma same_effect_remove_experience target hash_key :
  same_effect (remove_experience (forget_return_codes env) target hash_key)
    (remove_experience env target hash_key).
Proof.
  unfold remove_experience.
  destruct (Config.controller_host target) as [host|];
    [destruct (decide (host = EmptyString))|].
  - apply same_effect_subprocess_run.
  - apply same_effect_bind; [done|]. intros option.
    apply same_effect_subprocess_run.
  - apply same_effect_subprocess_run.
Qed.

Lemma same_effect_sync_experience target temp_path hash_key :
  same_effect (sync_experience (forget_return_codes env) target temp_path
                 hash_key)
    (sync_experience env target temp_path hash_key).
Proof.
  unfold sync_experience. apply same_effect_bind; [done|].
  intros rsh. apply same_effect_subprocess_run.
Qed.

Lemma same_effect_sync_editorial_configs target temp_path :
  same_effect (sync_editorial_configs (forget_return_codes env) target
                 temp_path)
    (sync_editorial_configs env target temp_path).
Proof.
  unfold sync_editorial_configs. apply same_effect_bind; [done|].
  intros rsh. apply same_effect_subprocess_run.
Qed.

Lemma same_run_deploy_controls ev target :
  same_run (deploy_controls (forget_return_codes env) ev target)
    (deploy_controls env ev target).
Proof.
  unfold deploy_controls. cbv zeta.
  apply same_run_bind; [done|intros artifacts].
  apply same_run_bind; [done|intros url].
  apply same_run_bind; [done|intros _].
  apply same_run_bind_ignore; [apply same_effect_subprocess_run|].
  apply same_run_bind; [done|intros _].
  apply same_run_bind_ignore; [apply same_effect_subprocess_run|].
  apply same_run_bind; [done|intros _].
  apply same_run_bind; [done|intros rsh].
  apply same_run_bind_ignore; [apply same_effect_subprocess_run|].
  done.
Qed.

Lemma same_run_deploy_experiences ev target :
  same_run (deploy_experiences (forget_return_codes env) ev target)
    (deploy_experiences env ev target).
Proof.
  unfold deploy_experiences. cbv zeta.
  apply same_run_bind; [done|intros artifacts].
  apply same_run_bind; [done|intros url].
  apply same_run_bind; [done|intros _].
  apply same_run_bind_ignore; [apply same_effect_subprocess_run|].
  apply same_run_bind; [done|intros _].
  apply same_run_bind_ignore; [apply same_effect_subprocess_run|].
  apply same_run_bind; [done|intros _].
  apply same_run_bind; [done|intros hashes].
  apply same_run_bind; [done|intros known].
  apply same_run_bind; [done|intros _].
  apply same_run_bind; [done|intros existing].
  apply same_run_bind; [done|intros _].
  apply same_run_bind; [done|intros changed].
  apply same_run_bind; [done|intros _].
  apply same_run_bind.
  { apply same_run_for. intros hash_key.
    apply same_run_bind; [done|intros _].
    apply same_run_bind_ignore; [apply same_effect_remove_experience|done]. }
  intros _.
  apply same_run_bind; [done|intros _].
  apply same_run_bind.
  { apply same_run_for. intros hash_key.
    apply same_run_bind_ignore; [apply same_effect_sync_experience|done]. }
  intros _.
  apply same_run_bind; [done|intros _].
  apply same_run_bind; [done|intros _].
  apply same_run_bind; [done|intros _].
  apply same_run_bind_ignore; [apply same_effect_sync_editorial_configs|].
  done.
Qed.

Lemma deliver_forgets_return_codes config ev d f :
  deliver (forget_return_codes env) config ev d f = deliver env config ev d f.
Proof.
  unfold deliver, handle_workflow_run_completed.
  destruct (decide (status ev ≠ "completed" ∨ event ev ≠ "push")); [done|].
  destruct (config !! head_branch ev) as [target|]; [|done]. cbv zeta.
  destruct (decide (name ev ∉ ["build-controls"; "build-experiences"]));
    [done|].
  apply same_run_bind; [|done].
  destruct (decide (name ev = "build-controls"));
    [apply same_run_deploy_controls|].
  destruct (decide (name ev = "build-experiences"));
    [apply same_run_deploy_experiences|done].
Qed.

End ReturnCodes.

(** ** Deliveries *)

Section Deliveries.

Context (env : Env) (config : gmap string Config.Target).

Lemma deliver_ignored ev d f :
  status ev ≠ "completed" ∨ event ev ≠ "push"
    ∨ config !! head_branch ev = None →
  deliver env config ev d f = (Ok tt, mkState d f []).
Proof.
  intros Hcase. unfold deliver, handle_workflow_run_completed.
  destruct (decide (status ev ≠ "completed" ∨ event ev ≠ "push"));
    [done|].
  destruct Hcase as [?|[?|Hcfg]]; [tauto..|]. rewrite Hcfg. done.
Qed.

Lemma deliver_unknown_name ev d f target :
  status ev = "completed" → event ev = "push" →
  config !! head_branch ev = Some target →
  name ev ∉ ["build-controls"; "build-experiences"] →
  deliver env config ev d f
  = (Raise (HTTPException 400 "Unknown event name"), mkState d f []).
Proof.
  intros Hst Hev Hcfg Hname. unfold deliver, handle_workflow_run_completed.
  rewrite decide_False by (rewrite Hst, Hev; intros [?|?]; done).
  rewrite Hcfg. cbv zeta. rewrite decide_True by done. done.
Qed.

(** The four ways a delivery can go. *)
Lemma deliver_cases ev :
  (status ev ≠ "completed" ∨ event ev ≠ "push"
     ∨ config !! head_branch ev = None)
  ∨ ∃ target,
      status ev = "completed" ∧ event ev = "push"
      ∧ config !! head_branch ev = Some target
      ∧ (name ev ∉ ["build-controls"; "build-experiences"]
         ∨ name ev = "build-controls" ∨ name ev = "build-experiences").
Proof.
  destruct (decide (status ev = "completed")); [|by left; left].
  destruct (decide (event ev = "push")); [|by left; right; left].
  destruct (config !! head_branch ev) as [target|]; [|by left; right; right].
  right. exists target. split_and!; [done..|].
  destruct (decide (name ev = "build-controls")); [by right; left|].
  destruct (decide (name ev = "build-experiences")); [by right; right|].
  left. rewrite !elem_of_cons, elem_of_nil. tauto.
Qed.

Lemma accepted_middle history pre o post :
  accepted env history (pre ++ o :: post) →
  refused env (history ++ pre) o = false.
Proof. rewrite accepted_app. cbn. tauto. Qed.

(** Nothing follows a refused call, and its exception is the result. *)
Lemma stops_at_refusal_last r t pre o post :
  stops_at_refusal env r t →
  t = pre ++ o :: post → refused env pre o = true →
  post = [] ∧ r = Raise (exn_of o).
Proof.
  intros [Hacc|(t' & o' & -> & Hacc & Href & ->)] Ht Hpre.
  - subst t. apply accepted_middle in Hacc. cbn in Hacc. congruence.
  - destruct (decide (post = [])) as [->|Hpost].
    + apply app_inj_tail in Ht as [-> ->]. done.
    + destruct (exists_last Hpost) as (post' & o'' & ->).
      rewrite app_comm_cons, app_assoc in Ht.
      apply app_inj_tail in Ht as [-> ->].
      apply accepted_middle in Hacc. cbn in Hacc. congruence.
Qed.

Lemma deliver_stops_at_refusal ev d f :
  stops_at_refusal env (deliver env config ev d f).1
    (trace (deliver env config ev d f).2).
Proof.
  destruct (deliver_cases ev)
    as [Hign|(target & Hst & Hev & Hcfg & [Hname|[Hname|Hname]])].
  - rewrite deliver_ignored by done. by left.
  - rewrite (deliver_unknown_name _ _ _ target) by done. by left.
  - apply (deliver_controls env config ev d f target); done.
  - apply (deliver_experiences env config ev d f target); done.
Qed.

End Deliveries.

(** ** The unknown deployment key *)

(** C6. A run-completed event whose head branch is not a key of the target
  registry is ignored without error: the handler returns normally, no
  call leaves the process (no remote operation, no status report), and
  the build data and the data file are unchanged. *)
Theorem C6_unknown_branch_is_ignored (env : Env)
  (config : gmap string Config.Target) (ev : Event) (d : Data.BuildData)
  (f : Data.file) :
config !! head_branch ev = None →
deliver env config ev d f = (Ok tt, mkState d f []).
Proof. intros Hcfg. apply deliver_ignored. by right; right. Qed.

Lemma C6_unknown_branch_witness :
deliver Scenario.calm Scenario.registry
  (Scenario.push "build-experiences" "unknown-branch") Scenario.store None
= (Ok tt, mkState Scenario.store None []).
Proof.
apply (C6_unknown_branch_is_ignored Scenario.calm Scenario.registry
         (Scenario.push "build-experiences" "unknown-branch")
         Scenario.store None).
reflexivity.
Defined.

(** ** The controls pipeline *)

Section Controls.

Context (env : Env) (config : gmap string Config.Target).

Lemma ignores_store_controls_delivery ev target :
  status ev = "completed" → event ev = "push" →
  config !! head_branch ev = Some target →
  name ev = "build-controls" →
  ignores_store (handle_workflow_run_completed env config ev).
Proof.
  intros Hst Hev Hcfg Hname. unfold handle_workflow_run_completed.
  rewrite decide_False by (rewrite Hst, Hev; intros [?|?]; done).
  rewrite Hcfg. cbv zeta.
  rewrite decide_False by (rewrite Hname; intros Hn; apply Hn; left).
  rewrite decide_True by done.
  apply ignores_store_bind; [apply ignores_store_deploy_controls|].
  intros _. apply ignores_store_report_success.
Qed.

End Controls.

(** C7. A controls-pipeline run never reads or writes the stored
  fingerprints: whatever the build data and the data file hold, they are
  left as they were and the result and the calls of the run are the same.
  A run that returns has mirrored the whole unpacked tree to the web path
  of the target with [rsync -a --delete] and then requested the reload:
  its calls are exactly those of [controls_plan]. *)
Theorem C7_controls_full_mirror (env : Env)
  (config : gmap string Config.Target) (ev : Event)
  (target : Config.Target) :
status ev = "completed" → event ev = "push" →
config !! head_branch ev = Some target →
name ev = "build-controls" →
(∀ d f d' f',
   (deliver env config ev d f).1 = (deliver env config ev d' f').1
   ∧ trace (deliver env config ev d f).2
     = trace (deliver env config ev d' f').2
   ∧ data (deliver env config ev d f).2 = d
   ∧ disk (deliver env config ev d f).2 = f)
∧ (∀ d f,
     (deliver env config ev d f).1 = Ok tt →
     ∃ url dH secs,
       trace (deliver env config ev d f).2
       = controls_plan env ev target url dH secs).
Proof.
intros Hst Hev Hcfg Hname. split.
- intros d f d' f'.
  apply (ignores_store_controls_delivery env config ev target); done.
- intros d f Hok.
  destruct (deliver_controls env config ev d f target Hst Hev Hcfg Hname)
    as (_ & _ & _ & _ & url & dH & secs & _ & Hplan).
  exists url, dH, secs. apply Hplan, Hok.
Qed.

Lemma C7_controls_witness :
(∀ d f d' f',
   (deliver Scenario.calm Scenario.registry Scenario.controls_push d f).1
   = (deliver Scenario.calm Scenario.registry Scenario.controls_push d' f').1
   ∧ trace
       (deliver Scenario.calm Scenario.registry Scenario.controls_push d f).2
     = trace
         (deliver Scenario.calm Scenario.registry Scenario.controls_push
            d' f').2
   ∧ data
       (deliver Scenario.calm Scenario.registry Scenario.controls_push d f).2
     = d
   ∧ disk
       (deliver Scenario.calm Scenario.registry Scenario.controls_push d f).2
     = f)
∧ (∀ d f,
     (deliver Scenario.calm Scenario.registry Scenario.controls_push d f).1
     = Ok tt →
     ∃ url dH secs,
       trace
         (deliver Scenario.calm Scenario.registry Scenario.controls_push
            d f).2
       = controls_plan Scenario.calm Scenario.controls_push Scenario.target
           url dH secs).
Proof.
apply (C7_controls_full_mirror Scenario.calm Scenario.registry
         Scenario.controls_push Scenario.target);
  reflexivity.
Defined.

(** ** The experiences pipeline *)

(** C8. An experiences-pipeline run that returns has made exactly these
  calls, in this order: the download and the unpacking of the artifact;
  the report "Deleting deleted experiences" and the removal of the remote
  directory of every deleted key; the report "Syncing experiences" and
  the [rsync --delete] of every changed or new key, without [*.mp4] and
  [*.webm]; the commit; the report "Syncing editorial configs" and the
  [rsync --delete] of the folders, tags and collections files to the
  controller path; the report "Reloading controller" and one reload
  request; the report of success. *)
Theorem C8_experiences_stage_order (env : Env)
  (config : gmap string Config.Target) (ev : Event)
  (target : Config.Target) (d : Data.BuildData) (f : Data.file) :
status ev = "completed" → event ev = "push" →
config !! head_branch ev = Some target →
name ev = "build-experiences" →
(deliver env config ev d f).1 = Ok tt →
experiences_completed env ev target d (trace (deliver env config ev d f).2).
Proof.
intros Hst Hev Hcfg Hname Hok.
destruct (deliver_experiences env config ev d f target Hst Hev Hcfg Hname)
  as (_ & _ & [([e He] & _)|Hcommit]).
- unfold deliver in Hok. congruence.
- destruct Hcommit
    as (artifacts & url & hashes & dels & syncs & post & dH & secs
        & Hget & Hfind & Hread & Hdels & Hsyncs & _ & _ & Htrace & _ & Hpost).
  exists artifacts, url, hashes, dels, syncs, dH, secs.
  split_and!; [done..|].
  unfold deliver. rewrite Htrace, (Hpost Hok). done.
Qed.

Lemma C8_experiences_witness :
experiences_completed Scenario.calm
  Scenario.experiences_push Scenario.target Scenario.store
  (trace (deliver Scenario.calm Scenario.registry
            Scenario.experiences_push
            Scenario.store None).2).
Proof.
apply (C8_experiences_stage_order Scenario.calm Scenario.registry
         Scenario.experiences_push Scenario.target
         Scenario.store None);
  reflexivity.
Defined.

(** ** What the logs of the runs contain *)

Section Logs.

Context (env : Env) (config : gmap string Config.Target).

Lemma Forall_prefix {A} (P : A → Prop) (l1 l2 : list A) :
  l1 `prefix_of` l2 → Forall P l2 → Forall P l1.
Proof. intros [k ->] [H _]%Forall_app. done. Qed.

Lemma before_commit_not_save ev doc : ¬ before_commit ev (OSave doc).
Proof. intros [[? ?]|[[? ?]|[? ?]]]; discriminate. Qed.

Lemma before_commit_not_reload ev url : ¬ before_commit ev (OReload url).
Proof. intros [[? ?]|[[? ?]|[? ?]]]; discriminate. Qed.

Lemma before_commit_never_failure ev o :
  before_commit ev o → never_failure ev o.
Proof.
  intros [[? ->]|[[? ->]|[? ->]]]; left;
    [by left|right; by eexists|by left].
Qed.

Lemma aborted_no_save ev target temp_path f r s' doc :
  experiences_aborted ev target temp_path f r s' → OSave doc ∉ trace s'.
Proof.
  intros (_ & _ & Hall & _) Hin.
  rewrite Forall_forall in Hall.
  exact (before_commit_not_save ev doc (Hall _ Hin)).
Qed.

Lemma aborted_no_reload ev target temp_path f r s' url :
  experiences_aborted ev target temp_path f r s' → OReload url ∉ trace s'.
Proof.
  intros (_ & _ & Hall & _) Hin.
  rewrite Forall_forall in Hall.
  exact (before_commit_not_reload ev url (Hall _ Hin)).
Qed.

Lemma experiences_tail_never_failure ev target dH secs :
  Forall (never_failure ev) (experiences_tail env ev target dH secs).
Proof.
  unfold experiences_tail.
  repeat first
    [ apply Forall_nil_2
    | apply Forall_cons_2;
        [first [ left; left; reflexivity
               | left; right; eexists; reflexivity
               | right; eexists; reflexivity ]|] ].
Qed.

Lemma committed_never_failure ev target d r s' :
  experiences_committed env ev target d r s' →
  Forall (never_failure ev) (trace s').
Proof.
  intros (artifacts & url & hashes & dels & syncs & post & dH & secs
          & _ & _ & _ & Hdels & Hsyncs & _ & _ & -> & Hpost & _).
  unfold experiences_fetch.
  repeat first
    [ apply Forall_nil_2
    | apply Forall_cons_2;
        [first [ left; left; reflexivity
               | left; right; eexists; reflexivity ]|]
    | apply Forall_app_2 ].
  - eapply Forall2_Forall_right; [|exact Hdels].
    intros k o [? ->]. left. by left.
  - eapply Forall2_Forall_right; [|exact Hsyncs].
    intros k o [? ->]. left. by left.
  - eapply Forall_prefix; [exact Hpost|].
    apply experiences_tail_never_failure.
Qed.

Lemma committed_sync_report ev target d r s' :
  experiences_committed env ev target d r s' →
  progress ev "Syncing experiences" ∈ trace s'.
Proof.
  intros (artifacts & url & hashes & dels & syncs & post & dH & secs
          & _ & _ & _ & _ & _ & _ & _ & -> & _).
  apply elem_of_app. right. apply list_elem_of_further.
  apply elem_of_app. right. apply list_elem_of_here.
Qed.

Lemma committed_save ev target d r s' :
  experiences_committed env ev target d r s' →
  ∃ doc, OSave doc ∈ trace s'.
Proof.
  intros (artifacts & url & hashes & dels & syncs & post & dH & secs
          & _ & _ & _ & _ & _ & _ & _ & -> & _).
  eexists.
  apply elem_of_app. right. apply list_elem_of_further.
  apply elem_of_app. right. apply list_elem_of_further.
  apply elem_of_app. right. apply list_elem_of_here.
Qed.

Lemma controls_plan_never_failure ev target url dH secs :
  Forall (never_failure ev) (controls_plan env ev target url dH secs).
Proof.
  unfold controls_plan.
  repeat first
    [ apply Forall_nil_2
    | apply Forall_cons_2;
        [first [ left; left; reflexivity
               | left; right; eexists; reflexivity
               | right; eexists; reflexivity ]|] ].
Qed.

Lemma controls_plan_no_save ev target url dH secs doc :
  OSave doc ∉ controls_plan env ev target url dH secs.
Proof.
  unfold controls_plan, progress, success_report.
  rewrite !elem_of_cons, elem_of_nil.
  intros Hin. repeat destruct Hin as [Hin|Hin]; try discriminate; done.
Qed.

Lemma never_failure_state ev o :
  never_failure ev o → status_state o ≠ Some "failure".
Proof. intros [[Ho|[? ->]]|[? ->]]; [by rewrite Ho|done..]. Qed.

(** No delivery reports a failure. *)
Lemma deliver_never_failure ev d f :
  Forall (never_failure ev) (trace (deliver env config ev d f).2).
Proof.
  destruct (deliver_cases config ev)
    as [Hign|(target & Hst & Hev & Hcfg & [Hname|[Hname|Hname]])].
  - rewrite deliver_ignored by done. constructor.
  - rewrite (deliver_unknown_name _ _ _ _ _ target) by done. constructor.
  - destruct (deliver_controls env config ev d f target Hst Hev Hcfg Hname)
      as (_ & _ & _ & _ & url & dH & secs & Hpre & _).
    eapply Forall_prefix; [exact Hpre|apply controls_plan_never_failure].
  - destruct (deliver_experiences env config ev d f target
                Hst Hev Hcfg Hname) as (_ & _ & [Hab|Hcommit]).
    + destruct Hab as (_ & _ & Hall & _).
      eapply Forall_impl; [exact Hall|].
      intros o. apply before_commit_never_failure.
    + exact (committed_never_failure _ _ _ _ _ Hcommit).
Qed.

(** A delivery that returns after the registry lookup ends with the
    report of success. *)
Lemma deliver_ends_with_success ev d f target :
  status ev = "completed" → event ev = "push" →
  config !! head_branch ev = Some target →
  ends_with_success env ev (deliver env config ev d f).1
    (trace (deliver env config ev d f).2).
Proof.
  intros Hst Hev Hcfg.
  destruct (deliver_cases config ev)
    as [Hign|(target' & _ & _ & _ & [Hname|[Hname|Hname]])].
  - destruct Hign as [?|[?|?]]; congruence.
  - rewrite (deliver_unknown_name _ _ _ _ _ target) by done.
    intros ?; discriminate.
  - apply (deliver_controls env config ev d f target); done.
  - apply (deliver_experiences env config ev d f target); done.
Qed.

Lemma delete_not_sync_stage ev target temp_path o :
  delete_stage_call ev target o → ¬ sync_stage_call ev target temp_path o.
Proof.
  intros [->|[k Hrm]] [Heq|[k' Hsync]].
  - discriminate.
  - destruct Hsync as [? ?]. discriminate.
  - destruct Hrm as [? ->]. discriminate.
  - exact (remove_call_not_sync target temp_path k k' o Hrm Hsync).
Qed.

Lemma last_in_suffix {A} (l1 l2 l3 : list A) x :
  l1 ++ [x] = l2 ++ l3 → l3 ≠ [] → x ∈ l3.
Proof.
  intros Heq Hne. destruct (exists_last Hne) as (l3' & y & ->).
  rewrite app_assoc in Heq. apply app_inj_tail in Heq as [_ ->].
  apply elem_of_app. right. apply list_elem_of_here.
Qed.

Lemma delete_stage_call_not_after_commit ev target doc dH secs o :
  o ∈ OSave doc :: experiences_tail env ev target dH secs →
  ¬ delete_stage_call ev target o.
Proof.
  unfold experiences_tail. rewrite !elem_of_cons, elem_of_nil.
  intros Hin [Heq|[k [dH' Hrm]]]; subst o;
    repeat destruct Hin as [Hin|Hin]; try discriminate; try done.
  revert Hin. unfold remove_argv, editorial_argv.
  destruct (Config.controller_host target) as [host|];
    [destruct (decide (host = EmptyString))|]; cbn [app]; discriminate.
Qed.

Lemma committed_last_not_delete ev target d r s' pre o :
  experiences_committed env ev target d r s' →
  trace s' = pre ++ [o] → ¬ delete_stage_call ev target o.
Proof.
  intros (artifacts & url & hashes & dels & syncs & post & dH & secs
          & _ & _ & _ & _ & _ & _ & _ & Htrace & [k Hpost] & _) Hlast.
  rewrite Hlast in Htrace.
  assert (Hsplit :
            pre ++ [o]
            = (experiences_fetch env ev url
               ++ progress ev "Deleting deleted experiences" :: dels
               ++ progress ev "Syncing experiences" :: syncs)
              ++ OSave
                   (Data.to_json
                      (Data.mkBuildData
                         (<[head_branch ev:=Data.mkTarget hashes]>
                            (Data.targets d)))) :: post).
  { rewrite Htrace. repeat (rewrite <- app_assoc; cbn [app]). done. }
  apply last_in_suffix in Hsplit; [|done].
  clear Htrace. rename Hsplit into Htrace.
  eapply (delete_stage_call_not_after_commit ev target _ dH secs).
  rewrite Hpost. apply elem_of_cons in Htrace as [->|Hin].
  - apply list_elem_of_here.
  - apply list_elem_of_further, elem_of_app. by left.
Qed.

End Logs.

(** ** The commit *)

(** C10. In an experiences-pipeline run that reaches its commit, the
  fingerprints stored for the branch are exactly the manifest read from
  [hashes.json] - the assignment of line 278 replaces whatever the
  insertions and removals made earlier in the run had left - the other
  branches keep their fingerprints, and the data file holds the dump of
  this build data, so that loading it returns the same build data. *)
Theorem C10_commit_stores_manifest (env : Env)
  (config : gmap string Config.Target) (ev : Event)
  (target : Config.Target) (d : Data.BuildData) (f : Data.file) :
status ev = "completed" → event ev = "push" →
config !! head_branch ev = Some target →
name ev = "build-experiences" →
(∃ doc, OSave doc ∈ trace (deliver env config ev d f).2) →
manifest_committed env ev d (deliver env config ev d f).2.
Proof.
intros Hst Hev Hcfg Hname [doc Hdoc].
destruct (deliver_experiences env config ev d f target Hst Hev Hcfg Hname)
  as (_ & _ & [Hab|Hcommit]).
- exfalso. exact (aborted_no_save _ _ _ _ _ _ doc Hab Hdoc).
- destruct Hcommit
    as (artifacts & url & hashes & dels & syncs & post & dH & secs
        & _ & _ & Hread & _ & _ & Hdata & Hdisk & _).
  exists hashes. unfold deliver. rewrite Hdata, Hdisk.
  cbn [Data.targets Data.load_build_data].
  split_and!; [done| |..|done|].
  + apply lookup_insert_eq.
  + intros branch Hne. by apply lookup_insert_ne.
  + apply parse_obj_to_json.
Qed.

Lemma C10_commit_witness :
manifest_committed Scenario.calm Scenario.experiences_push
  Scenario.store
  (deliver Scenario.calm Scenario.registry
     Scenario.experiences_push Scenario.store None).2.
Proof.
apply (C10_commit_stores_manifest Scenario.calm Scenario.registry
         Scenario.experiences_push Scenario.target
         Scenario.store None); try reflexivity.
eexists. vm_compute. do 10 right. left.
Defined.

(** C1, as the code has it. The data file is written by the commit of the
  experiences pipeline and by nothing else. A run without commit - any
  run of the controls pipeline, any ignored event, and any run of the
  experiences pipeline that raises before the commit - leaves the data
  file exactly as it was. The commit comes after the delete stage and the
  sync stage have run through, and before the sync of the editorial
  configuration and the reload: a run that raises in these last two
  stages has already replaced the data file. *)
Theorem C1_store_written_only_by_commit (env : Env)
  (config : gmap string Config.Target) (ev : Event) (d : Data.BuildData)
  (f : Data.file) :
(disk (deliver env config ev d f).2 = f
 ∧ ∀ doc, OSave doc ∉ trace (deliver env config ev d f).2)
∨ (∃ target,
     config !! head_branch ev = Some target
     ∧ name ev = "build-experiences"
     ∧ experiences_committed env ev target d
         (deliver env config ev d f).1 (deliver env config ev d f).2).
Proof.
destruct (deliver_cases config ev)
  as [Hign|(target & Hst & Hev & Hcfg & [Hname|[Hname|Hname]])].
- left. rewrite deliver_ignored by done. split; [done|].
  intros doc Hin. by apply elem_of_nil in Hin.
- left. rewrite (deliver_unknown_name _ _ _ _ _ target) by done.
  split; [done|]. intros doc Hin. by apply elem_of_nil in Hin.
- left.
  destruct (deliver_controls env config ev d f target Hst Hev Hcfg Hname)
    as (_ & _ & _ & Hdisk & url & dH & secs & [k Hpre] & _).
  split; [exact Hdisk|]. intros doc Hin.
  apply (controls_plan_no_save env ev target url dH secs doc).
  rewrite Hpre. apply elem_of_app. by left.
- destruct (deliver_experiences env config ev d f target Hst Hev Hcfg Hname)
    as (_ & _ & [Hab|Hcommit]).
  + left. split; [apply Hab|].
    intros doc. exact (aborted_no_save _ _ _ _ _ _ doc Hab).
  + right. exists target. done.
Qed.

(** C1 as the specification states it fails: when the reload endpoint
  answers with an error the run raises, and the data file, which did not
  exist, has been written. *)
Lemma C1_counterexample_reload_fails :
(deliver Scenario.reload_down Scenario.registry Scenario.experiences_push
   Scenario.store None).1 = Raise HTTPError
∧ disk (deliver Scenario.reload_down Scenario.registry
          Scenario.experiences_push Scenario.store None).2
  = Some (Data.to_json
            (Data.mkBuildData
               {["main" := Data.mkTarget Scenario.manifest]}))
∧ disk (deliver Scenario.reload_down Scenario.registry
          Scenario.experiences_push Scenario.store None).2 ≠ None.
Proof. vm_compute. split_and!; [reflexivity..|discriminate]. Qed.

(** ** Failures *)

(** C2, as the code has it. In a run of the experiences pipeline a call
    that raises - a report refused by the status sink, a command that
    cannot be started, an HTTP error of the listing or of the reload - ends
    the run on the spot: no call follows it. In particular, when a call of
    the delete stage raises, no experience is pushed, nothing is committed,
    no reload is requested and the data file keeps its content. A command
    that exits with a non-zero status raises nothing: the run is the one it
    would have been had every command exited with 0. *)
Theorem C2_raise_aborts_remaining_stages (env : Env)
    (config : gmap string Config.Target) (ev : Event)
    (target : Config.Target) (d : Data.BuildData) (f : Data.file) :
  status ev = "completed" → event ev = "push" →
  config !! head_branch ev = Some target →
  name ev = "build-experiences" →
  raise_ends_run env (deliver env config ev d f).1
    (trace (deliver env config ev d f).2)
  ∧ (∀ (pre : list op) (o : op) (post : list op),
       trace (deliver env config ev d f).2 = pre ++ o :: post →
       delete_stage_call ev target o →
       refused env pre o = true →
       nothing_pushed target (temp_dir env) f (deliver env config ev d f).2)
  ∧ deliver (forget_return_codes env) config ev d f
    = deliver env config ev d f.
Proof.
  intros Hst Hev Hcfg Hname.
  assert (Hends : raise_ends_run env (deliver env config ev d f).1
                    (trace (deliver env config ev d f).2)).
  { intros pre o post. apply stops_at_refusal_last.
    apply deliver_stops_at_refusal. }
  split_and!; [exact Hends| |apply deliver_forgets_return_codes].
  intros pre o post Htrace Hdel Href.
  destruct (Hends pre o post Htrace Href) as [-> _].
  destruct (deliver_experiences env config ev d f target Hst Hev Hcfg Hname)
    as (_ & _ & [Hab|Hcommit]).
  - pose proof Hab as (_ & Hdisk & _ & [Hbefore|(pre' & o' & Hlast & Hsync)]).
    + split_and!; [| | |exact Hdisk].
      * intros o' k Hin. rewrite Forall_forall in Hbefore.
        apply (Hbefore o' Hin).
      * intros url. exact (aborted_no_reload _ _ _ _ _ _ url Hab).
      * intros doc. exact (aborted_no_save _ _ _ _ _ _ doc Hab).
    + exfalso. unfold deliver in Htrace. rewrite Hlast in Htrace.
      apply app_inj_tail in Htrace as [_ ->].
      exact (delete_not_sync_stage _ _ _ _ Hdel Hsync).
  - exfalso.
    exact (committed_last_not_delete env _ _ _ _ _ _ _ Hcommit Htrace Hdel).
Qed.

Lemma C2_raise_in_delete_stage_witness :
  raise_ends_run Scenario.no_ssh
    (deliver Scenario.no_ssh Scenario.registry Scenario.experiences_push
       Scenario.store None).1
    (trace (deliver Scenario.no_ssh Scenario.registry
              Scenario.experiences_push Scenario.store None).2)
  ∧ nothing_pushed Scenario.target (temp_dir Scenario.no_ssh) None
      (deliver Scenario.no_ssh Scenario.registry Scenario.experiences_push
         Scenario.store None).2
  ∧ deliver (forget_return_codes Scenario.no_ssh) Scenario.registry
      Scenario.experiences_push Scenario.store None
    = deliver Scenario.no_ssh Scenario.registry Scenario.experiences_push
        Scenario.store None.
Proof.
  destruct (C2_raise_aborts_remaining_stages Scenario.no_ssh Scenario.registry
              Scenario.experiences_push Scenario.target
              Scenario.store None eq_refl eq_refl eq_refl eq_refl)
    as (Hends & Hnothing & Hcodes).
  split_and!; [exact Hends| |exact Hcodes].
  apply (Hnothing
           (experiences_fetch Scenario.no_ssh Scenario.experiences_push
              "https://api.github.com/artifacts/2/zip"
            ++ [progress Scenario.experiences_push
                  "Deleting deleted experiences"])
           (ORun Scenario.remove_a) []).
  - vm_compute. reflexivity.
  - right. exists "a", "0312". reflexivity.
  - reflexivity.
Defined.

(** C2 as the specification states it fails. A delete stage whose command
  fails with exit status 255 does not stop the run: [subprocess.run] is
  called without [check], the experience [c] is pushed, the reload is
  requested, the run returns and the data file is written. And when the
  delete stage does raise, because [ssh] cannot be started, the run stops
  and the data file is untouched, but the build data in memory has
  already received the new key [c] and lost the key [a]. *)
Lemma C2_counterexample_failed_delete :
(ORun Scenario.remove_a
   ∈ trace (deliver Scenario.host_down Scenario.registry
              Scenario.experiences_push Scenario.store None).2
 ∧ run Scenario.host_down [] Scenario.remove_a = Some 255%Z
 ∧ ORun (sync_argv Scenario.target "/tmp/tmpk3v" "0312" "c")
     ∈ trace (deliver Scenario.host_down Scenario.registry
                Scenario.experiences_push Scenario.store None).2
 ∧ OReload "http://kiosk:8000/reload"
     ∈ trace (deliver Scenario.host_down Scenario.registry
                Scenario.experiences_push Scenario.store None).2
 ∧ (deliver Scenario.host_down Scenario.registry
      Scenario.experiences_push Scenario.store None).1 = Ok tt
 ∧ disk (deliver Scenario.host_down Scenario.registry
           Scenario.experiences_push Scenario.store None).2 ≠ None)
∧ ((deliver Scenario.no_ssh Scenario.registry
      Scenario.experiences_push Scenario.store None).1 = Raise OSError
   ∧ disk (deliver Scenario.no_ssh Scenario.registry
             Scenario.experiences_push Scenario.store None).2 = None
   ∧ data (deliver Scenario.no_ssh Scenario.registry
             Scenario.experiences_push Scenario.store None).2
     = Scenario.half_updated
   ∧ Scenario.half_updated ≠ Scenario.store).
Proof.
split.
- split_and!.
  + apply (bool_decide_unpack _). vm_compute. exact I.
  + reflexivity.
  + apply (bool_decide_unpack _). vm_compute. exact I.
  + apply (bool_decide_unpack _). vm_compute. exact I.
  + vm_compute. reflexivity.
  + vm_compute. discriminate.
- split_and!; [vm_compute; reflexivity..|].
  intros Heq.
  assert (Hlook : stored_hashes Scenario.half_updated "main" !! "a"
                  = stored_hashes Scenario.store "main" !! "a")
    by (rewrite Heq; reflexivity).
  vm_compute in Hlook. discriminate.
Qed.

(** The retry after such a run does not compute the diff of the first
  attempt: the key [c], inserted by the failed run, is no longer new, and
  the retry, in which every call succeeds, never pushes it. *)
Remark retry_after_raise_skips_new_key :
ORun (sync_argv Scenario.target "/tmp/tmpk3v" "0312" "c")
  ∈ trace (deliver Scenario.calm Scenario.registry
             Scenario.experiences_push Scenario.store None).2
∧ (deliver Scenario.calm Scenario.registry Scenario.experiences_push
     Scenario.half_updated None).1 = Ok tt
∧ ORun (sync_argv Scenario.target "/tmp/tmpk3v" "0312" "c")
    ∉ trace (deliver Scenario.calm Scenario.registry
               Scenario.experiences_push Scenario.half_updated None).2.
Proof.
split_and!.
- apply (bool_decide_unpack _). vm_compute. exact I.
- vm_compute. reflexivity.
- apply (bool_decide_unpack _). vm_compute. exact I.
Qed.

(** C4, as the code has it. The handler never reports a failure: every
  report of a run is a progress report in state [pending], or the report
  of success. A run that returns, for an event that passed the registry
  lookup, ends with one report in state [success] against the head
  commit, whose description carries the seconds elapsed; the calls before
  it hold no other report of an outcome. *)
Theorem C4_success_reported_failure_never (env : Env)
  (config : gmap string Config.Target) (ev : Event)
  (target : Config.Target) (d : Data.BuildData) (f : Data.file) :
status ev = "completed" → event ev = "push" →
config !! head_branch ev = Some target →
Forall (λ o, status_state o ≠ Some "failure")
  (trace (deliver env config ev d f).2)
∧ ends_with_success env ev (deliver env config ev d f).1
    (trace (deliver env config ev d f).2).
Proof.
intros Hst Hev Hcfg. split.
- eapply Forall_impl; [apply deliver_never_failure|].
  intros o. apply never_failure_state.
- by apply (deliver_ends_with_success env config ev d f target).
Qed.

Lemma C4_success_witness :
Forall (λ o, status_state o ≠ Some "failure")
  (trace (deliver Scenario.calm Scenario.registry
            Scenario.experiences_push Scenario.store None).2)
∧ ends_with_success Scenario.calm Scenario.experiences_push
    (deliver Scenario.calm Scenario.registry Scenario.experiences_push
       Scenario.store None).1
    (trace (deliver Scenario.calm Scenario.registry
              Scenario.experiences_push Scenario.store None).2).
Proof.
apply (C4_success_reported_failure_never Scenario.calm Scenario.registry
         Scenario.experiences_push Scenario.target Scenario.store None);
  reflexivity.
Defined.

(** C4 as the specification states it fails: the run that finds no
  artifact raises, and its only call is the request of the listing; no
  report of failure is made. *)
Lemma C4_counterexample_failure_unreported :
(deliver Scenario.no_artifact Scenario.registry Scenario.experiences_push
   Scenario.store None).1
= Raise (RuntimeError "Missing experiences build")
∧ trace (deliver Scenario.no_artifact Scenario.registry
           Scenario.experiences_push Scenario.store None).2
  = [OGet (artifacts_url Scenario.experiences_push)]
∧ Forall (λ o, status_state o ≠ Some "failure")
    (trace (deliver Scenario.no_artifact Scenario.registry
              Scenario.experiences_push Scenario.store None).2).
Proof.
split_and!; [vm_compute; reflexivity..|].
vm_compute. repeat constructor. discriminate.
Qed.

(** C5, as the code has it. [set_commit_status] lets the exception of the
  status sink through: a report that the sink refuses is the last call of
  the run, and the run ends with [GithubException]. *)
Theorem C5_refused_report_ends_run (env : Env)
  (config : gmap string Config.Target) (ev : Event) (d : Data.BuildData)
  (f : Data.file) (pre post : list op)
  (repository_name sha state context : string)
  (description : option string) :
trace (deliver env config ev d f).2
= pre ++ OStatus repository_name sha state context description :: post →
create_status_ok env pre
  (OStatus repository_name sha state context description) = false →
post = [] ∧ (deliver env config ev d f).1 = Raise GithubException.
Proof.
intros Htrace Hsink.
apply (stops_at_refusal_last env _ _ pre
         (OStatus repository_name sha state context description) post
         (deliver_stops_at_refusal env config ev d f) Htrace).
cbn. by rewrite Hsink.
Qed.

Lemma C5_refused_report_witness :
[] = ([] : list op)
∧ (deliver Scenario.sink_down Scenario.registry Scenario.experiences_push
     Scenario.store None).1 = Raise GithubException.
Proof.
apply (C5_refused_report_ends_run Scenario.sink_down Scenario.registry
         Scenario.experiences_push Scenario.store None
         [OGet (artifacts_url Scenario.experiences_push)] []
         "BYU-PCCL/footron" "4f2a9c1" "pending"
         "footron-ci/build-experiences" (Some "Downloading artifacts"));
  reflexivity.
Defined.

(** C5 as the specification states it fails: with a status sink that is
  down, the run that would have deployed and returned raises at its first
  report, before any command has run. *)
Lemma C5_counterexample_sink_down :
(deliver Scenario.calm Scenario.registry Scenario.experiences_push
   Scenario.store None).1 = Ok tt
∧ (deliver Scenario.sink_down Scenario.registry Scenario.experiences_push
     Scenario.store None).1 = Raise GithubException
∧ trace (deliver Scenario.sink_down Scenario.registry
           Scenario.experiences_push Scenario.store None).2
  = [OGet (artifacts_url Scenario.experiences_push);
     progress Scenario.experiences_push "Downloading artifacts"].
Proof. split_and!; vm_compute; reflexivity. Qed.

(** * Further properties of the code *)

(** ** Strings *)

Section Strings.

Lemma append_cons c (s t : string) : String c s +:+ t = String c (s +:+ t).
Proof. reflexivity. Qed.

Lemma append_nil_l (s : string) : EmptyString +:+ s = s.
Proof. reflexivity. Qed.


Lemma append_nil_r (s : string) : s +:+ EmptyString = s.
Proof. induction s as [|c s IH]; [done|]. rewrite append_cons. by rewrite IH. Qed.

End Strings.

(** ** [config.py]: the two parts of [controller_path] *)

Section ControllerPath.

Lemma has_colon_append_colon (host rest : string) :
  Config.has_colon (host +:+ ":" +:+ rest) = true.
Proof.
  induction host as [|c host IH]; [done|].
  rewrite append_cons. cbn [Config.has_colon].
  destruct (decide (c = ":"%char)); done.
Qed.

Lemma split_colon_plain (s : string) :
  Config.has_colon s = false → Config.split_colon s = [s].
Proof.
  induction s as [|c s IH]; [done|]. cbn [Config.has_colon Config.split_colon].
  destruct (decide (c = ":"%char)); [done|]. intros Hs. by rewrite IH.
Qed.

Lemma split_colon_append (host rest : string) :
  Config.has_colon host = false →
  Config.split_colon (host +:+ ":" +:+ rest)
  = host :: Config.split_colon rest.
Proof.
  induction host as [|c host IH]; [done|].
  rewrite append_cons. cbn [Config.has_colon Config.split_colon].
  destruct (decide (c = ":"%char)); [done|]. intros Hs. by rewrite IH.
Qed.

Lemma split_colon_words (s : string) :
  Forall (λ w, Config.has_colon w = false) (Config.split_colon s).
Proof.
  induction s as [|c s IH]; [by repeat constructor|].
  cbn [Config.split_colon]. destruct (decide (c = ":"%char)) as [->|Hc].
  - by constructor.
  - destruct (Config.split_colon s) as [|w ws].
    + repeat constructor. cbn. by rewrite decide_False.
    + apply Forall_cons in IH as [Hw Hws]. constructor; [|done].
      cbn. by rewrite decide_False.
Qed.

Lemma split_colon_nonempty (s : string) : Config.split_colon s ≠ [].
Proof.
  destruct s as [|c s]; [done|]. cbn [Config.split_colon].
  destruct (decide (c = ":"%char)); [done|].
  by destruct (Config.split_colon s).
Qed.

Lemma split_colon_second (s : string) :
  Config.has_colon s = true → is_Some (Config.split_colon s !! 1%nat).
Proof.
  induction s as [|c s IH]; [done|].
  cbn [Config.has_colon Config.split_colon].
  destruct (decide (c = ":"%char)).
  - intros _. pose proof (split_colon_nonempty s).
    destruct (Config.split_colon s) as [|w ws]; [done|]. by eexists.
  - intros Hs. specialize (IH Hs).
    destruct (Config.split_colon s) as [|w ws]; [by destruct IH|done].
Qed.

Lemma controller_parts_plain (target : Config.Target) :
  Config.has_colon (Config.controller_path target) = false →
  Config.controller_host target = None
  ∧ Config.controller_fs_path target = Config.controller_path target.
Proof.
  intros Hc. unfold Config.controller_host, Config.controller_fs_path.
  by rewrite Hc.
Qed.

End ControllerPath.

(** X1. When [controller_path] is [host:dir], with no colon in [host] and
    in [dir], possibly followed by a colon and more, the host of the
    controller is [host] and its path is [dir]: what follows a second colon
    is dropped. *)
Theorem X1_controller_path_parts (host dir more : string)
    (web colors api : string) :
  Config.has_colon host = false →
  Config.has_colon dir = false →
  more = EmptyString ∨ (∃ rest, more = ":" +:+ rest) →
  let target := Config.mkTarget (host +:+ ":" +:+ dir +:+ more) web colors api in
  Config.controller_host target = Some host
  ∧ Config.controller_fs_path target = dir.
Proof.
  intros Hhost Hdir Hmore target.
  unfold Config.controller_host, Config.controller_fs_path, target.
  cbn [Config.controller_path].
  rewrite has_colon_append_colon. cbn [negb].
  rewrite split_colon_append by done. split; [done|].
  cbn [lookup]. destruct Hmore as [->|[rest ->]].
  - rewrite append_nil_r, split_colon_plain by done. done.
  - rewrite split_colon_append by done. done.
Qed.

Lemma X1_controller_path_witness :
  Config.controller_host
    (Config.mkTarget ("kiosk" +:+ ":" +:+ "/opt/footron" +:+ ":" +:+ "22")
       "/srv/web" "/srv/colors" "http://kiosk:8000/")
  = Some "kiosk"
  ∧ Config.controller_fs_path
      (Config.mkTarget ("kiosk" +:+ ":" +:+ "/opt/footron" +:+ ":" +:+ "22")
         "/srv/web" "/srv/colors" "http://kiosk:8000/")
    = "/opt/footron".
Proof.
  apply (X1_controller_path_parts "kiosk" "/opt/footron" (":" +:+ "22")
           "/srv/web" "/srv/colors" "http://kiosk:8000/");
    [reflexivity|reflexivity|].
  right. exists "22". reflexivity.
Defined.

(** X2. Neither the host nor the path of the controller ever holds a colon;
    a [controller_path] without colon has no host and is itself the path;
    with a colon, the split has the second element that
    [controller_fs_path] takes. *)
Theorem X2_controller_parts_hold_no_colon (target : Config.Target) :
  Config.has_colon (Config.controller_fs_path target) = false
  ∧ (∀ host, Config.controller_host target = Some host →
             Config.has_colon host = false)
  ∧ (Config.has_colon (Config.controller_path target) = false →
     Config.controller_host target = None
     ∧ Config.controller_fs_path target = Config.controller_path target)
  ∧ (Config.has_colon (Config.controller_path target) = true →
     Config.split_colon (Config.controller_path target) !! 1%nat
     = Some (Config.controller_fs_path target)).
Proof.
  pose proof (split_colon_words (Config.controller_path target)) as Hwords.
  pose proof (split_colon_second (Config.controller_path target)) as Hsecond.
  pose proof (controller_parts_plain target) as Hplain.
  unfold Config.controller_host, Config.controller_fs_path in *.
  rewrite Forall_lookup in Hwords.
  destruct (Config.has_colon (Config.controller_path target)) eqn:Hc;
    cbn [negb] in *.
  - destruct (Hsecond eq_refl) as [w Hw]. rewrite Hw. cbn [default].
    split_and!; [by apply (Hwords 1%nat)| |done|done].
    intros host Hhost. by apply (Hwords 0%nat).
  - split_and!; done.
Qed.

Section Commands.

Context (env : Env).







End Commands.

Section Removal.

Context (env : Env).

Lemma controller_parts_single (host dir web colors api : string) :
  Config.has_colon host = false → Config.has_colon dir = false →
  Config.controller_host (Config.mkTarget (host +:+ ":" +:+ dir) web colors api)
  = Some host
  ∧ Config.controller_fs_path
      (Config.mkTarget (host +:+ ":" +:+ dir) web colors api) = dir.
Proof.
  intros Hhost Hdir.
  unfold Config.controller_host, Config.controller_fs_path.
  cbn [Config.controller_path].
  rewrite has_colon_append_colon. cbn [negb].
  rewrite split_colon_append, split_colon_plain by done. done.
Qed.

End Removal.



(** X4. For a target whose [controller_path] names no host - it holds no
    colon, or nothing before its colon - the removal of an experience is a
    local [rm -rf] of [dir/experiences/key]: no [ssh] is involved. *)
Theorem X4_local_removal (env : Env)
    (path dir web colors api hash_key : string) (s : State) :
  Config.has_colon dir = false →
  path = dir ∨ path = ":" +:+ dir →
  (remove_experience env (Config.mkTarget path web colors api) hash_key s).2
  = log (ORun ["rm"; "-rf"; dir +:+ "/experiences/" +:+ hash_key]) s.
Proof.
  intros Hdir [->| ->]; unfold remove_experience.
  - destruct (controller_parts_plain (Config.mkTarget dir web colors api)
                Hdir) as [-> ->].
    unfold subprocess_run. cbn [snd Config.controller_path].
    done.
  - destruct (controller_parts_single EmptyString dir web colors api
                eq_refl Hdir) as [Hh Hp].
    rewrite append_nil_l in Hh, Hp. rewrite Hh, Hp.
    rewrite decide_True by done.
    unfold subprocess_run. cbn [snd].
    done.
Qed.

Lemma X4_local_removal_witness :
  (remove_experience Scenario.calm
     (Config.mkTarget (":" +:+ "/opt/footron") "/srv/footron/web"
        "/srv/footron/colors" "http://localhost:8000/")
     "a" (mkState Scenario.store None [])).2
  = log (ORun ["rm"; "-rf"; "/opt/footron" +:+ "/experiences/" +:+ "a"])
      (mkState Scenario.store None []).
Proof.
  apply (X4_local_removal Scenario.calm (":" +:+ "/opt/footron")
           "/opt/footron" "/srv/footron/web" "/srv/footron/colors"
           "http://localhost:8000/" "a" (mkState Scenario.store None []));
    [reflexivity|]. right. reflexivity.
Defined.

(** ** Edge cases of the handler *)

Section Edges.

Context (env : Env) (config : gmap string Config.Target).

Lemma wp_run {A} (m : M A) (s : State) (x : Result A * State) :
  wp m s (λ r s', (r, s') = x) → m s = x.
Proof. unfold wp. by destruct (m s). Qed.

Lemma find_artifact_none wanted artifacts :
  find_artifact wanted artifacts = None
  ↔ Forall (λ artifact, artifact_name artifact ≠ wanted) artifacts.
Proof.
  induction artifacts as [|a l IH]; cbn [find_artifact].
  - split; [constructor|done].
  - destruct (decide (artifact_name a = wanted)) as [Ha|Ha].
    + split; [done|]. intros [? _]%Forall_cons. done.
    + rewrite IH. split; [by constructor|]. by intros [_ ?]%Forall_cons.
Qed.

Lemma deliver_missing_artifact ev d f target artifacts wanted msg :
  status ev = "completed" → event ev = "push" →
  config !! head_branch ev = Some target →
  (name ev = "build-controls" ∧ wanted = "web-build"
     ∧ msg = "Missing web build")
  ∨ (name ev = "build-experiences" ∧ wanted = "experiences"
     ∧ msg = "Missing experiences build") →
  http_get env [] (artifacts_url ev) = Some artifacts →
  find_artifact wanted artifacts = None →
  deliver env config ev d f
  = (Raise (RuntimeError msg), mkState d f [OGet (artifacts_url ev)]).
Proof.
  intros Hst Hev Hcfg Hname Hget Hfind.
  unfold deliver, handle_workflow_run_completed.
  rewrite decide_False by (rewrite Hst, Hev; intros [?|?]; done).
  rewrite Hcfg. cbv zeta.
  destruct Hname as [(Hname & -> & ->)|(Hname & -> & ->)].
  - rewrite decide_False by (rewrite Hname; intros Hn; apply Hn; left).
    rewrite decide_True by done.
    apply wp_run. unfold deploy_controls.
    apply wp_bind, wp_bind, wp_github_get_request.
    + intros artifacts' Hget' _. cbn [trace] in Hget'.
      rewrite Hget in Hget'. injection Hget' as <-.
      apply wp_bind. rewrite Hfind. done.
    + intros Href. cbn in Href. rewrite Hget in Href. done.
  - rewrite decide_False
      by (rewrite Hname; intros Hn; apply Hn; right; left).
    rewrite (decide_False (P := name ev = "build-controls"))
      by (rewrite Hname; done).
    rewrite decide_True by done.
    apply wp_run. unfold deploy_experiences. cbv zeta.
    apply wp_bind, wp_bind, wp_github_get_request.
    + intros artifacts' Hget' _. cbn [trace] in Hget'.
      rewrite Hget in Hget'. injection Hget' as <-.
      apply wp_bind. rewrite Hfind. done.
    + intros Href. cbn in Href. rewrite Hget in Href. done.
Qed.

End Edges.

(** X5. Only a watched event of one of the two workflows starts a run,
    and the run starts with the request of the artifacts listing. Every
    other delivery makes no call and leaves the build data and the data
    file as they are; it returns, except that a watched event of another
    workflow is answered with the HTTP error 400. *)
Theorem X5_only_deployable_events_start_a_run (env : Env)
    (config : gmap string Config.Target) (ev : Event) (d : Data.BuildData)
    (f : Data.file) :
  let r := (deliver env config ev d f).1 in
  let s' := (deliver env config ev d f).2 in
  (to_deploy config ev ↔ ∃ t, trace s' = OGet (artifacts_url ev) :: t)
  ∧ (¬ to_deploy config ev → s' = mkState d f [])
  ∧ (¬ watched config ev → r = Ok tt)
  ∧ (watched config ev →
     name ev ∉ ["build-controls"; "build-experiences"] →
     r = Raise (HTTPException 400 "Unknown event name")).
Proof.
  cbv zeta. unfold to_deploy, watched.
  destruct (deliver_cases config ev)
    as [Hign|(target & Hst & Hev & Hcfg & [Hname|Hname])].
  - rewrite deliver_ignored by done. cbn [fst snd trace].
    assert (Hno : ¬ (status ev = "completed" ∧ event ev = "push"
                     ∧ is_Some (config !! head_branch ev))).
    { intros (? & ? & [? ?]). destruct Hign as [?|[?|?]]; congruence. }
    split_and!; [|done|done|tauto].
    split; [tauto|]. intros [? ?]. done.
  - rewrite (deliver_unknown_name _ _ _ _ _ target) by done.
    cbn [fst snd trace].
    split_and!; [|done| |done].
    + split; [tauto|]. intros [? ?]. done.
    + intros Hno. destruct Hno. by eauto.
  - assert (Hstart : ∃ t, trace (deliver env config ev d f).2
                          = OGet (artifacts_url ev) :: t).
    { destruct Hname as [Hname|Hname].
      - by apply (deliver_controls_outcome env config ev d f target).
      - by apply (deliver_experiences_outcome env config ev d f target). }
    assert (Hin : name ev ∈ ["build-controls"; "build-experiences"])
      by (destruct Hname as [-> | ->]; set_solver).
    assert (Hw : status ev = "completed" ∧ event ev = "push"
                 ∧ is_Some (config !! head_branch ev)) by eauto.
    split_and!; [tauto|tauto|tauto|done].
Qed.

(** X6. The artifact search returns the download URL of the first entry of
    the listing that bears the wanted name, whatever follows it, and finds
    nothing exactly when no entry bears the name. *)
Theorem X6_find_artifact_first_match (wanted : string)
    (before after : list Artifact) (artifact : Artifact) :
  Forall (λ a, artifact_name a ≠ wanted) before →
  artifact_name artifact = wanted →
  find_artifact wanted (before ++ artifact :: after)
  = Some (archive_download_url artifact)
  ∧ find_artifact wanted before = None.
Proof.
  intros Hbefore Hname. split; [|by apply find_artifact_none].
  induction Hbefore as [|a l Ha _ IH]; cbn [app find_artifact].
  - by rewrite decide_True.
  - by rewrite decide_False.
Qed.

Lemma X6_find_artifact_witness :
  find_artifact "experiences"
    ([mkArtifact "web-build" "https://api.github.com/artifacts/1/zip"]
     ++ mkArtifact "experiences" "https://api.github.com/artifacts/2/zip"
        :: [mkArtifact "experiences" "https://api.github.com/artifacts/3/zip"])
  = Some "https://api.github.com/artifacts/2/zip"
  ∧ find_artifact "experiences"
      [mkArtifact "web-build" "https://api.github.com/artifacts/1/zip"]
    = None.
Proof.
  apply (X6_find_artifact_first_match "experiences"
           [mkArtifact "web-build" "https://api.github.com/artifacts/1/zip"]
           [mkArtifact "experiences" "https://api.github.com/artifacts/3/zip"]
           (mkArtifact "experiences"
              "https://api.github.com/artifacts/2/zip")).
  - repeat constructor. discriminate.
  - reflexivity.
Defined.

(** X7. When the listing of the run holds no artifact of the wanted name -
    [web-build] for the controls pipeline, [experiences] for the
    experiences pipeline - the delivery raises [RuntimeError] right after
    the request of the listing: no report, no command, no change of the
    build data or the data file. *)
Theorem X7_missing_artifact (env : Env) (config : gmap string Config.Target)
    (ev : Event) (target : Config.Target) (d : Data.BuildData)
    (f : Data.file) (artifacts : list Artifact) (wanted msg : string) :
  status ev = "completed" → event ev = "push" →
  config !! head_branch ev = Some target →
  (name ev = "build-controls" ∧ wanted = "web-build"
     ∧ msg = "Missing web build")
  ∨ (name ev = "build-experiences" ∧ wanted = "experiences"
     ∧ msg = "Missing experiences build") →
  http_get env [] (artifacts_url ev) = Some artifacts →
  Forall (λ artifact, artifact_name artifact ≠ wanted) artifacts →
  deliver env config ev d f
  = (Raise (RuntimeError msg), mkState d f [OGet (artifacts_url ev)]).
Proof.
  intros Hst Hev Hcfg Hname Hget Hnone.
  apply (deliver_missing_artifact env config ev d f target artifacts wanted);
    [done..|].
  by apply find_artifact_none.
Qed.

Lemma X7_missing_artifact_witness :
  deliver Scenario.no_artifact Scenario.registry Scenario.experiences_push
    Scenario.store None
  = (Raise (RuntimeError "Missing experiences build"),
     mkState Scenario.store None
       [OGet (artifacts_url Scenario.experiences_push)]).
Proof.
  apply (X7_missing_artifact Scenario.no_artifact Scenario.registry
           Scenario.experiences_push Scenario.target Scenario.store None []
           "experiences" "Missing experiences build");
    [reflexivity..| |reflexivity|constructor].
  right. done.
Defined.

(** ** Outcomes *)

Section Outcomes.

Context (env : Env) (config : gmap string Config.Target).



Lemma deliver_other_branches ev d f branch :
  branch ≠ head_branch ev →
  Data.targets (data (deliver env config ev d f).2) !! branch
  = Data.targets d !! branch.
Proof.
  intros Hne.
  destruct (deliver_cases config ev)
    as [Hign|(target & Hst & Hev & Hcfg & [Hname|[Hname|Hname]])].
  - by rewrite deliver_ignored.
  - by rewrite (deliver_unknown_name _ _ _ _ _ target).
  - by apply (deliver_controls_outcome env config ev d f target).
  - by apply (deliver_experiences_outcome env config ev d f target).
Qed.

End Outcomes.



(** X9. A delivery to a registered branch returns normally whenever the
    outside world plays along: no call is refused, the listing holds the
    artifact of the pipeline and, for the experiences pipeline, the
    manifest can be read. A command that exits with an error is no
    obstacle. *)
Theorem X9_obliging_world_delivers (env : Env)
    (config : gmap string Config.Target) (ev : Event)
    (target : Config.Target) (d : Data.BuildData) (f : Data.file) :
  status ev = "completed" → event ev = "push" →
  config !! head_branch ev = Some target →
  (name ev = "build-controls" ∧ obliging env ev "web-build")
  ∨ (name ev = "build-experiences" ∧ obliging env ev "experiences"
     ∧ is_Some (read_hashes env (path_join (temp_dir env) "hashes.json"))) →
  (deliver env config ev d f).1 = Ok tt.
Proof.
  intros Hst Hev Hcfg [[Hname Hobl]|(Hname & Hobl & Hread)].
  - destruct (deliver_controls_outcome env config ev d f target
                Hst Hev Hcfg Hname) as (_ & Hok & _).
    by apply Hok.
  - destruct (deliver_experiences_outcome env config ev d f target
                Hst Hev Hcfg Hname) as (_ & Hok & _).
    by apply Hok.
Qed.

Lemma X9_obliging_world_witness :
  (deliver Scenario.host_down Scenario.registry Scenario.experiences_push
     Scenario.store None).1 = Ok tt.
Proof.
  apply (X9_obliging_world_delivers Scenario.host_down Scenario.registry
           Scenario.experiences_push Scenario.target Scenario.store None);
    [reflexivity..|].
  right. split_and!; [reflexivity| |by eexists].
  split.
  - intros history [url|? ? ? ? ?|argv|url|doc]; [reflexivity..| |done|done].
    cbn. apply bool_decide_eq_false_2.
    destruct argv as [|w argv]; [done|].
    unfold Scenario.ssh_exits_255. by destruct (decide (w = "ssh")) as [->|?];
      repeat case_match.
  - intros artifacts [= <-]. by eexists.
Defined.

(** X10. A delivery, whatever its outcome, leaves the fingerprints that
    the build data holds for every other branch as they were. *)
Theorem X10_other_branches_untouched (env : Env)
    (config : gmap string Config.Target) (ev : Event) (d : Data.BuildData)
    (f : Data.file) (branch : string) :
  branch ≠ head_branch ev →
  Data.targets (data (deliver env config ev d f).2) !! branch
  = Data.targets d !! branch.
Proof. apply deliver_other_branches. Qed.

Lemma X10_other_branches_witness :
  Data.targets
    (data (deliver Scenario.no_ssh Scenario.registry Scenario.experiences_push
             (Data.mkBuildData
                {["main" := Data.mkTarget Scenario.old;
                  "staging" := Data.mkTarget Scenario.manifest]})
             None).2) !! "staging"
  = Data.targets
      (Data.mkBuildData
         {["main" := Data.mkTarget Scenario.old;
           "staging" := Data.mkTarget Scenario.manifest]}) !! "staging".
Proof.
  apply (X10_other_branches_untouched Scenario.no_ssh Scenario.registry
           Scenario.experiences_push
           (Data.mkBuildData
              {["main" := Data.mkTarget Scenario.old;
                "staging" := Data.mkTarget Scenario.manifest]})
           None "staging").
  discriminate.
Defined.

(** ** The reports and the reload of a delivery *)

(** X11. Every status report of a delivery is made against the repository
    and the head commit of the event, under the context [footron-ci/]
    followed by the name of the workflow, and in the state [pending] or
    [success]. *)
Theorem X11_reports_name_the_event (env : Env)
    (config : gmap string Config.Target) (ev : Event) (d : Data.BuildData)
    (f : Data.file) (repository_name sha state context : string)
    (description : option string) :
  OStatus repository_name sha state context description
    ∈ trace (deliver env config ev d f).2 →
  repository_name = repository_full_name ev
  ∧ sha = head_sha ev
  ∧ context = "footron-ci/" +:+ name ev
  ∧ (state = "pending" ∨ state = "success").
Proof.
  intros Hin.
  pose proof (deliver_never_failure env config ev d f) as Hall.
  rewrite Forall_forall in Hall.
  destruct (Hall _ Hin) as [[Hquiet|[desc Heq]]|[secs Heq]].
  - discriminate Hquiet.
  - injection Heq as -> -> -> -> ->. split_and!; [done..|by left].
  - injection Heq as -> -> -> -> ->. split_and!; [done..|by right].
Qed.

Lemma X11_reports_witness :
  "BYU-PCCL/footron" = repository_full_name Scenario.experiences_push
  ∧ "4f2a9c1" = head_sha Scenario.experiences_push
  ∧ "footron-ci/build-experiences"
    = "footron-ci/" +:+ name Scenario.experiences_push
  ∧ ("pending" = "pending" ∨ "pending" = "success").
Proof.
  apply (X11_reports_name_the_event Scenario.calm Scenario.registry
           Scenario.experiences_push Scenario.store None
           "BYU-PCCL/footron" "4f2a9c1" "pending"
           "footron-ci/build-experiences" (Some "Syncing experiences")).
  apply (bool_decide_unpack _). vm_compute. exact I.
Defined.

Ltac split_elem H :=
  repeat match type of H with
  | _ ∈ _ ++ _ => apply elem_of_app in H as [H|H]
  | _ ∈ _ :: _ => apply elem_of_cons in H as [H|H]
  | _ ∈ [] => by apply elem_of_nil in H
  end.

Section Reload.

Context (env : Env) (config : gmap string Config.Target).

Lemma Forall2_elem_of_right {A B} (R : A → B → Prop) xs ys y :
  Forall2 R xs ys → y ∈ ys → ∃ x, x ∈ xs ∧ R x y.
Proof.
  induction 1 as [|x y' xs ys HR _ IH]; intros Hin.
  - by apply elem_of_nil in Hin.
  - apply elem_of_cons in Hin as [->|Hin].
    + exists x. split; [apply list_elem_of_here|done].
    + destruct (IH Hin) as (x' & Hx' & HR').
      exists x'. split; [by apply list_elem_of_further|done].
Qed.

Lemma Forall2_elem_of_left {A B} (R : A → B → Prop) xs ys x :
  Forall2 R xs ys → x ∈ xs → ∃ y, y ∈ ys ∧ R x y.
Proof.
  induction 1 as [|x' y xs ys HR _ IH]; intros Hin.
  - by apply elem_of_nil in Hin.
  - apply elem_of_cons in Hin as [->|Hin].
    + exists y. split; [apply list_elem_of_here|done].
    + destruct (IH Hin) as (y' & Hy' & HR').
      exists y'. split; [by apply list_elem_of_further|done].
Qed.

Lemma committed_reload ev target d r s' url :
  experiences_committed env ev target d r s' →
  OReload url ∈ trace s' →
  url = urljoin env (Config.controller_api_url target) "reload".
Proof.
  intros (artifacts & url' & hashes & dels & syncs & post & dH & secs
          & _ & _ & _ & Hdels & Hsyncs & _ & _ & -> & [k Hpost] & _) Hin.
  assert (Htail : OReload url ∈ experiences_tail env ev target dH secs →
                  url = urljoin env (Config.controller_api_url target) "reload").
  { unfold experiences_tail. intros Htail. split_elem Htail;
      try discriminate Htail. by injection Htail. }
  unfold experiences_fetch in Hin. split_elem Hin; try discriminate Hin.
  - destruct (Forall2_elem_of_right _ _ _ _ Hdels Hin) as (x & _ & [? ?]).
    discriminate.
  - destruct (Forall2_elem_of_right _ _ _ _ Hsyncs Hin) as (x & _ & [? ?]).
    discriminate.
  - apply Htail. rewrite Hpost. apply elem_of_app. by left.
Qed.

Lemma deliver_reload ev d f url :
  OReload url ∈ trace (deliver env config ev d f).2 →
  ∃ target,
    config !! head_branch ev = Some target
    ∧ url = urljoin env (Config.controller_api_url target) "reload".
Proof.
  destruct (deliver_cases config ev)
    as [Hign|(target & Hst & Hev & Hcfg & [Hname|[Hname|Hname]])].
  - rewrite deliver_ignored by done. intros Hin. by apply elem_of_nil in Hin.
  - rewrite (deliver_unknown_name _ _ _ _ _ target) by done.
    intros Hin. by apply elem_of_nil in Hin.
  - destruct (deliver_controls env config ev d f target Hst Hev Hcfg Hname)
      as (_ & _ & _ & _ & url' & dH & secs & [k Hpre] & _).
    intros Hin. exists target. split; [done|].
    assert (Hplan : OReload url ∈ controls_plan env ev target url' dH secs)
      by (rewrite Hpre; apply elem_of_app; by left).
    unfold controls_plan in Hplan. split_elem Hplan;
      try discriminate Hplan. by injection Hplan.
  - destruct (deliver_experiences env config ev d f target Hst Hev Hcfg Hname)
      as (_ & _ & [Hab|Hcommit]).
    + intros Hin. exfalso.
      exact (aborted_no_reload _ _ _ _ _ _ url Hab Hin).
    + intros Hin. exists target. split; [done|].
      exact (committed_reload _ _ _ _ _ _ Hcommit Hin).
Qed.

End Reload.

(** X12. A delivery requests a reload nowhere but at the [reload] endpoint
    of the target that the registry holds for the branch of the event. *)
Theorem X12_reload_goes_to_the_target (env : Env)
    (config : gmap string Config.Target) (ev : Event) (d : Data.BuildData)
    (f : Data.file) (url : string) :
  OReload url ∈ trace (deliver env config ev d f).2 →
  ∃ target,
    config !! head_branch ev = Some target
    ∧ url = urljoin env (Config.controller_api_url target) "reload".
Proof. apply deliver_reload. Qed.

Lemma X12_reload_witness :
  ∃ target,
    Scenario.registry !! head_branch Scenario.controls_push = Some target
    ∧ "http://kiosk:8000/reload"
      = urljoin Scenario.calm (Config.controller_api_url target) "reload".
Proof.
  apply (X12_reload_goes_to_the_target Scenario.calm Scenario.registry
           Scenario.controls_push Scenario.store None
           "http://kiosk:8000/reload").
  apply (bool_decide_unpack _). vm_compute. exact I.
Defined.

(** X13. The return code of a command has no influence on a delivery, of
    either pipeline: the result, the build data, the data file and the
    calls are those of the world in which every command exits with 0. A
    failed download, unpacking or transfer stops nothing. *)
Theorem X13_return_codes_are_dropped (env : Env)
    (config : gmap string Config.Target) (ev : Event) (d : Data.BuildData)
    (f : Data.file) :
  deliver (forget_return_codes env) config ev d f = deliver env config ev d f.
Proof. apply deliver_forgets_return_codes. Qed.

(** ** What a run of the experiences pipeline transfers *)

Section Transfers.

Context (env : Env) (config : gmap string Config.Target).

Lemma length_append (s1 s2 : string) :
  String.length (s1 +:+ s2) = String.length s1 + String.length s2.
Proof.
  induction s1 as [|c s1 IH]; [done|].
  change (S (String.length (s1 +:+ s2))
          = S (String.length s1 + String.length s2)).
  by rewrite IH.
Qed.

Lemma last_two_inj {A} (l l' : list A) a a' x x' :
  l ++ [a; x] = l' ++ [a'; x'] → x = x'.
Proof.
  intros Heq. apply (f_equal last) in Heq.
  rewrite !last_app in Heq. cbn in Heq. congruence.
Qed.

Lemma sync_call_inj target temp_path k k' o :
  sync_call target temp_path k o → sync_call target temp_path k' o → k = k'.
Proof.
  intros [dH ->] [dH' Heq]. unfold sync_argv in Heq.
  injection Heq as _ _ Hdest.
  apply (inj (String.app _)) in Hdest.
  by apply (inj (String.app _)) in Hdest.
Qed.

Lemma remove_call_inj target k k' o :
  remove_call target k o → remove_call target k' o → k = k'.
Proof.
  intros [dH ->] [dH' Heq]. revert Heq. unfold remove_argv.
  assert (Hpath : Config.controller_fs_path target +:+ "/experiences/" +:+ k
                  = Config.controller_fs_path target +:+ "/experiences/"
                      +:+ k' → k = k').
  { intros Hdest. apply (inj (String.app _)) in Hdest.
    by apply (inj (String.app _)) in Hdest. }
  destruct (Config.controller_host target) as [host|];
    [destruct (decide (host = EmptyString))|]; intros Heq.
  - injection Heq as Hdest. auto.
  - cbn [app] in Heq. injection Heq as Heq.
    apply last_two_inj in Heq.
    apply (inj (String.app _)) in Heq. auto.
  - injection Heq as Hdest. auto.
Qed.

Lemma editorial_not_sync target temp_path dH k :
  ¬ sync_call target temp_path k (ORun (editorial_argv target temp_path dH)).
Proof.
  intros [dH' Heq]. unfold editorial_argv, sync_argv in Heq.
  injection Heq as _ Hfolders Htags _ _.
  apply (f_equal String.length) in Hfolders, Htags.
  rewrite length_append in Hfolders, Htags. cbn in Hfolders, Htags. lia.
Qed.

Lemma deliver_completed ev target d f :
  status ev = "completed" → event ev = "push" →
  config !! head_branch ev = Some target →
  name ev = "build-experiences" →
  (deliver env config ev d f).1 = Ok tt →
  experiences_completed env ev target d (trace (deliver env config ev d f).2).
Proof.
  intros Hst Hev Hcfg Hname Hok.
  destruct (deliver_experiences env config ev d f target Hst Hev Hcfg Hname)
    as (_ & _ & [([e He] & _)|Hcommit]).
  - unfold deliver in Hok. congruence.
  - destruct Hcommit
      as (artifacts & url & hashes & dels & syncs & post & dH & secs
          & Hget & Hfind & Hread & Hdels & Hsyncs & _ & _ & Htrace & _
          & Hpost).
    exists artifacts, url, hashes, dels, syncs, dH, secs.
    split_and!; [done..|].
    unfold deliver. rewrite Htrace, (Hpost Hok). done.
Qed.

Lemma completed_removals ev target d t hashes k :
  experiences_completed env ev target d t →
  read_hashes env (path_join (temp_dir env) "hashes.json") = Some hashes →
  (∃ o, o ∈ t ∧ remove_call target k o)
  ↔ k ∈ deleted_hashes hashes (stored_hashes d (head_branch ev)).
Proof.
  intros (artifacts & url & hashes' & dels & syncs & dH & secs
          & _ & _ & Hread & Hdels & Hsyncs & ->) Hread'.
  assert (hashes' = hashes) as -> by congruence.
  split.
  - intros (o & Hin & Hrm).
    unfold experiences_fetch, experiences_tail, curl_argv in Hin.
    split_elem Hin; subst;
      try (destruct Hrm as [dH' Heq]; revert Heq; unfold remove_argv;
           destruct (Config.controller_host target) as [host|];
           [destruct (decide (host = EmptyString))|]; cbn [app];
           discriminate).
    + destruct (Forall2_elem_of_right _ _ _ _ Hdels Hin)
        as (k' & Hk' & Hrm').
      rewrite (remove_call_inj _ _ _ _ Hrm Hrm'). by apply elem_of_elements.
    + destruct (Forall2_elem_of_right _ _ _ _ Hsyncs Hin) as (k' & _ & Hsync).
      by destruct (remove_call_not_sync _ _ _ _ _ Hrm Hsync).
  - intros Hk. apply elem_of_elements in Hk.
    destruct (Forall2_elem_of_left _ _ _ _ Hdels Hk) as (o & Ho & Hrm).
    exists o. split; [|done].
    apply elem_of_app. right. apply list_elem_of_further.
    apply elem_of_app. by left.
Qed.

Lemma completed_transfers ev target d t hashes k :
  experiences_completed env ev target d t →
  read_hashes env (path_join (temp_dir env) "hashes.json") = Some hashes →
  (∃ o, o ∈ t ∧ sync_call target (temp_dir env) k o)
  ↔ k ∈ changed_hashes hashes (stored_hashes d (head_branch ev))
        ∪ new_hashes hashes (stored_hashes d (head_branch ev)).
Proof.
  intros (artifacts & url & hashes' & dels & syncs & dH & secs
          & _ & _ & Hread & Hdels & Hsyncs & ->) Hread'.
  assert (hashes' = hashes) as -> by congruence.
  split.
  - intros (o & Hin & Hsync).
    unfold experiences_fetch, experiences_tail, curl_argv in Hin.
    split_elem Hin; subst;
      try (destruct Hsync as [dH' Heq]; discriminate Heq).
    + destruct (Forall2_elem_of_right _ _ _ _ Hdels Hin) as (k' & _ & Hrm).
      by destruct (remove_call_not_sync _ _ _ _ _ Hrm Hsync).
    + destruct (Forall2_elem_of_right _ _ _ _ Hsyncs Hin)
        as (k' & Hk' & Hsync').
      rewrite (sync_call_inj _ _ _ _ _ Hsync Hsync').
      by apply elem_of_elements.
    + by destruct (editorial_not_sync _ _ _ _ Hsync).
  - intros Hk. apply elem_of_elements in Hk.
    destruct (Forall2_elem_of_left _ _ _ _ Hsyncs Hk) as (o & Ho & Hsync).
    exists o. split; [|done].
    apply elem_of_app. right. apply list_elem_of_further.
    apply elem_of_app. right. apply list_elem_of_further.
    apply elem_of_app. by left.
Qed.

End Transfers.

(** X14. In a run of the experiences pipeline that returns, the remote
    directories removed are those of the keys that the store holds and the
    manifest does not, and the directories transferred are those of the
    keys that the manifest adds or gives another fingerprint; no other
    key is removed, no other key is transferred. *)
Theorem X14_incremental_transfer (env : Env)
  (config : gmap string Config.Target) (ev : Event)
  (target : Config.Target) (d : Data.BuildData) (f : Data.file)
  (hashes : gmap string string) (k : string) :
status ev = "completed" → event ev = "push" →
config !! head_branch ev = Some target →
name ev = "build-experiences" →
(deliver env config ev d f).1 = Ok tt →
read_hashes env (path_join (temp_dir env) "hashes.json") = Some hashes →
let old := stored_hashes d (head_branch ev) in
let t := trace (deliver env config ev d f).2 in
((∃ o, o ∈ t ∧ remove_call target k o)
 ↔ old !! k ≠ None ∧ hashes !! k = None)
∧ ((∃ o, o ∈ t ∧ sync_call target (temp_dir env) k o)
   ↔ hashes !! k ≠ None ∧ hashes !! k ≠ old !! k).
Proof.
intros Hst Hev Hcfg Hname Hok Hread old t.
pose proof (deliver_completed env config ev target d f Hst Hev Hcfg Hname Hok)
  as Hdone.
subst t. split.
- rewrite (completed_removals env ev target d _ hashes k Hdone Hread).
  rewrite elem_of_deleted_hashes, not_elem_of_dom, elem_of_dom.
  fold old. rewrite <- not_eq_None_Some. done.
- rewrite (completed_transfers env ev target d _ hashes k Hdone Hread).
  rewrite elem_of_union, elem_of_changed_hashes, elem_of_new_hashes.
  rewrite not_elem_of_dom, !elem_of_dom, <- !not_eq_None_Some. fold old.
  destruct (hashes !! k) as [v|], (old !! k) as [w|]; split;
    intros Hk; try (destruct Hk as [[? [? ?]]|[? ?]]; done);
    try (destruct Hk as [? ?]; done).
  + left. destruct Hk. done.
  + right. done.
Qed.

Lemma X14_incremental_transfer_witness :
((∃ o, o ∈ trace (deliver Scenario.calm Scenario.registry
                    Scenario.experiences_push Scenario.store None).2
       ∧ remove_call Scenario.target "a" o)
 ↔ stored_hashes Scenario.store "main" !! "a" ≠ None
   ∧ Scenario.manifest !! "a" = None)
∧ ((∃ o, o ∈ trace (deliver Scenario.calm Scenario.registry
                      Scenario.experiences_push Scenario.store None).2
         ∧ sync_call Scenario.target (temp_dir Scenario.calm) "a" o)
   ↔ Scenario.manifest !! "a" ≠ None
     ∧ Scenario.manifest !! "a" ≠ stored_hashes Scenario.store "main" !! "a").
Proof.
apply (X14_incremental_transfer Scenario.calm Scenario.registry
         Scenario.experiences_push Scenario.target Scenario.store None
         Scenario.manifest "a");
  reflexivity.
Defined.

Section Redelivery.

Context (env : Env) (config : gmap string Config.Target).

Lemma insert_stored (d : Data.BuildData) branch hashes :
  Data.targets d !! branch = Some (Data.mkTarget hashes) →
  Data.mkBuildData (<[branch:=Data.mkTarget hashes]> (Data.targets d)) = d.
Proof. intros Hd. rewrite insert_id by done. by destruct d. Qed.

Lemma Forall2_nil_left {A B} (R : A → B → Prop) ys :
  Forall2 R [] ys → ys = [].
Proof. by inversion 1. Qed.

Lemma redelivery ev target d f hashes :
  status ev = "completed" → event ev = "push" →
  config !! head_branch ev = Some target →
  name ev = "build-experiences" →
  read_hashes env (path_join (temp_dir env) "hashes.json") = Some hashes →
  Data.targets d !! head_branch ev = Some (Data.mkTarget hashes) →
  (deliver env config ev d f).1 = Ok tt →
  data (deliver env config ev d f).2 = d
  ∧ disk (deliver env config ev d f).2 = Some (Data.to_json d)
  ∧ ∃ url dH secs,
      trace (deliver env config ev d f).2
      = experiences_fetch env ev url
        ++ [progress ev "Deleting deleted experiences";
            progress ev "Syncing experiences";
            OSave (Data.to_json d)]
        ++ experiences_tail env ev target dH secs.
Proof.
  intros Hst Hev Hcfg Hname Hread Hd Hok.
  destruct (deliver_experiences env config ev d f target Hst Hev Hcfg Hname)
    as (_ & _ & [([e He] & _)|Hcommit]).
  { unfold deliver in Hok. congruence. }
  destruct Hcommit
    as (artifacts & url & hashes' & dels & syncs & post & dH & secs
        & _ & _ & Hread' & Hdels & Hsyncs & Hdata & Hdisk & Htrace & _
        & Hpost).
  assert (hashes' = hashes) as -> by congruence.
  assert (Hold : stored_hashes d (head_branch ev) = hashes)
    by (unfold stored_hashes; by rewrite Hd).
  rewrite Hold in Hdels, Hsyncs.
  assert (Hnone : deleted_hashes hashes hashes = ∅).
  { apply set_eq. intros k. rewrite elem_of_deleted_hashes. set_solver. }
  assert (Hsame : changed_hashes hashes hashes ∪ new_hashes hashes hashes = ∅).
  { apply set_eq. intros k.
    rewrite elem_of_union, elem_of_changed_hashes, elem_of_new_hashes.
    set_solver. }
  rewrite Hnone, elements_empty in Hdels.
  rewrite Hsame, elements_empty in Hsyncs.
  apply Forall2_nil_left in Hdels as ->.
  apply Forall2_nil_left in Hsyncs as ->.
  rewrite (insert_stored d _ _ Hd) in Hdata, Hdisk, Htrace.
  unfold deliver in *. split_and!; [done..|].
  exists url, dH, secs. rewrite Htrace, (Hpost Hok). done.
Qed.

End Redelivery.

(** X15. Delivering again the manifest that the store already holds for
    the branch removes and transfers no experience: the run that returns
    consists of the fetch, the two reports of the empty stages, the
    commit, and the tail, and it leaves the build data as they were, on
    the file too. *)
Theorem X15_redelivery_transfers_nothing (env : Env)
  (config : gmap string Config.Target) (ev : Event)
  (target : Config.Target) (d : Data.BuildData) (f : Data.file)
  (hashes : gmap string string) :
status ev = "completed" → event ev = "push" →
config !! head_branch ev = Some target →
name ev = "build-experiences" →
read_hashes env (path_join (temp_dir env) "hashes.json") = Some hashes →
Data.targets d !! head_branch ev = Some (Data.mkTarget hashes) →
(deliver env config ev d f).1 = Ok tt →
data (deliver env config ev d f).2 = d
∧ disk (deliver env config ev d f).2 = Some (Data.to_json d)
∧ ∃ url dH secs,
    trace (deliver env config ev d f).2
    = experiences_fetch env ev url
      ++ [progress ev "Deleting deleted experiences";
          progress ev "Syncing experiences";
          OSave (Data.to_json d)]
      ++ experiences_tail env ev target dH secs.
Proof. apply redelivery. Qed.

Lemma X15_redelivery_witness :
data (deliver Scenario.calm Scenario.registry Scenario.experiences_push
        (Data.mkBuildData {["main" := Data.mkTarget Scenario.manifest]})
        None).2
= Data.mkBuildData {["main" := Data.mkTarget Scenario.manifest]}
∧ disk (deliver Scenario.calm Scenario.registry Scenario.experiences_push
          (Data.mkBuildData {["main" := Data.mkTarget Scenario.manifest]})
          None).2
  = Some (Data.to_json
            (Data.mkBuildData {["main" := Data.mkTarget Scenario.manifest]}))
∧ ∃ url dH secs,
    trace (deliver Scenario.calm Scenario.registry Scenario.experiences_push
             (Data.mkBuildData {["main" := Data.mkTarget Scenario.manifest]})
             None).2
    = experiences_fetch Scenario.calm Scenario.experiences_push url
      ++ [progress Scenario.experiences_push "Deleting deleted experiences";
          progress Scenario.experiences_push "Syncing experiences";
          OSave (Data.to_json
                   (Data.mkBuildData
                      {["main" := Data.mkTarget Scenario.manifest]}))]
      ++ experiences_tail Scenario.calm Scenario.experiences_push
           Scenario.target dH secs.
Proof.
apply (X15_redelivery_transfers_nothing Scenario.calm Scenario.registry
         Scenario.experiences_push Scenario.target
         (Data.mkBuildData {["main" := Data.mkTarget Scenario.manifest]})
         None Scenario.manifest);
  reflexivity.
Defined.

(** ** The build data and the data file *)

Section Restart.

Context (env : Env) (config : gmap string Config.Target).

Lemma deliver_keeps_file_in_step ev d f :
  Data.load_build_data f = Some d →
  (deliver env config ev d f).1 = Ok tt →
  Data.load_build_data (disk (deliver env config ev d f).2)
  = Some (data (deliver env config ev d f).2).
Proof.
  intros Hload Hok.
  destruct (deliver_cases config ev)
    as [Hign|(target & Hst & Hev & Hcfg & [Hname|[Hname|Hname]])].
  - by rewrite deliver_ignored.
  - by rewrite (deliver_unknown_name _ _ _ _ _ target).
  - destruct (ignores_store_controls_delivery env config ev target
                Hst Hev Hcfg Hname d f d f []) as (_ & _ & Hd & Hf).
    unfold deliver. by rewrite Hd, Hf.
  - destruct (deliver_experiences env config ev d f target Hst Hev Hcfg Hname)
      as (_ & _ & [([e He] & _)|Hcommit]).
    { unfold deliver in Hok. congruence. }
    destruct Hcommit
      as (artifacts & url & hashes & dels & syncs & post & dH & secs
          & _ & _ & _ & _ & _ & Hdata & Hdisk & _).
    unfold deliver. rewrite Hdisk, Hdata.
    cbn [Data.load_build_data]. apply parse_obj_to_json.
Qed.

End Restart.

(** X16. A delivery that returns keeps the data file in step with the
    build data in memory: when the file loaded to the build data before
    the delivery, it loads to the build data after it, so that a restart
    of the server finds what the running server holds. *)
Theorem X16_returning_delivery_keeps_file_in_step (env : Env)
  (config : gmap string Config.Target) (ev : Event) (d : Data.BuildData)
  (f : Data.file) :
Data.load_build_data f = Some d →
(deliver env config ev d f).1 = Ok tt →
Data.load_build_data (disk (deliver env config ev d f).2)
= Some (data (deliver env config ev d f).2).
Proof. apply deliver_keeps_file_in_step. Qed.

Lemma X16_file_in_step_witness :
Data.load_build_data
  (disk (deliver Scenario.calm Scenario.registry Scenario.experiences_push
           (Data.mkBuildData ∅) None).2)
= Some (data (deliver Scenario.calm Scenario.registry
                Scenario.experiences_push (Data.mkBuildData ∅) None).2).
Proof.
apply (X16_returning_delivery_keeps_file_in_step Scenario.calm
         Scenario.registry Scenario.experiences_push (Data.mkBuildData ∅)
         None);
  reflexivity.
Defined.

(** ** The endpoint *)

Section Requests.

Context (env : Env) (config : gmap string Config.Target).
Context (secret : option string) (hmac_sha256 : string → string → string).
Context (run_get : list op → string → option (gmap string string)).

#[local] Abbreviation handle_webhook :=
  (Webhook.handle_webhook env config secret hmac_sha256 run_get).
#[local] Abbreviation handle_workflow_job_queued :=
  (Webhook.handle_workflow_job_queued env config run_get).

Ltac run_monad :=
  unfold mbind, M_bind, mret, M_ret, raise, Webhook.payload_get; cbn.

Lemma verify_authentic request s :
  authentic secret hmac_sha256 request →
  Webhook.verify_github_webhook secret hmac_sha256 request s = (Ok tt, s).
Proof.
  intros (key & -> & Hkey & Hsig). unfold Webhook.verify_github_webhook.
  rewrite decide_False by done. by rewrite decide_True by done.
Qed.

Lemma verify_not_authentic request s :
  ¬ authentic secret hmac_sha256 request →
  Webhook.verify_github_webhook secret hmac_sha256 request s
  = (Raise (match secret with
            | Some (String _ _) => HTTPException 401 "Unauthorized"
            | _ => HTTPException 500 "GITHUB_WEBHOOK_TOKEN not set"
            end), s).
Proof.
  intros Hno. unfold Webhook.verify_github_webhook.
  destruct secret as [[|c key]|]; [done| |done].
  rewrite decide_False by done.
  destruct (decide _) as [Hsig|]; [|done].
  destruct Hno. by eexists.
Qed.

Lemma webhook_not_authentic request s :
  ¬ authentic secret hmac_sha256 request →
  handle_webhook request s
  = (Raise (match secret with
            | Some (String _ _) => HTTPException 401 "Unauthorized"
            | _ => HTTPException 500 "GITHUB_WEBHOOK_TOKEN not set"
            end), s).
Proof.
  intros Hno. unfold Webhook.handle_webhook. unfold mbind at 1, M_bind at 1.
  by rewrite verify_not_authentic.
Qed.

Lemma webhook_run_completed request p ev s :
  authentic secret hmac_sha256 request →
  Webhook.github_event request = Some "workflow_run" →
  Webhook.payload request = Some p →
  Webhook.action p = Some "completed" →
  Webhook.workflow_run p = Some ev →
  handle_webhook request s
  = (respond (handle_workflow_run_completed env config ev s).1,
     (handle_workflow_run_completed env config ev s).2).
Proof.
  intros Hauth Hty Hp Hact Hev. unfold Webhook.handle_webhook.
  unfold mbind at 1, M_bind at 1. rewrite verify_authentic by done.
  rewrite Hp, Hty. run_monad. rewrite Hact. cbn. rewrite Hev. cbn.
  rewrite !decide_True by done.
  by destruct (handle_workflow_run_completed env config ev s) as [[[]|e] s'].
Qed.

Lemma webhook_job_queued request p job s :
  authentic secret hmac_sha256 request →
  Webhook.github_event request = Some "workflow_job" →
  Webhook.payload request = Some p →
  Webhook.action p = Some "queued" →
  Webhook.workflow_job p = Some job →
  handle_webhook request s
  = (respond (handle_workflow_job_queued job s).1,
     (handle_workflow_job_queued job s).2).
Proof.
  intros Hauth Hty Hp Hact Hev. unfold Webhook.handle_webhook.
  unfold mbind at 1, M_bind at 1. rewrite verify_authentic by done.
  rewrite Hp, Hty. run_monad. rewrite Hact. cbn. rewrite Hev. cbn.
  rewrite decide_False by done. rewrite !decide_True by done.
  by destruct (handle_workflow_job_queued job s) as [[[]|e] s'].
Qed.

Lemma webhook_no_handler request s :
  authentic secret hmac_sha256 request →
  (Webhook.github_event request = Some "workflow_run" →
   Webhook.payload request ≫= Webhook.action ≠ Some "completed") →
  (Webhook.github_event request = Some "workflow_job" →
   Webhook.payload request ≫= Webhook.action ≠ Some "queued") →
  (handle_webhook request s).2 = s
  ∧ ((handle_webhook request s).1 = Ok ok_response
     ↔ is_Some (Webhook.payload request)
       ∧ (Webhook.github_event request
            ∈ [Some "workflow_run"; Some "workflow_job"] →
          is_Some (Webhook.payload request ≫= Webhook.action))).
Proof.
  intros Hauth Hrun Hjob.
  pose proof (verify_authentic request s Hauth) as Hv.
  unfold Webhook.handle_webhook, mbind, M_bind. rewrite Hv.
  destruct (Webhook.payload request) as [p|]; run_monad.
  2:{ split; [done|]. split; [done|]. intros [[? ?] _]. done. }
  destruct (decide (Webhook.github_event request = Some "workflow_run"))
    as [Hty|Hty].
  { specialize (Hrun Hty). cbn in Hrun.
    destruct (Webhook.action p) as [a|]; cbn.
    - rewrite decide_False by congruence. cbn. split; [done|].
      split; [by eauto|done].
    - split; [done|]. split; [done|]. intros [_ Hact].
      destruct Hact as [? ?]; [rewrite Hty; set_solver|done]. }
  destruct (decide (Webhook.github_event request = Some "workflow_job"))
    as [Hty'|Hty'].
  { specialize (Hjob Hty'). cbn in Hjob.
    destruct (Webhook.action p) as [a|]; cbn.
    - rewrite decide_False by congruence. cbn. split; [done|].
      split; [by eauto|done].
    - split; [done|]. split; [done|]. intros [_ Hact].
      destruct Hact as [? ?]; [rewrite Hty'; set_solver|done]. }
  cbn. split; [done|]. split; [|done]. intros _. split; [by eauto|].
  intros Hin. set_solver.
Qed.

End Requests.

(** ** The queued jobs *)

Section Queued.

Context (env : Env) (config : gmap string Config.Target).
Context (run_get : list op → string → option (gmap string string)).

#[local] Abbreviation handle_workflow_job_queued :=
  (Webhook.handle_workflow_job_queued env config run_get).

Lemma waiting_report_inj job w w' :
  waiting_report job w = waiting_report job w' → w = w'.
Proof.
  unfold waiting_report. intros Heq. injection Heq as Heq.
  by apply (inj (String.app _)) in Heq.
Qed.

(** The outcomes of [handle_workflow_job_queued], by the place where it
    ends. *)
Lemma job_queued_cases job s :
  let r := (handle_workflow_job_queued job s).1 in
  let s' := (handle_workflow_job_queued job s).2 in
  let get := OGet (Webhook.run_url job) in
  (Webhook.job_name job ≠ "build" ∧ r = Ok tt ∧ s' = s)
  ∨ (Webhook.job_name job = "build"
     ∧ run_get (trace s) (Webhook.run_url job) = None
     ∧ r = Raise HTTPError ∧ s' = log get s)
  ∨ (Webhook.job_name job = "build"
     ∧ ∃ response,
         run_get (trace s) (Webhook.run_url job) = Some response
         ∧ ((∃ workflow,
               deployable config response workflow
               ∧ s' = log (waiting_report job workflow) (log get s)
               ∧ r = (if create_status_ok env (trace s ++ [get])
                           (waiting_report job workflow)
                      then Ok tt else Raise GithubException))
            ∨ ((∀ workflow, ¬ deployable config response workflow)
               ∧ s' = log get s
               ∧ (r = Ok tt
                  ∨ ∃ key, key ∈ ["name"; "event"; "branch"]
                           ∧ response !! key = None
                           ∧ r = Raise (KeyError key))))).
Proof.
  cbv zeta. unfold Webhook.handle_workflow_job_queued.
  destruct (decide (Webhook.job_name job ≠ "build")) as [Hname|Hname].
  { left. done. }
  apply dec_stable in Hname. right.
  unfold Webhook.github_get_run_request, mbind, M_bind. cbn.
  destruct (run_get (trace s) (Webhook.run_url job)) as [response|] eqn:Hget.
  2:{ left. done. }
  right. split; [done|]. exists response. split; [done|].
  unfold dict_get.
  destruct (response !! "name") as [workflow|] eqn:Hw; cbn.
  2:{ right. split_and!; [|done|].
      - intros w (Hw' & _). congruence.
      - right. exists "name". split_and!; [set_solver|done..]. }
  destruct (response !! "event") as [run_event|] eqn:Hev; cbn.
  2:{ right. split_and!; [|done|].
      - intros w (_ & _ & Hev' & _). congruence.
      - right. exists "event". split_and!; [set_solver|done..]. }
  destruct (decide (run_event ≠ "push")) as [Hpush|Hpush]; cbn.
  { right. split_and!; [|done|by left].
    intros w (_ & _ & Hev' & _). congruence. }
  apply dec_stable in Hpush. subst run_event.
  destruct (decide (workflow ∉ ["build-experiences"; "build-controls"]))
    as [Hrec|Hrec]; cbn.
  { right. split_and!; [|done|by left].
    intros w (Hw' & Hin & _). congruence. }
  apply dec_stable in Hrec.
  destruct (response !! "branch") as [branch|] eqn:Hbr; cbn.
  2:{ right. split_and!; [|done|].
      - intros w (_ & _ & _ & b & Hb & _). congruence.
      - right. exists "branch". split_and!; [set_solver|done..]. }
  destruct (config !! branch) as [target|] eqn:Hcfg; cbn.
  - left. exists workflow. split_and!; [|done..].
    split_and!; [done..|]. exists branch. by eauto.
  - right. split_and!; [|done|by left].
    intros w (_ & _ & _ & b & Hb & [? Hsome]). congruence.
Qed.



Lemma job_queued_report job s workflow :
  trace (handle_workflow_job_queued job s).2
  = trace s ++ [OGet (Webhook.run_url job); waiting_report job workflow]
  ↔ Webhook.job_name job = "build"
    ∧ ∃ response,
        run_get (trace s) (Webhook.run_url job) = Some response
        ∧ deployable config response workflow.
Proof.
  destruct (job_queued_cases job s)
    as [(Hname & _ & ->)|[(_ & Hget & _ & ->)
        |(Hname & response & Hget & [(w & Hw & -> & _)|(Hno & -> & _)])]].
  - split; [|intros [? _]; done].
    intros Heq. rewrite <- (app_nil_r (trace s)) in Heq at 1.
    by apply app_inv_head in Heq.
  - split; [|intros (_ & ? & ? & _); congruence].
    cbn. intros Heq. by apply app_inv_head in Heq.
  - cbn. rewrite <- app_assoc. cbn. split.
    + intros Heq. apply app_inv_head in Heq.
      assert (Hw' : waiting_report job w = waiting_report job workflow)
        by congruence.
      apply waiting_report_inj in Hw' as ->. by eauto.
    + intros (_ & response' & Hget' & Hw').
      assert (response' = response) as -> by congruence.
      destruct Hw as (Hw & _), Hw' as (Hw' & _).
      assert (workflow = w) as -> by congruence. done.
  - split.
    + cbn. intros Heq. by apply app_inv_head in Heq.
    + intros (_ & response' & Hget' & Hw').
      assert (response' = response) as -> by congruence.
      by destruct (Hno workflow).
Qed.


Lemma job_queued_missing_branch job s response workflow :
  Webhook.job_name job = "build" →
  run_get (trace s) (Webhook.run_url job) = Some response →
  response !! "name" = Some workflow →
  workflow ∈ ["build-experiences"; "build-controls"] →
  response !! "event" = Some "push" →
  response !! "branch" = None →
  handle_workflow_job_queued job s
  = (Raise (KeyError "branch"), log (OGet (Webhook.run_url job)) s).
Proof.
  intros Hname Hget Hw Hin Hev Hbr.
  unfold Webhook.handle_workflow_job_queued.
  rewrite decide_False by (intros ?; done).
  unfold Webhook.github_get_run_request, mbind, M_bind. cbn.
  rewrite Hget. unfold dict_get. rewrite Hw, Hev. cbn.
  rewrite decide_False by (intros ?; done).
  rewrite decide_False by (intros ?; done).
  by rewrite Hbr.
Qed.

End Queued.

(** X17. A request that does not carry the signature of its body under the
    secret is rejected before anything else happens: no call is made and
    the build data, in memory and on the file, are untouched. The answer
    is 401, and 500 when the secret is not set or empty. *)
Theorem X17_unsigned_request_changes_nothing (env : Env)
  (config : gmap string Config.Target) (secret : option string)
  (hmac_sha256 : string → string → string)
  (run_get : list op → string → option (gmap string string))
  (request : Webhook.Request) (s : State) :
¬ authentic secret hmac_sha256 request →
Webhook.handle_webhook env config secret hmac_sha256 run_get request s
= (Raise (match secret with
          | Some (String _ _) => HTTPException 401 "Unauthorized"
          | _ => HTTPException 500 "GITHUB_WEBHOOK_TOKEN not set"
          end), s).
Proof. apply webhook_not_authentic. Qed.

Lemma X17_unsigned_request_witness :
Webhook.handle_webhook Scenario.calm Scenario.registry Hook.secret
  Hook.digest Hook.api (Hook.unsigned "workflow_run" Hook.completed_run)
  Hook.start
= (Raise (HTTPException 401 "Unauthorized"), Hook.start).
Proof.
apply (X17_unsigned_request_changes_nothing Scenario.calm Scenario.registry
         Hook.secret Hook.digest Hook.api
         (Hook.unsigned "workflow_run" Hook.completed_run) Hook.start).
intros (key & _ & _ & Hsig). discriminate Hsig.
Defined.

(** X18. A signed [workflow_run] delivery with the action [completed] is
    the run of [handle_workflow_run_completed] on its event: the calls
    and the build data are those of the run, an exception of the run
    leaves the endpoint, and the answer is [{"status": "ok"}] when the
    run returns. *)
Theorem X18_completed_run_is_delivered (env : Env)
  (config : gmap string Config.Target) (secret : option string)
  (hmac_sha256 : string → string → string)
  (run_get : list op → string → option (gmap string string))
  (request : Webhook.Request) (p : Webhook.Payload) (ev : Event)
  (d : Data.BuildData) (f : Data.file) :
authentic secret hmac_sha256 request →
Webhook.github_event request = Some "workflow_run" →
Webhook.payload request = Some p →
Webhook.action p = Some "completed" →
Webhook.workflow_run p = Some ev →
Webhook.handle_webhook env config secret hmac_sha256 run_get request
  (mkState d f [])
= (respond (deliver env config ev d f).1, (deliver env config ev d f).2).
Proof. apply webhook_run_completed. Qed.

Lemma X18_completed_run_witness :
Webhook.handle_webhook Scenario.calm Scenario.registry Hook.secret
  Hook.digest Hook.api (Hook.signed "workflow_run" Hook.completed_run)
  (mkState Scenario.store None [])
= (respond (deliver Scenario.calm Scenario.registry
              Scenario.experiences_push Scenario.store None).1,
   (deliver Scenario.calm Scenario.registry
      Scenario.experiences_push Scenario.store None).2).
Proof.
apply (X18_completed_run_is_delivered Scenario.calm Scenario.registry
         Hook.secret Hook.digest Hook.api
         (Hook.signed "workflow_run" Hook.completed_run) Hook.completed_run
         Scenario.experiences_push Scenario.store None);
  try reflexivity.
exists "s3cret". split_and!; [reflexivity|discriminate|reflexivity].
Defined.

(** X19. A signed delivery that is neither a completed [workflow_run] nor
    a queued [workflow_job] makes no call and changes nothing. It is
    answered [{"status": "ok"}] exactly when its body is JSON and, for
    these two kinds of event, holds the key [action]. *)
Theorem X19_other_deliveries_change_nothing (env : Env)
  (config : gmap string Config.Target) (secret : option string)
  (hmac_sha256 : string → string → string)
  (run_get : list op → string → option (gmap string string))
  (request : Webhook.Request) (s : State) :
authentic secret hmac_sha256 request →
(Webhook.github_event request = Some "workflow_run" →
 Webhook.payload request ≫= Webhook.action ≠ Some "completed") →
(Webhook.github_event request = Some "workflow_job" →
 Webhook.payload request ≫= Webhook.action ≠ Some "queued") →
let answer :=
  Webhook.handle_webhook env config secret hmac_sha256 run_get request s in
answer.2 = s
∧ (answer.1 = Ok ok_response
   ↔ is_Some (Webhook.payload request)
     ∧ (Webhook.github_event request
          ∈ [Some "workflow_run"; Some "workflow_job"] →
        is_Some (Webhook.payload request ≫= Webhook.action))).
Proof. apply webhook_no_handler. Qed.

Lemma X19_other_deliveries_witness :
(Webhook.handle_webhook Scenario.calm Scenario.registry Hook.secret
   Hook.digest Hook.api (Hook.signed "ping" Hook.ping) Hook.start).2
= Hook.start
∧ ((Webhook.handle_webhook Scenario.calm Scenario.registry Hook.secret
      Hook.digest Hook.api (Hook.signed "ping" Hook.ping) Hook.start).1
   = Ok ok_response
   ↔ is_Some (Webhook.payload (Hook.signed "ping" Hook.ping))
     ∧ (Webhook.github_event (Hook.signed "ping" Hook.ping)
          ∈ [Some "workflow_run"; Some "workflow_job"] →
        is_Some (Webhook.payload (Hook.signed "ping" Hook.ping)
                   ≫= Webhook.action))).
Proof.
apply (X19_other_deliveries_change_nothing Scenario.calm Scenario.registry
         Hook.secret Hook.digest Hook.api (Hook.signed "ping" Hook.ping)
         Hook.start).
- exists "s3cret". split_and!; [reflexivity|discriminate|reflexivity].
- discriminate.
- discriminate.
Defined.


(** X21. The pending report on a queued job is made exactly when the job
    is named [build] and the run it belongs to is, by the answer of the
    API, a push of a recognised workflow whose [branch] is a registered
    target. *)
Theorem X21_waiting_report_condition (env : Env)
  (config : gmap string Config.Target)
  (run_get : list op → string → option (gmap string string))
  (job : Webhook.JobEvent) (s : State) (workflow : string) :
trace (Webhook.handle_workflow_job_queued env config run_get job s).2
= trace s ++ [OGet (Webhook.run_url job); waiting_report job workflow]
↔ Webhook.job_name job = "build"
  ∧ ∃ response,
      run_get (trace s) (Webhook.run_url job) = Some response
      ∧ deployable config response workflow.
Proof. apply job_queued_report. Qed.

(** X22. The branch of the run of a queued job is read under the key
    [branch], where the handler of completed runs reads [head_branch]:
    when the answer of the API describes a push of a recognised workflow
    and has no key [branch], the handler raises [KeyError] after the
    request, and no report is made. *)
Theorem X22_queued_job_missing_branch (env : Env)
  (config : gmap string Config.Target)
  (run_get : list op → string → option (gmap string string))
  (job : Webhook.JobEvent) (s : State) (response : gmap string string)
  (workflow : string) :
Webhook.job_name job = "build" →
run_get (trace s) (Webhook.run_url job) = Some response →
response !! "name" = Some workflow →
workflow ∈ ["build-experiences"; "build-controls"] →
response !! "event" = Some "push" →
response !! "branch" = None →
Webhook.handle_workflow_job_queued env config run_get job s
= (Raise (KeyError "branch"), log (OGet (Webhook.run_url job)) s).
Proof. apply job_queued_missing_branch. Qed.

Lemma X22_queued_job_witness :
Webhook.handle_workflow_job_queued Scenario.calm Scenario.registry Hook.api
  Hook.job Hook.start
= (Raise (KeyError "branch"),
   log (OGet (Webhook.run_url Hook.job)) Hook.start).
Proof.
apply (X22_queued_job_missing_branch Scenario.calm Scenario.registry
         Hook.api Hook.job Hook.start Hook.run_response
         "build-experiences");
  try reflexivity.
apply list_elem_of_here.
Defined.

(** X23. A signed [workflow_job] delivery with the action [queued] is the
    run of [handle_workflow_job_queued] on its job: an exception of the
    handler leaves the endpoint, and the answer is [{"status": "ok"}]
    when it returns. *)
Theorem X23_queued_job_is_handled (env : Env)
  (config : gmap string Config.Target) (secret : option string)
  (hmac_sha256 : string → string → string)
  (run_get : list op → string → option (gmap string string))
  (request : Webhook.Request) (p : Webhook.Payload)
  (job : Webhook.JobEvent) (s : State) :
authentic secret hmac_sha256 request →
Webhook.github_event request = Some "workflow_job" →
Webhook.payload request = Some p →
Webhook.action p = Some "queued" →
Webhook.workflow_job p = Some job →
Webhook.handle_webhook env config secret hmac_sha256 run_get request s
= (respond (Webhook.handle_workflow_job_queued env config run_get job s).1,
   (Webhook.handle_workflow_job_queued env config run_get job s).2).
Proof. apply webhook_job_queued. Qed.

Lemma X23_queued_job_witness :
Webhook.handle_webhook Scenario.calm Scenario.registry Hook.secret
  Hook.digest Hook.api (Hook.signed "workflow_job" Hook.queued_job)
  Hook.start
= (respond (Webhook.handle_workflow_job_queued Scenario.calm
              Scenario.registry Hook.api Hook.job Hook.start).1,
   (Webhook.handle_workflow_job_queued Scenario.calm
      Scenario.registry Hook.api Hook.job Hook.start).2).
Proof.
apply (X23_queued_job_is_handled Scenario.calm Scenario.registry
         Hook.secret Hook.digest Hook.api
         (Hook.signed "workflow_job" Hook.queued_job) Hook.queued_job
         Hook.job Hook.start);
  try reflexivity.
exists "s3cret". split_and!; [reflexivity|discriminate|reflexivity].
Defined.
